(** * GradescopeSync: date normalisation, record extraction, event projection

    A shallow embedding of the core of the repository:
      - [ical_generator.parse_date]  (and its twin
        [sync_gradescope.GoogleCalendarClient._parse_date]),
      - [sync_gradescope.GradescopeClient.get_assignments],
      - [generate_ical.main]'s record formatting,
      - [ical_generator.create_event] and [ical_generator.create_calendar].

    Conventions of the embedding.
      - A Python [str] is a Rocq [string]; its characters are the code points
        U+0000..U+00FF, and the character classes below are the ones CPython
        uses on that range.
      - A Python value that is [None] or a [str] is an [option string].
      - Exceptions are explicit: a computation returns [res A], either
        [Ok a] or [Raise e].
      - The wall clock is explicit: [datetime.now().year] is the argument
        [current_year], [datetime.utcnow()] the argument [utcnow].
      - Library code the repository calls ([re], [datetime.strptime],
        [int], BeautifulSoup's tree queries) is modelled after CPython 3.11
        and bs4 4.x in the C/English locale. *)

From Stdlib Require Import ZArith NArith Ascii String List Bool Lia Permutation.
From Stdlib Require Import DecimalString.
From stdpp Require Import base option list gmap strings.

Local Open Scope Z_scope.
#[local] Arguments String.append : simpl nomatch.

(* ===================================================================== *)
(** * Python primitives *)
(* ===================================================================== *)

Module Py.

(** ** Exceptions *)

Inductive exn : Type :=
| ValueError
| OverflowError
| KeyError
| IndexError
| AttributeError
| OSError.

Inductive res (A : Type) : Type :=
| Ok (a : A)
| Raise (e : exn).
Arguments Ok {A} a.
Arguments Raise {A} e.

Definition bind {A B : Type} (m : res A) (f : A -> res B) : res B :=
  match m with
  | Ok a => f a
  | Raise e => Raise e
  end.

(** [try: m  except ValueError: h]. Other exceptions propagate. *)
Definition except_ValueError {A : Type} (m : res A) (h : res A) : res A :=
  match m with
  | Raise ValueError => h
  | _ => m
  end.

(** ** Characters *)

Definition ord (c : ascii) : N := N_of_ascii c.

Definition in_range (lo hi : N) (c : ascii) : bool :=
  ((lo <=? ord c) && (ord c <=? hi))%N.

(** [\d] on U+0000..U+00FF: the ASCII digits. *)
Definition is_digit (c : ascii) : bool := in_range 48 57 c.

(** [\s] and [str.isspace] on U+0000..U+00FF:
    TAB..CR, FS..US, SPACE, NEL (U+0085) and NBSP (U+00A0). *)
Definition is_space (c : ascii) : bool :=
  in_range 9 13 c || in_range 28 32 c || (ord c =? 133)%N || (ord c =? 160)%N.

(** [\w] on U+0000..U+00FF: [str.isalnum] or underscore. *)
Definition is_word (c : ascii) : bool :=
  in_range 48 57 c || in_range 65 90 c || (ord c =? 95)%N || in_range 97 122 c
  || (ord c =? 170)%N || in_range 178 179 c || (ord c =? 181)%N
  || in_range 185 186 c || in_range 188 190 c
  || in_range 192 214 c || in_range 216 246 c || in_range 248 255 c.

(** [str.lower] on one character of U+0000..U+00FF. *)
Definition lower (c : ascii) : ascii :=
  if in_range 65 90 c || in_range 192 214 c || in_range 216 222 c
  then ascii_of_N (ord c + 32) else c.

(** [str.upper] on one character; the three characters of the range whose
    upper case leaves it (U+00B5, U+00DF, U+00FF) are left alone: the
    program upper-cases only what [[AP]M] matched. *)
Definition upper (c : ascii) : ascii :=
  if in_range 97 122 c || in_range 224 246 c || in_range 248 254 c
  then ascii_of_N (ord c - 32) else c.

(** ** Strings *)

Fixpoint str_map (f : ascii -> ascii) (s : string) : string :=
  match s with
  | EmptyString => EmptyString
  | String c s' => String (f c) (str_map f s')
  end.

Definition str_lower : string -> string := str_map lower.
Definition str_upper : string -> string := str_map upper.

Fixpoint lstrip (s : string) : string :=
  match s with
  | String c s' => if is_space c then lstrip s' else s
  | EmptyString => EmptyString
  end.

(** Strip trailing whitespace: an all-whitespace tail is dropped. *)
Fixpoint rstrip (s : string) : string :=
  match s with
  | EmptyString => EmptyString
  | String c s' =>
      match rstrip s' with
      | EmptyString => if is_space c then EmptyString else String c EmptyString
      | t => String c t
      end
  end.

(** [s.strip()] *)
Definition strip (s : string) : string := rstrip (lstrip s).

(** Python truthiness of a [str]. *)
Definition nonempty (s : string) : bool :=
  match s with
  | EmptyString => false
  | String _ _ => true
  end.

(** Python truthiness of a value that is [None] or a [str]. *)
Definition truthy (v : option string) : bool :=
  match v with
  | Some s => nonempty s
  | None => false
  end.

(** [f"{v}"] for a value that is [None] or a [str]. *)
Definition fmt (v : option string) : string :=
  match v with
  | Some s => s
  | None => "None"
  end.

(** [s[i:j]] for [0 <= i <= j]. *)
Definition slice (i j : nat) (s : string) : string := substring i (j - i) s.

(** [s[i:]] *)
Fixpoint slice_from (i : nat) (s : string) : string :=
  match i, s with
  | O, _ => s
  | S i', String _ s' => slice_from i' s'
  | S _, EmptyString => EmptyString
  end.

(** [s[i]], raising [IndexError] out of range. *)
Definition char_at (i : nat) (s : string) : res ascii :=
  match String.get i s with
  | Some c => Ok c
  | None => Raise IndexError
  end.

(** [sub in s] *)
Fixpoint contains (sub s : string) : bool :=
  String.prefix sub s ||
  match s with
  | EmptyString => false
  | String _ s' => contains sub s'
  end.

(** [sep.join(l)] *)
Fixpoint join (sep : string) (l : list string) : string :=
  match l with
  | [] => EmptyString
  | [x] => x
  | x :: l' => (x ++ sep ++ join sep l')%string
  end.

Fixpoint repeat_char (c : ascii) (n : nat) : string :=
  match n with
  | O => EmptyString
  | S n' => String c (repeat_char c n')
  end.

(** ** [int(str)] *)

Definition digit_val (c : ascii) : Z := Z.of_N (ord c) - 48.

(** Digits with single underscores between them; [seen] is the number of
    digits read, [prev] says whether the previous character was a digit. *)
Fixpoint int_digits (s : string) (acc : Z) (seen : nat) (prev : bool)
  : option (Z * nat) :=
  match s with
  | EmptyString => if prev then Some (acc, seen) else None
  | String c s' =>
      if is_digit c then int_digits s' (10 * acc + digit_val c) (S seen) true
      else if Ascii.eqb c "_" then
             if prev then int_digits s' acc seen false else None
           else None
  end.

(** [sys.get_int_max_str_digits()] *)
Definition max_str_digits : nat := 4300.

(** [int(s)]: surrounding whitespace, an optional sign, decimal digits.
    Raises [ValueError] on anything else and on more than
    [max_str_digits] digits. *)
Definition int (s : string) : res Z :=
  let t := strip s in
  let '(sign, body) :=
    match t with
    | String "-" b => (-1, b)
    | String "+" b => (1, b)
    | _ => (1, t)
    end in
  match int_digits body 0 0 false with
  | Some (v, n) => if (max_str_digits <? n)%nat then Raise ValueError
                   else Ok (sign * v)
  | None => Raise ValueError
  end.

(** [list[i]] for [i >= 0], raising [IndexError] out of range. *)
Definition index {A : Type} (l : list A) (i : nat) : res A :=
  match nth_error l i with
  | Some x => Ok x
  | None => Raise IndexError
  end.

(** [seq.index(x)], raising [ValueError] when absent. *)
Fixpoint index_of (x : string) (l : list string) : res Z :=
  match l with
  | [] => Raise ValueError
  | y :: l' => if String.eqb y x then Ok 0
               else bind (index_of x l') (fun i => Ok (i + 1))
  end.

(** ["%0wd" % n]: the decimal digits of [n], filled with zeros on the left
    up to [w] characters, the sign included. *)
Definition zero_padded (w : nat) (n : Z) : string :=
  let digits := NilZero.string_of_uint (N.to_uint (Z.to_N (Z.abs n))) in
  if n <? 0
  then String "-" (repeat_char "0" (w - 1 - String.length digits) ++ digits)
  else (repeat_char "0" (w - String.length digits) ++ digits)%string.

(** [s.split(sep)] for a separator of one character. *)
Fixpoint split (sep : ascii) (s : string) : list string :=
  match s with
  | EmptyString => [EmptyString]
  | String c s' =>
      if Ascii.eqb c sep then EmptyString :: split sep s'
      else match split sep s' with
           | x :: l => String c x :: l
           | [] => [String c EmptyString]
           end
  end.

(** [l[-1]], raising [IndexError] on the empty list. *)
Fixpoint last_item {A : Type} (l : list A) : res A :=
  match l with
  | [] => Raise IndexError
  | [x] => Ok x
  | _ :: l' => last_item l'
  end.

End Py.

Import Py.

Notation "'let!' x ':=' m 'in' k" := (Py.bind m (fun x => k))
  (at level 10, x name, m at level 100, k at level 200, only parsing).
Notation "'let!' ' p ':=' m 'in' k" :=
  (Py.bind m (fun x => let 'p := x in k))
  (at level 10, p strict pattern, m at level 100, k at level 200,
   only parsing).

(* ===================================================================== *)
(** * Regular expressions: the fragment of [re] the program uses *)
(* ===================================================================== *)

(** A backtracking matcher with Python's priorities: alternatives are tried
    left to right, repetition is greedy, and the first way of matching that
    lets the rest of the pattern succeed wins. *)

Module Re.

Inductive cclass : Type :=
| Digit                     (* \d *)
| Space                     (* \s *)
| Word                      (* \w *)
| Range (lo hi : ascii)     (* [lo-hi] *)
| OneOf (cs : string).      (* [abc] *)

Inductive regex : Type :=
| Eps
| Chr (c : ascii)           (* a literal character, subject to IGNORECASE *)
| ChrCS (c : ascii)         (* (?-i:c) *)
| Cls (c : cclass)
| Seq (r1 r2 : regex)
| Alt (r1 r2 : regex)
| Star (c : cclass)         (* greedy c* *)
| Group (name : string) (r : regex).

Infix ">>" := Seq (at level 41, right associativity).
Infix "<|>" := Alt (at level 51, right associativity).

(** [c+], [r?] and [c{1,n+1}], all greedy. *)
Definition Plus (c : cclass) : regex := Cls c >> Star c.
Definition Opt (r : regex) : regex := r <|> Eps.
Fixpoint UpTo (n : nat) (c : cclass) : regex :=
  match n with
  | O => Cls c
  | S n' => Cls c >> Opt (UpTo n' c)
  end.

(** A literal string. *)
Fixpoint lit (s : string) : regex :=
  match s with
  | EmptyString => Eps
  | String c EmptyString => Chr c
  | String c s' => Chr c >> lit s'
  end.

(** [r1|r2|...|rn] *)
Fixpoint alts (rs : list regex) : regex :=
  match rs with
  | [] => Eps
  | [r] => r
  | r :: rs' => r <|> alts rs'
  end.

Fixpoint mem (c : ascii) (cs : string) : bool :=
  match cs with
  | EmptyString => false
  | String a cs' => Ascii.eqb a c || mem c cs'
  end.

(** Under IGNORECASE a character is compared through its lower case. *)
Definition fold_case (ic : bool) (c : ascii) : ascii :=
  if ic then lower c else c.

Definition chr_match (ic : bool) (c a : ascii) : bool :=
  Ascii.eqb (fold_case ic a) (fold_case ic c).

Definition cls_match (ic : bool) (c : cclass) (a : ascii) : bool :=
  match c with
  | Digit => is_digit a
  | Space => is_space a
  | Word => is_word a
  | Range lo hi => in_range (ord lo) (ord hi) (fold_case ic a)
  | OneOf cs => mem (fold_case ic a) (str_map (fold_case ic) cs)
  end.

(** The groups matched so far, most recent first. *)
Definition captures : Type := list (string * string).

(** The part of [s] in front of its suffix [rest]. *)
Definition consumed (s rest : string) : string :=
  substring 0 (String.length s - String.length rest) s.

Section Matcher.
Context {A : Type}.
Variable ic : bool.

Fixpoint star (c : cclass) (s : string) (k : string -> option A) : option A :=
  match s with
  | String a s' =>
      if cls_match ic c a then
        match star c s' k with
        | Some x => Some x
        | None => k s
        end
      else k s
  | EmptyString => k s
  end.

Fixpoint rmatch (r : regex) (s : string) (caps : captures)
    (k : string -> captures -> option A) : option A :=
  match r with
  | Eps => k s caps
  | Chr c =>
      match s with
      | String a s' => if chr_match ic c a then k s' caps else None
      | EmptyString => None
      end
  | ChrCS c =>
      match s with
      | String a s' => if Ascii.eqb a c then k s' caps else None
      | EmptyString => None
      end
  | Cls c =>
      match s with
      | String a s' => if cls_match ic c a then k s' caps else None
      | EmptyString => None
      end
  | Seq r1 r2 => rmatch r1 s caps (fun s' caps' => rmatch r2 s' caps' k)
  | Alt r1 r2 =>
      match rmatch r1 s caps k with
      | Some x => Some x
      | None => rmatch r2 s caps k
      end
  | Star c => star c s (fun s' => k s' caps)
  | Group name r1 =>
      rmatch r1 s caps (fun s' caps' => k s' ((name, consumed s s') :: caps'))
  end.

End Matcher.

(** [pattern.match(s)]: the groups and the unconsumed rest of [s]. *)
Definition re_match (ic : bool) (r : regex) (s : string)
  : option (captures * string) :=
  rmatch ic r s [] (fun rest caps => Some (caps, rest)).

(** [pattern.search(s)]: the leftmost position at which [match] succeeds. *)
Fixpoint re_search (ic : bool) (r : regex) (s : string) : option captures :=
  match re_match ic r s with
  | Some (caps, _) => Some caps
  | None =>
      match s with
      | String _ s' => re_search ic r s'
      | EmptyString => None
      end
  end.

(** [m.group(name)] for a group that took part in the match. *)
Fixpoint group (caps : captures) (name : string) : option string :=
  match caps with
  | [] => None
  | (n, v) :: caps' => if String.eqb n name then Some v else group caps' name
  end.

(** [m.groupdict().keys()]: group names in pattern order. *)
Definition keys (caps : captures) : list string := map fst (rev caps).

End Re.

Import Re.

(* ===================================================================== *)
(** * [datetime] *)
(* ===================================================================== *)

Module Datetime.

(** [tzinfo] is a fixed offset from UTC in microseconds, [None] for a
    naive value. *)
Record datetime : Type := mkdt {
  year : Z; month : Z; day : Z;
  hour : Z; minute : Z; second : Z; microsecond : Z;
  tzinfo : option Z
}.

Definition is_leap (y : Z) : bool :=
  (y mod 4 =? 0) && (negb (y mod 100 =? 0) || (y mod 400 =? 0)).

Definition days_in_month (y m : Z) : Z :=
  if m =? 2 then (if is_leap y then 29 else 28)
  else if (m =? 4) || (m =? 6) || (m =? 9) || (m =? 11) then 30
  else 31.

Definition MINYEAR : Z := 1.
Definition MAXYEAR : Z := 9999.

(** The constructor takes C ints. *)
Definition fits_int (n : Z) : bool := (-2147483648 <=? n) && (n <=? 2147483647).

Definition check_date_args (y m d : Z) : res unit :=
  if negb ((MINYEAR <=? y) && (y <=? MAXYEAR)) then Raise ValueError
  else if negb ((1 <=? m) && (m <=? 12)) then Raise ValueError
  else if negb ((1 <=? d) && (d <=? days_in_month y m)) then Raise ValueError
  else Ok tt.

Definition check_time_args (h mi s us : Z) : res unit :=
  if negb ((0 <=? h) && (h <=? 23)) then Raise ValueError
  else if negb ((0 <=? mi) && (mi <=? 59)) then Raise ValueError
  else if negb ((0 <=? s) && (s <=? 59)) then Raise ValueError
  else if negb ((0 <=? us) && (us <=? 999999)) then Raise ValueError
  else Ok tt.

(** [datetime.date(y, m, d)], kept for its exception only. *)
Definition date (y m d : Z) : res unit :=
  if negb (fits_int y && fits_int m && fits_int d) then Raise OverflowError
  else check_date_args y m d.

(** [datetime(y, m, d, h, mi, s, us, tz)] *)
Definition new (y m d h mi s us : Z) (tz : option Z) : res datetime :=
  if negb (fits_int y && fits_int m && fits_int d && fits_int h
           && fits_int mi && fits_int s && fits_int us)
  then Raise OverflowError
  else
    let! _ := check_date_args y m d in
    let! _ := check_time_args h mi s us in
    Ok (mkdt y m d h mi s us tz).

(** [dt.replace(year=y)] *)
Definition replace_year (dt : datetime) (y : Z) : res datetime :=
  new y (month dt) (day dt) (hour dt) (minute dt) (second dt)
      (microsecond dt) (tzinfo dt).

(** [timezone(timedelta(seconds=s, microseconds=us))]: the offset must lie
    strictly between -24 h and 24 h. *)
Definition timezone (s us : Z) : res Z :=
  let off := s * 1000000 + us in
  if (-86400000000 <? off) && (off <? 86400000000) then Ok off
  else Raise ValueError.

(** The offset of [isoformat]: sign, hours and minutes, then the seconds
    and the microseconds when there are any. *)
Definition format_offset (tz : option Z) : string :=
  match tz with
  | None => ""
  | Some off =>
      let sign := if off <? 0 then "-" else "+" in
      let microseconds := Z.abs off mod 1000000 in
      let seconds := Z.abs off / 1000000 in
      let minutes := seconds / 60 in
      let seconds := seconds mod 60 in
      let hours := minutes / 60 in
      let minutes := minutes mod 60 in
      (sign ++ zero_padded 2 hours ++ ":" ++ zero_padded 2 minutes
       ++ (if negb (microseconds =? 0)%Z
           then ":" ++ zero_padded 2 seconds ++ "." ++ zero_padded 6 microseconds
           else if negb (seconds =? 0)%Z then ":" ++ zero_padded 2 seconds
                else ""))%string
  end.

(** [dt.isoformat()] *)
Definition isoformat (dt : datetime) : string :=
  (zero_padded 4 (year dt) ++ "-" ++ zero_padded 2 (month dt) ++ "-"
   ++ zero_padded 2 (day dt) ++ "T" ++ zero_padded 2 (hour dt) ++ ":"
   ++ zero_padded 2 (minute dt) ++ ":" ++ zero_padded 2 (second dt)
   ++ (if negb (microsecond dt =? 0)%Z
       then "." ++ zero_padded 6 (microsecond dt) else "")
   ++ format_offset (tzinfo dt))%string.

End Datetime.

(* ===================================================================== *)
(** * [datetime.strptime] *)
(* ===================================================================== *)

(** After CPython 3.11's [_strptime.py], for the directives the program's
    format strings use. *)

Module Strptime.

(** ** [LocaleTime] in the C locale *)

Definition f_month : list string :=
  [""; "january"; "february"; "march"; "april"; "may"; "june"; "july";
   "august"; "september"; "october"; "november"; "december"].

Definition a_month : list string :=
  [""; "jan"; "feb"; "mar"; "apr"; "may"; "jun"; "jul";
   "aug"; "sep"; "oct"; "nov"; "dec"].

Definition am_pm : list string := ["am"; "pm"].

(** ** [TimeRE] *)

(** [sorted(to_convert, key=len, reverse=True)]: stable, longest first. *)
Fixpoint insert_by_len (x : string) (l : list string) : list string :=
  match l with
  | [] => [x]
  | y :: l' =>
      if (String.length y <? String.length x)%nat then x :: l
      else y :: insert_by_len x l'
  end.

Definition sorted_by_len (l : list string) : list string :=
  fold_left (fun acc x => insert_by_len x acc) l [].

(** [__seqToRE] *)
Definition seqToRE (to_convert : list string) (directive : string) : regex :=
  Group directive (alts (map lit (sorted_by_len to_convert))).

Definition r09 : regex := Cls Digit.
Definition r (lo hi : ascii) : regex := Cls (Range lo hi).

(** The entries of the [TimeRE] table. *)
Definition re_d : regex :=        (* 3[0-1]|[1-2]\d|0[1-9]|[1-9]| [1-9] *)
  Group "d" (Chr "3" >> r "0" "1" <|> r "1" "2" >> r09
             <|> Chr "0" >> r "1" "9" <|> r "1" "9" <|> Chr " " >> r "1" "9").
Definition re_H : regex :=        (* 2[0-3]|[0-1]\d|\d *)
  Group "H" (Chr "2" >> r "0" "3" <|> r "0" "1" >> r09 <|> r09).
Definition re_I : regex :=        (* 1[0-2]|0[1-9]|[1-9] *)
  Group "I" (Chr "1" >> r "0" "2" <|> Chr "0" >> r "1" "9" <|> r "1" "9").
Definition re_m : regex :=        (* 1[0-2]|0[1-9]|[1-9] *)
  Group "m" (Chr "1" >> r "0" "2" <|> Chr "0" >> r "1" "9" <|> r "1" "9").
Definition re_M : regex :=        (* [0-5]\d|\d *)
  Group "M" (r "0" "5" >> r09 <|> r09).
Definition re_S : regex :=        (* 6[0-1]|[0-5]\d|\d *)
  Group "S" (Chr "6" >> r "0" "1" <|> r "0" "5" >> r09 <|> r09).
Definition re_Y : regex :=        (* \d\d\d\d *)
  Group "Y" (r09 >> r09 >> r09 >> r09).
Definition re_z : regex :=
  (* [+-]\d\d:?[0-5]\d(:?[0-5]\d(\.\d{1,6})?)?|(?-i:Z) *)
  Group "z" (Cls (OneOf "+-") >> r09 >> r09 >> Opt (Chr ":")
             >> r "0" "5" >> r09
             >> Opt (Opt (Chr ":") >> r "0" "5" >> r09
                     >> Opt (Chr "." >> UpTo 5 Digit))
             <|> ChrCS "Z").
Definition re_B : regex := seqToRE (tl f_month) "B".
Definition re_b : regex := seqToRE (tl a_month) "b".
Definition re_p : regex := seqToRE am_pm "p".

Definition directive (c : ascii) : option regex :=
  match c with
  | "d"%char => Some re_d
  | "H"%char => Some re_H
  | "I"%char => Some re_I
  | "m"%char => Some re_m
  | "M"%char => Some re_M
  | "S"%char => Some re_S
  | "Y"%char => Some re_Y
  | "z"%char => Some re_z
  | "B"%char => Some re_B
  | "b"%char => Some re_b
  | "p"%char => Some re_p
  | _ => None
  end.

(** [TimeRE.pattern]: a run of whitespace in the format becomes [\s+], a
    directive its pattern, any other character itself. [ws] says that the
    previous character was whitespace. An unknown directive or a stray [%]
    gives [None]. *)
Fixpoint pattern_from (ws : bool) (format : string) : option regex :=
  match format with
  | EmptyString => Some Eps
  | String "%" EmptyString => None
  | String "%" (String d rest) =>
      match directive d, pattern_from false rest with
      | Some r, Some p => Some (r >> p)
      | _, _ => None
      end
  | String c rest =>
      if is_space c then
        if ws then pattern_from true rest
        else match pattern_from true rest with
             | Some p => Some (Plus Space >> p)
             | None => None
             end
      else match pattern_from false rest with
           | Some p => Some (Chr c >> p)
           | None => None
           end
  end.

Definition pattern (format : string) : option regex := pattern_from false format.

(** ** [_strptime]: from the matched groups to the fields *)

Record fields : Type := mkfields {
  f_year : option Z; f_month_ : Z; f_day : Z;
  f_hour : Z; f_minute : Z; f_second : Z;
  f_gmtoff : option Z; f_gmtoff_fraction : Z
}.

Definition fields0 : fields := mkfields None 1 1 0 0 0 None 0.

Definition getitem (found_dict : captures) (key : string) : res string :=
  match group found_dict key with
  | Some v => Ok v
  | None => Raise KeyError
  end.

(** The [elif group_key == 'z'] branch. *)
Definition parse_z (z0 : string) : res (Z * Z) :=
  if String.eqb z0 "Z" then Ok (0, 0)
  else
    let! c3 := char_at 3 z0 in
    let! z :=
      if Ascii.eqb c3 ":" then
        let z1 := (slice 0 3 z0 ++ slice_from 4 z0)%string in
        if (5 <? String.length z1)%nat then
          let! c5 := char_at 5 z1 in
          if negb (Ascii.eqb c5 ":") then Raise ValueError
          else Ok (slice 0 5 z1 ++ slice_from 6 z1)%string
        else Ok z1
      else Ok z0 in
    let! hours := int (slice 1 3 z) in
    let! minutes := int (slice 3 5 z) in
    let! seconds :=
      (if nonempty (slice 5 7 z) then int (slice 5 7 z) else Ok 0) in
    let gmtoff := hours * 60 * 60 + minutes * 60 + seconds in
    let gmtoff_remainder := slice_from 8 z in
    let gmtoff_remainder_padding :=
      repeat_char "0" (6 - String.length gmtoff_remainder) in
    let! gmtoff_fraction :=
      int (gmtoff_remainder ++ gmtoff_remainder_padding)%string in
    if String.prefix "-" z then Ok (- gmtoff, - gmtoff_fraction)
    else Ok (gmtoff, gmtoff_fraction).

(** One turn of [for group_key in found_dict.keys()]. *)
Definition step (found_dict : captures) (st : fields) (group_key : string)
  : res fields :=
  let '(mkfields y mo d h mi s off frac) := st in
  if String.eqb group_key "Y" then
    let! v := getitem found_dict "Y" in
    let! n := int v in Ok (mkfields (Some n) mo d h mi s off frac)
  else if String.eqb group_key "m" then
    let! v := getitem found_dict "m" in
    let! n := int v in Ok (mkfields y n d h mi s off frac)
  else if String.eqb group_key "B" then
    let! v := getitem found_dict "B" in
    let! n := index_of (str_lower v) f_month in
    Ok (mkfields y n d h mi s off frac)
  else if String.eqb group_key "b" then
    let! v := getitem found_dict "b" in
    let! n := index_of (str_lower v) a_month in
    Ok (mkfields y n d h mi s off frac)
  else if String.eqb group_key "d" then
    let! v := getitem found_dict "d" in
    let! n := int v in Ok (mkfields y mo n h mi s off frac)
  else if String.eqb group_key "H" then
    let! v := getitem found_dict "H" in
    let! n := int v in Ok (mkfields y mo d n mi s off frac)
  else if String.eqb group_key "I" then
    let! v := getitem found_dict "I" in
    let! hour := int v in
    let ampm :=
      str_lower (match group found_dict "p" with Some p => p | None => "" end) in
    let hour' :=
      if String.eqb ampm "" || String.eqb ampm "am" then
        (if hour =? 12 then 0 else hour)
      else if String.eqb ampm "pm" then
        (if negb (hour =? 12) then hour + 12 else hour)
      else hour in
    Ok (mkfields y mo d hour' mi s off frac)
  else if String.eqb group_key "M" then
    let! v := getitem found_dict "M" in
    let! n := int v in Ok (mkfields y mo d h n s off frac)
  else if String.eqb group_key "S" then
    let! v := getitem found_dict "S" in
    let! n := int v in Ok (mkfields y mo d h mi n off frac)
  else if String.eqb group_key "z" then
    let! v := getitem found_dict "z" in
    let! '(g, gf) := parse_z v in
    Ok (mkfields y mo d h mi s (Some g) gf)
  else Ok st.

Fixpoint steps (found_dict : captures) (st : fields) (ks : list string)
  : res fields :=
  match ks with
  | [] => Ok st
  | group_key :: ks' =>
      let! st' := step found_dict st group_key in
      steps found_dict st' ks'
  end.

(** [_strptime]: the regular expression must match at the start of the
    string and consume all of it; the date is then checked (in year 1904
    for a year-less February 29, which is handed on as 1900). *)
Definition _strptime (data_string format : string) : res fields :=
  match pattern format with
  | None => Raise ValueError
  | Some format_regex =>
      match re_match true format_regex data_string with
      | None => Raise ValueError
      | Some (found_dict, rest) =>
          if nonempty rest then Raise ValueError
          else
            let! st := steps found_dict fields0 (keys found_dict) in
            let '(mkfields y mo d h mi s off frac) := st in
            let leap_year_fix :=
              match y with
              | None => (mo =? 2) && (d =? 29)
              | Some _ => false
              end in
            let year :=
              match y with
              | Some v => v
              | None => if leap_year_fix then 1904 else 1900
              end in
            let! _ := Datetime.date year mo d in
            let! _ := Datetime.date year 1 1 in
            let year := if leap_year_fix then 1900 else year in
            Ok (mkfields (Some year) mo d h mi s off frac)
      end
  end.

(** [_strptime_datetime], that is [datetime.strptime]. *)
Definition strptime (data_string format : string) : res Datetime.datetime :=
  let! tt := _strptime data_string format in
  let '(mkfields y mo d h mi s gmtoff gmtoff_fraction) := tt in
  let year := match y with Some v => v | None => 1900 end in
  match gmtoff with
  | Some g =>
      let! tz := Datetime.timezone g gmtoff_fraction in
      Datetime.new year mo d h mi s 0 (Some tz)
  | None => Datetime.new year mo d h mi s 0 None
  end.

End Strptime.

Import Datetime.

(* ===================================================================== *)
(** * ical_generator.py *)
(* ===================================================================== *)

Module ical_generator.

(** ** [parse_date] *)

Definition formats_with_year : list string :=
  [ "%Y-%m-%d %H:%M:%S %z";
    "%Y-%m-%dT%H:%M:%S%z";
    "%Y-%m-%dT%H:%M:%S";
    "%b %d, %Y %I:%M %p";
    "%b %d, %Y at %I:%M %p";
    "%B %d, %Y %I:%M %p";
    "%B %d, %Y at %I:%M %p";
    "%m/%d/%Y %I:%M %p" ].

Definition formats_without_year : list string :=
  [ "%B %d at %I:%M%p";
    "%B %d at %I:%M %p";
    "%b %d at %I:%M%p";
    "%b %d at %I:%M %p";
    "%B %d %I:%M%p";
    "%B %d %I:%M %p" ].

(** [(\w+)\s+(\d+)\s+at\s+(\d+):(\d+)\s*([AP]M)] *)
Definition month_day_at_time : regex :=
  Group "1" (Plus Word) >> Plus Space >> Group "2" (Plus Digit)
  >> Plus Space >> Chr "a" >> Chr "t" >> Plus Space
  >> Group "3" (Plus Digit) >> Chr ":" >> Group "4" (Plus Digit)
  >> Star Space >> Group "5" (Cls (OneOf "AP") >> Chr "M").

(** [for fmt in fmts: try: return body(fmt)  except ValueError: continue],
    followed by [otherwise] when no format returned. *)
Fixpoint for_formats (body : string -> res datetime) (fmts : list string)
    (otherwise : res (option datetime)) : res (option datetime) :=
  match fmts with
  | [] => otherwise
  | fmt :: fmts' =>
      except_ValueError (let! d := body fmt in Ok (Some d))
                        (for_formats body fmts' otherwise)
  end.

(** The month of the regex branch: [Some] month number, or [None] where
    the code returns [None]. *)
Definition month_of (month_str : string) : res (option Z) :=
  except_ValueError
    (let! month_dt := Strptime.strptime month_str "%B" in
     Ok (Some (month month_dt)))
    (except_ValueError
       (let! month_dt := Strptime.strptime month_str "%b" in
        Ok (Some (month month_dt)))
       (Ok None)).

(** The body of [if match:]. Every group of the pattern takes part in a
    match, so the last case of the [match] below is never reached. *)
Definition from_match (m : captures) (current_year : Z)
  : res (option datetime) :=
  match group m "1", group m "2", group m "3", group m "4", group m "5" with
  | Some month_str, Some day, Some hour, Some minute, Some ampm =>
      let! mo := month_of month_str in
      match mo with
      | None => Ok None
      | Some month =>
          let! hour := int hour in
          let! minute := int minute in
          let! day := int day in
          let hour :=
            if String.eqb (str_upper ampm) "PM" && negb (hour =? 12)
            then hour + 12
            else if String.eqb (str_upper ampm) "AM" && (hour =? 12)
                 then 0
                 else hour in
          let! dt := Datetime.new current_year month day hour minute 0 0 None in
          Ok (Some dt)
      end
  | _, _, _, _, _ => Raise AttributeError
  end.

Definition parse_date (date_str : option string) (current_year : Z)
  : res (option datetime) :=
  match date_str with
  | None => Ok None
  | Some EmptyString => Ok None
  | Some date_str =>
      let date_str := strip date_str in
      for_formats (fun fmt => Strptime.strptime date_str fmt)
        formats_with_year
        (for_formats
           (fun fmt =>
              let! parsed := Strptime.strptime date_str fmt in
              replace_year parsed current_year)
           formats_without_year
           (match re_search true month_day_at_time date_str with
            | Some m => from_match m current_year
            | None => Ok None
            end))
  end.

(** ** [create_event], [create_calendar] *)


(** An assignment dict as [create_event] receives it: a key is absent, or
    bound to [None] or to a string. *)
Abbreviation dict := (gmap string (option string)).

(** [d.get(key)] *)
Definition dget (d : dict) (key : string) : option string :=
  match d !! key with
  | Some v => v
  | None => None
  end.

(** [d.get(key, default)] *)
Definition dget_default (d : dict) (key : string) (default : option string)
  : option string :=
  match d !! key with
  | Some v => v
  | None => default
  end.

(** [d[key]] *)
Definition ditem (d : dict) (key : string) : res (option string) :=
  match d !! key with
  | Some v => Ok v
  | None => Raise KeyError
  end.

(** The properties [create_event] adds to an [Event]. *)
Record Event : Type := mk_event {
  summary : string;
  uid : string;
  dtstart : datetime;
  dtend : datetime;
  dtstamp : datetime;
  description : string;
  url : option string
}.

Definition create_event (assignment : dict) (utcnow : datetime)
    (current_year : Z) : res (option Event) :=
  let! due_date :=
    parse_date (dget assignment "due_date") current_year in
  match due_date with
  | None => Ok None
  | Some due_date =>
      let! name := ditem assignment "name" in
      let! course_name := ditem assignment "course_name" in
      let title := (fmt name ++ " - " ++ fmt course_name)%string in
      let course_id := dget_default assignment "course_id" (Some "unknown") in
      let assignment_id :=
        dget_default assignment "assignment_id" (Some "unknown") in
      let uid :=
        (fmt course_id ++ "-" ++ fmt assignment_id ++ "@gradescope-sync")%string
      in
      let! course_name' := ditem assignment "course_name" in
      let description_parts :=
        [("Course: "
          ++ fmt (dget_default assignment "course_full_name" course_name'))%string]
      in
      let! description_parts :=
        if truthy (dget assignment "url") then
          let! u := ditem assignment "url" in
          Ok (description_parts ++ [("Link: " ++ fmt u)%string])
        else Ok description_parts in
      let description := join (String "010" EmptyString) description_parts in
      let! url :=
        if truthy (dget assignment "url") then ditem assignment "url"
        else Ok None in
      Ok (Some (mk_event title uid due_date due_date utcnow description url))
  end.

(** The calendar-level properties and the events added, in order. *)
Record Calendar : Type := mk_calendar {
  prodid : string;
  version : string;
  calscale : string;
  method : string;
  x_wr_calname : string;
  x_wr_timezone : string;
  components : list Event
}.

Definition add_component (cal : Calendar) (event : Event) : Calendar :=
  mk_calendar (prodid cal) (version cal) (calscale cal) (method cal)
              (x_wr_calname cal) (x_wr_timezone cal)
              (components cal ++ [event]).

(** [for assignment in assignments: ...] *)
Fixpoint add_events (cal : Calendar) (assignments : list dict)
    (utcnow : datetime) (current_year : Z) : res Calendar :=
  match assignments with
  | [] => Ok cal
  | assignment :: rest =>
      let! event := create_event assignment utcnow current_year in
      add_events (match event with
                  | Some e => add_component cal e
                  | None => cal
                  end) rest utcnow current_year
  end.

Definition create_calendar (assignments : list dict) (prodid : string)
    (utcnow : datetime) (current_year : Z) : res Calendar :=
  add_events (mk_calendar prodid "2.0" "GREGORIAN" "PUBLISH"
                          "Gradescope Assignments" "America/Los_Angeles" [])
             assignments utcnow current_year.

Definition default_prodid : string := "-//Gradescope Calendar Sync//EN".

(** ** [generate_ics_content], [save_ics_file] *)

(** [cal.walk()]: the calendar and the components below it, by their
    [name]. *)
Definition walk (cal : Calendar) : list string :=
  "VCALENDAR" :: map (fun _ : Event => "VEVENT") (components cal).

(** What the file system does with [open(filepath, 'wb')] and the [write]
    that follows. [open] raises [OSError] and no file is touched; or the
    file is created or truncated and [write] raises [OSError] with only a
    part of the bytes stored; or all the bytes are stored. *)
Inductive written : Type :=
| refused
| partly (stored : string)
| fully.

Section Serialised.

(** [cal.to_ical()], the serialisation of the icalendar library. *)
Variable to_ical : Calendar -> string.

(** The file system, asked to store the bytes under the path. *)
Variable disk : string -> string -> written.

Definition generate_ics_content (assignments : list dict) (utcnow : datetime)
    (current_year : Z) : res string :=
  let! cal := create_calendar assignments default_prodid utcnow current_year in
  Ok (to_ical cal).


End Serialised.

End ical_generator.

Import ical_generator.

(* ===================================================================== *)
(** * BeautifulSoup: the parsed tree and its queries *)
(* ===================================================================== *)

(** The tree [BeautifulSoup(text, "html.parser")] returns: text nodes and
    tags with their attributes. Every attribute value is a string; [class]
    is the one attribute the queries below read as a whitespace-separated
    list. *)

Module Bs4.

#[local] Unset Elimination Schemes.
Inductive node : Type :=
| Text (s : string)
| Tag (name : string) (attrs : list (string * string)) (children : list node).
#[local] Set Elimination Schemes.

(** What a keyword argument of [find]/[find_all] can ask of an attribute. *)
Inductive attr_filter : Type :=
| AttrEq (value : string)       (* attr="value" *)
| AttrTrue                      (* attr=True *)
| AttrRe (pattern : regex).     (* attr=re.compile(pattern) *)

Fixpoint assoc (key : string) (l : list (string * string)) : option string :=
  match l with
  | [] => None
  | (k, v) :: l' => if String.eqb k key then Some v else assoc key l'
  end.

(** [tag.get(key)] *)
Definition get (n : node) (key : string) : option string :=
  match n with
  | Tag _ attrs _ => assoc key attrs
  | Text _ => None
  end.

(** [tag.get(key, default)] *)
Definition get_default (n : node) (key default : string) : string :=
  match get n key with
  | Some v => v
  | None => default
  end.

(** [re.findall(r"\S+", s)]; [cur] is the token being read, reversed. *)
Fixpoint tokens_from (cur : list ascii) (s : string) : list string :=
  let flush (rest : list string) :=
    match cur with
    | [] => rest
    | _ => string_of_list_ascii (rev cur) :: rest
    end in
  match s with
  | EmptyString => flush []
  | String c s' =>
      if is_space c then flush (tokens_from [] s')
      else tokens_from (c :: cur) s'
  end.

Definition class_tokens (v : string) : list string := tokens_from [] v.

(** One attribute value against one filter. *)
Definition value_matches (f : attr_filter) (v : string) : bool :=
  match f with
  | AttrEq w => String.eqb v w
  | AttrTrue => true
  | AttrRe p => match re_search false p v with Some _ => true | None => false end
  end.

(** An attribute of a tag against a filter: an absent attribute matches
    only the empty string; [class] matches when one of its tokens or the
    tokens joined by single spaces do. *)
Definition attr_matches (n : node) (key : string) (f : attr_filter) : bool :=
  match get n key with
  | None => match f with AttrEq w => negb (nonempty w) | _ => false end
  | Some v =>
      if String.eqb key "class" then
        match f with
        | AttrTrue => true
        | _ => existsb (value_matches f) (class_tokens v)
               || value_matches f (join " " (class_tokens v))
        end
      else value_matches f v
  end.

Definition matches (name : option string) (attrs : list (string * attr_filter))
    (n : node) : bool :=
  match n with
  | Text _ => false
  | Tag tag _ _ =>
      match name with
      | Some want => String.eqb tag want
      | None => true
      end
      && forallb (fun kf => attr_matches n (fst kf) (snd kf)) attrs
  end.

(** [tag.descendants]: document order. *)
Fixpoint descendants (n : node) : list node :=
  match n with
  | Text _ => []
  | Tag _ _ children =>
      flat_map (fun c => c :: descendants c) children
  end.

(** [tag.find_all(name, **attrs)] *)
Definition find_all (n : node) (name : option string)
    (attrs : list (string * attr_filter)) : list node :=
  List.filter (fun d => matches name attrs d) (descendants n).

(** [tag.find(name, **attrs)] *)
Definition find (n : node) (name : option string)
    (attrs : list (string * attr_filter)) : option node :=
  head (find_all n name attrs).

(** [tag.get_text(strip=True)]: the stripped, non-empty strings below the
    tag, concatenated. *)
Definition get_text (n : node) : string :=
  join "" (flat_map (fun d =>
                       match d with
                       | Text s => if nonempty (strip s) then [strip s] else []
                       | Tag _ _ _ => []
                       end) (descendants n)).

(** [tag.find([name1, name2, ...])]: the first tag below whose name is one
    of the list. *)
Definition find_any (n : node) (names : list string) : option node :=
  head (List.filter (fun d =>
                       match d with
                       | Tag tag _ _ => existsb (String.eqb tag) names
                       | Text _ => false
                       end) (descendants n)).

End Bs4.

Import Bs4.

(* ===================================================================== *)
(** * sync_gradescope.py: [GradescopeClient.get_assignments] *)
(* ===================================================================== *)

Module sync_gradescope.

Definition GRADESCOPE_BASE_URL : string := "https://www.gradescope.com".

(** The dict appended for a row; its four keys are always present. *)
Record assignment : Type := mk_assignment {
  a_name : string;
  a_id : option string;
  a_due_date : option string;
  a_url : option string
}.

(** [/assignments/\d+] and [/assignments/(\d+)] *)
Definition assignments_re : regex := lit "/assignments/" >> Plus Digit.
Definition assignments_id_re : regex :=
  lit "/assignments/" >> Group "1" (Plus Digit).

(** "Get assignment name and ID": the values of [name], [href] and [aid]
    when the code reaches [if not name: continue]. *)
Definition name_href_aid (row : node)
  : option string * option string * option string :=
  let '(name, href, aid) :=
    match find row (Some "a") [("href", AttrRe assignments_re)] with
    | Some name_link =>
        let href := get_default name_link "href" "" in
        let aid :=
          match re_search false assignments_id_re href with
          | Some aid_match => group aid_match "1"
          | None => None
          end in
        (Some (get_text name_link), Some href, aid)
    | None => (None, None, None)
    end in
  if negb (truthy name) then
    match find row (Some "button") [("data-assignment-title", AttrTrue)] with
    | Some submit_button =>
        (get submit_button "data-assignment-title", href,
         get submit_button "data-assignment-id")
    | None => (name, href, aid)
    end
  else (name, href, aid).

(** Method 3 of the due date: the loop over [row.find_all("time")]. *)
Fixpoint due_at_scan (time_elems : list node) (due_date : option string)
  : option string :=
  match time_elems with
  | [] => due_date
  | time_elem :: rest =>
      let aria_label := get_default time_elem "aria-label" "" in
      if contains "Due at" aria_label then
        if truthy (get time_elem "datetime") then get time_elem "datetime"
        else Some (get_text time_elem)
      else due_at_scan rest due_date
  end.

(** "Get DUE date": the value of [due_date] when the row is appended. *)
Definition due_date_of (row : node) : res (option string) :=
  let due_date :=
    match find row (Some "time")
               [("class", AttrEq "submissionTimeChart--dueDate")] with
    | Some due_time_elem => get due_time_elem "datetime"
    | None => None
    end in
  let! due_date :=
    if negb (truthy due_date) then
      let hidden_cells :=
        find_all row (Some "td") [("class", AttrEq "hidden-column")] in
      if (2 <=? length hidden_cells)%nat then
        let! cell := Py.index hidden_cells 1 in
        Ok (Some (get_text cell))
      else Ok due_date
    else Ok due_date in
  if negb (truthy due_date) then
    Ok (due_at_scan (find_all row (Some "time") []) due_date)
  else Ok due_date.

(** The [url] entry of the appended dict. *)
Definition url_of (course_id : string) (href aid : option string)
  : option string :=
  if truthy href then Some (GRADESCOPE_BASE_URL ++ fmt href)%string
  else if truthy aid then
         Some (GRADESCOPE_BASE_URL ++ "/courses/" ++ course_id
               ++ "/assignments/" ++ fmt aid)%string
       else None.

(** One turn of [for row in soup.find_all("tr", role="row")]: the record
    appended, or [None] where the code says [continue]. *)
Definition process_row (course_id : string) (row : node)
  : res (option assignment) :=
  match find row None [("role", AttrEq "columnheader")] with
  | Some _ => Ok None
  | None =>
      let '(name, href, aid) := name_href_aid row in
      match name with
      | Some (String c name') =>
          let! due_date := due_date_of row in
          Ok (Some (mk_assignment (String c name') aid due_date
                                  (url_of course_id href aid)))
      | _ => Ok None
      end
  end.

Fixpoint rows_loop (course_id : string) (rows : list node)
    (assignments : list assignment) : res (list assignment) :=
  match rows with
  | [] => Ok assignments
  | row :: rows' =>
      let! r := process_row course_id row in
      rows_loop course_id rows'
        (match r with
         | Some a => assignments ++ [a]
         | None => assignments
         end)
  end.

(** [get_assignments], given the tree parsed from the course page. *)
Definition get_assignments (soup : node) (course_id : string)
  : res (list assignment) :=
  rows_loop course_id (find_all soup (Some "tr") [("role", AttrEq "row")]) [].

(** [GoogleCalendarClient._parse_date] is, line for line, the body of
    [ical_generator.parse_date]. *)
Definition _parse_date : option string -> Z -> res (option datetime) :=
  ical_generator.parse_date.

End sync_gradescope.

Import sync_gradescope.


(* ===================================================================== *)
(** * generate_ical.py: [main], from the courses to the calendar input *)
(* ===================================================================== *)

Module generate_ical.

(** A course dict of [get_courses]; its four keys are always present. *)
Record course : Type := mk_course {
  c_id : string;
  c_short_name : string;
  c_full_name : string;
  c_url : string
}.

(** "Format assignment for iCal generator" *)
Definition format_assignment (course : course) (assignment : assignment)
  : dict :=
  <["name" := Some (a_name assignment)]>
  (<["course_name" := Some (c_short_name course)]>
  (<["course_full_name" := Some (c_full_name course)]>
  (<["course_id" := Some (c_id course)]>
  (<["assignment_id" := a_id assignment]>
  (<["due_date" := a_due_date assignment]>
  (<["url" := a_url assignment]> ∅)))))).

(** The inner loop of [main] over one course's assignments. *)
Fixpoint collect (course : course) (assignments : list assignment)
    (all_assignments : list dict) : list dict :=
  match assignments with
  | [] => all_assignments
  | assignment :: rest =>
      if negb (truthy (a_due_date assignment))
      then collect course rest all_assignments
      else collect course rest
             (all_assignments ++ [format_assignment course assignment])
  end.

(** The event of one (course, assignment) pair: what [create_event] makes
    of the dict [main] builds for it. *)
Definition project (course : course) (assignment : assignment)
    (utcnow : datetime) (current_year : Z) : res (option Event) :=
  create_event (format_assignment course assignment) utcnow current_year.

(** The loop of [main] over the courses. [fetch] is the page a GET of a
    URL returns, parsed. *)
Fixpoint courses_loop (fetch : string -> node) (courses : list course)
    (all_assignments : list dict) : res (list dict) :=
  match courses with
  | [] => Ok all_assignments
  | course :: rest =>
      let! assignments :=
        get_assignments
          (fetch (GRADESCOPE_BASE_URL ++ "/courses/" ++ c_id course)%string)
          (c_id course) in
      courses_loop fetch rest (collect course assignments all_assignments)
  end.

End generate_ical.

Import generate_ical.

(* ===================================================================== *)
(** * sync_gradescope.py: [GradescopeClient.get_courses] *)
(* ===================================================================== *)

Module GradescopeClient.

(** [/courses/\d+] and [courseBox--name|name] *)
Definition courses_re : regex := lit "/courses/" >> Plus Digit.
Definition name_re : regex := lit "courseBox--name" <|> lit "name".

(** One turn of [for link in soup.find_all("a", href=...)]: the dict
    appended. A tag is truthy whatever it contains; the value of
    [count_div] is not used. *)
Definition course_of (link : node) : res course :=
  let href := get_default link "href" "" in
  let! course_id := last_item (split "/" href) in
  let short_name :=
    match find_any link ["h3"; "h4"; "heading"] with
    | Some heading => get_text heading
    | None => "Unknown Course"
    end in
  let full_name :=
    match find link (Some "div") [("class", AttrRe name_re)] with
    | Some name_div => get_text name_div
    | None => short_name
    end in
  Ok (mk_course course_id short_name full_name
                (GRADESCOPE_BASE_URL ++ href)%string).

Fixpoint links_loop (links : list node) (courses : list course)
  : res (list course) :=
  match links with
  | [] => Ok courses
  | link :: rest =>
      let! c := course_of link in
      links_loop rest (courses ++ [c])
  end.

(** [get_courses], given the tree parsed from the account page. *)
Definition get_courses (soup : node) : res (list course) :=
  links_loop (find_all soup (Some "a") [("href", AttrRe courses_re)]) [].

End GradescopeClient.

Import GradescopeClient.

(* ===================================================================== *)
(** * sync_gradescope.py: [GoogleCalendarClient] *)
(* ===================================================================== *)

(** The Calendar API is a parameter: [service] says what [execute()]
    returns, or raises, for a request, given the requests made before it.
    A computation takes the requests made so far and returns its outcome
    with the requests made since added. *)

Module GoogleCalendarClient.

(** A calendar or an event of the API as the program reads it: a JSON
    object with string fields. *)
Abbreviation resource := (gmap string string).

(** The body of an event: [start] and [end] are a [dateTime] and a
    [timeZone]; [reminders] is [useDefault] and the [overrides], each a
    method and a number of minutes; [location] is an optional key. *)
Record event_body : Type := mk_event_body {
  body_summary : string;
  body_description : string;
  body_start : string * string;
  body_end : string * string;
  body_reminders : bool * list (string * Z);
  body_location : option string
}.

Inductive request : Type :=
| calendarList_list
| events_list (calendarId : string) (q : option string) (maxResults : Z)
              (singleEvents : bool) (pageToken : option string)
| events_update (calendarId eventId : string) (body : event_body)
| events_insert (calendarId : string) (body : event_body)
| events_delete (calendarId eventId : string).

(** What [execute()] returns, as far as the program reads it: the keys
    [items] and [nextPageToken], each present or not. *)
Record response : Type := mk_response {
  items : option (list resource);
  nextPageToken : option string
}.

(** [r.get('items', [])] *)
Definition get_items (r : response) : list resource :=
  match items r with
  | Some l => l
  | None => []
  end.

(** The dict [create_or_update_event] returns. *)
Record result : Type := mk_result {
  action : string;
  event : response
}.

Definition M (A : Type) : Type := list request -> res A * list request.

Definition ret {A : Type} (a : A) : M A := fun log => (Ok a, log).

Definition raise {A : Type} (e : exn) : M A := fun log => (Raise e, log).

Definition bindM {A B : Type} (m : M A) (f : A -> M B) : M B :=
  fun log =>
    match m log with
    | (Ok a, log') => f a log'
    | (Raise e, log') => (Raise e, log')
    end.

(** [try: m  except Exception: h] *)
Definition try_except {A : Type} (m : M A) (h : M A) : M A :=
  fun log =>
    match m log with
    | (Ok a, log') => (Ok a, log')
    | (Raise _, log') => h log'
    end.

(** A pure computation that may raise. *)
Definition lift {A : Type} (m : res A) : M A := fun log => (m, log).

Notation "'do!' x ':=' m 'in' k" := (bindM m (fun x => k))
  (at level 10, x name, m at level 100, k at level 200, only parsing).

(** [summary == name] for the value of [d.get('summary')]. *)
Definition summary_is (name : string) (d : resource) : bool :=
  match d !! "summary" with
  | Some s => String.eqb s name
  | None => false
  end.

Section Service.

Variable service : list request -> request -> res response.

(** [request.execute()] *)
Definition execute (req : request) : M response :=
  fun log => (service log req, log ++ [req]).

Definition get_calendar_id (calendar_name : string) : M (option string) :=
  try_except
    (do! calendar_list := execute calendarList_list in
     match List.find (summary_is calendar_name) (get_items calendar_list) with
     | Some calendar => ret (calendar !! "id")
     | None => ret None
     end)
    (ret None).

Definition find_event (title calendar_id : string) : M (option resource) :=
  try_except
    (do! events_result :=
       execute (events_list calendar_id (Some title) 10 true None) in
     ret (List.find (summary_is title) (get_items events_result)))
    (ret None).

(** A dict is truthy unless it is empty. *)
Definition nonempty_dict (d : resource) : bool :=
  negb (bool_decide (d = ∅)).

Definition create_or_update_event (title : string) (due_date : option string)
    (description location calendar_id : string) (current_year : Z)
  : M (option result) :=
  do! event_datetime := lift (_parse_date due_date current_year) in
  match event_datetime with
  | None => ret None
  | Some event_datetime =>
      let event_body :=
        mk_event_body title description
          (isoformat event_datetime, "America/Los_Angeles")
          (isoformat event_datetime, "America/Los_Angeles")
          (false, [("popup", 60); ("popup", 1440)])
          (if nonempty location then Some location else None) in
      do! existing_event := find_event title calendar_id in
      match existing_event with
      | Some existing_event =>
          if nonempty_dict existing_event then
            do! id := lift (match existing_event !! "id" with
                            | Some id => Ok id
                            | None => Raise KeyError
                            end) in
            do! event := execute (events_update calendar_id id event_body) in
            ret (Some (mk_result "updated" event))
          else
            do! event := execute (events_insert calendar_id event_body) in
            ret (Some (mk_result "created" event))
      | None =>
          do! event := execute (events_insert calendar_id event_body) in
          ret (Some (mk_result "created" event))
      end
  end.

(* --------------------------------------------------------------------- *)
(** ** [main] *)

(** "Get target calendar (Berkeley Calendar or fall back to primary)" *)
Definition target_calendar (target_calendar_name : string) : M string :=
  do! calendar_id := get_calendar_id target_calendar_name in
  ret (if truthy calendar_id then fmt calendar_id else "primary").

Record totals : Type := mk_totals {
  total_created : Z;
  total_updated : Z;
  total_skipped : Z
}.

(** One turn of [for assignment in assignments]. *)
Definition sync_assignment (course : course) (calendar_id : string)
    (current_year : Z) (assignment : assignment) (t : totals) : M totals :=
  if negb (truthy (a_due_date assignment)) then
    ret (mk_totals (total_created t) (total_updated t) (total_skipped t + 1))
  else
    let title := (a_name assignment ++ " - " ++ c_short_name course)%string in
    let description :=
      ("Course: " ++ c_full_name course ++ String "010" "")%string in
    let description :=
      if truthy (a_url assignment)
      then (description ++ "Link: " ++ fmt (a_url assignment))%string
      else description in
    do! result :=
      create_or_update_event title (a_due_date assignment) description ""
                             calendar_id current_year in
    match result with
    | Some r =>
        if String.eqb (action r) "created" then
          ret (mk_totals (total_created t + 1) (total_updated t) (total_skipped t))
        else
          ret (mk_totals (total_created t) (total_updated t + 1) (total_skipped t))
    | None =>
        ret (mk_totals (total_created t) (total_updated t) (total_skipped t + 1))
    end.

Fixpoint sync_assignments (course : course) (calendar_id : string)
    (current_year : Z) (assignments : list assignment) (t : totals)
  : M totals :=
  match assignments with
  | [] => ret t
  | assignment :: rest =>
      do! t' := sync_assignment course calendar_id current_year assignment t in
      sync_assignments course calendar_id current_year rest t'
  end.

(** [for course in courses]; [fetch] is the page a GET of a URL returns,
    parsed. *)
Fixpoint sync_courses (fetch : string -> node) (courses : list course)
    (calendar_id : string) (current_year : Z) (t : totals) : M totals :=
  match courses with
  | [] => ret t
  | course :: rest =>
      do! assignments :=
        lift (get_assignments
                (fetch (GRADESCOPE_BASE_URL ++ "/courses/" ++ c_id course)%string)
                (c_id course)) in
      do! t' := sync_assignments course calendar_id current_year assignments t in
      sync_courses fetch rest calendar_id current_year t'
  end.

(* --------------------------------------------------------------------- *)
(** ** [cleanup_old_events] *)

Definition course_patterns : list string :=
  ["COMPSCI 61B"; "CS 70"; "LS 22"; "MATH 54"; "Math 54"; "ASTRON C10";
   "CS 198"].

(** The loops of [cleanup_old_events] carry [deleted_count], which outlives
    an exception. *)
Definition Counted (A : Type) : Type :=
  Z -> list request -> res A * Z * list request.

(** [for pattern in course_patterns: if ...: delete; count; break] *)
Fixpoint patterns_loop (patterns : list string) (title : string)
    (event : resource) : Counted unit :=
  fun deleted_count log =>
    match patterns with
    | [] => (Ok tt, deleted_count, log)
    | pattern :: rest =>
        if contains pattern title && contains " - " title then
          match event !! "id" with
          | None => (Raise KeyError, deleted_count, log)
          | Some id =>
              match execute (events_delete "primary" id) log with
              | (Ok _, log') => (Ok tt, deleted_count + 1, log')
              | (Raise e, log') => (Raise e, deleted_count, log')
              end
          end
        else patterns_loop rest title event deleted_count log
    end.

(** [for event in events] *)
Fixpoint events_loop (events : list resource) : Counted unit :=
  fun deleted_count log =>
    match events with
    | [] => (Ok tt, deleted_count, log)
    | event :: rest =>
        let title := match event !! "summary" with
                     | Some s => s
                     | None => ""
                     end in
        match patterns_loop course_patterns title event deleted_count log with
        | (Ok _, deleted_count', log') => events_loop rest deleted_count' log'
        | (Raise e, deleted_count', log') => (Raise e, deleted_count', log')
        end
    end.

(** [while True], for at most [fuel] pages: [None] when pages remain. *)
Fixpoint pages_loop (fuel : nat) (page_token : option string)
  : Counted (option unit) :=
  fun deleted_count log =>
    match fuel with
    | O => (Ok None, deleted_count, log)
    | S fuel' =>
        match execute (events_list "primary" None 100 true page_token) log with
        | (Raise e, log') => (Raise e, deleted_count, log')
        | (Ok events_result, log') =>
            match events_loop (get_items events_result) deleted_count log' with
            | (Raise e, deleted_count', log'') => (Raise e, deleted_count', log'')
            | (Ok _, deleted_count', log'') =>
                if negb (truthy (nextPageToken events_result))
                then (Ok (Some tt), deleted_count', log'')
                else pages_loop fuel' (nextPageToken events_result)
                                deleted_count' log''
            end
        end
    end.

(** The number of events deleted, whether the loop ended or raised;
    [None] when [fuel] pages were not enough. *)
Definition cleanup_old_events (fuel : nat) (log : list request)
  : option Z * list request :=
  match pages_loop fuel None 0 log with
  | (Ok None, _, log') => (None, log')
  | (Ok (Some _), deleted_count, log') => (Some deleted_count, log')
  | (Raise _, deleted_count, log') => (Some deleted_count, log')
  end.

End Service.

End GoogleCalendarClient.

Import GoogleCalendarClient.

(* ===================================================================== *)
(** * Sample pages and records *)
(* ===================================================================== *)

Module Samples.

(** A header row marked by [role="columnheader"] cells. *)
Definition header_row : node :=
  Tag "tr" [("role", "row")]
    [ Tag "th" [("role", "columnheader")] [Text "Name"];
      Tag "th" [("role", "columnheader")] [Text "Status"];
      Tag "th" [("role", "columnheader")] [Text "Due Date"] ].

(** A submitted assignment: a link, and a due-date [time] element. *)
Definition linked_row : node :=
  Tag "tr" [("role", "row")]
    [ Tag "th" [("class", "table--primaryLink"); ("role", "rowheader")]
        [ Tag "a" [("href", "/courses/101/assignments/555")]
            [Text " Homework 1 "] ];
      Tag "td" [("class", "submissionStatus")] [Text "Submitted"];
      Tag "td" []
        [ Tag "time" [("class", "submissionTimeChart--dueDate");
                      ("datetime", "2026-02-01T09:00:00-0800")]
            [Text "Feb 01 at 9:00AM"] ] ].

(** A row that names no assignment. *)
Definition nameless_row : node :=
  Tag "tr" [("role", "row")]
    [ Tag "td" [] [Text "No submission"];
      Tag "td" []
        [ Tag "time" [("class", "submissionTimeChart--dueDate");
                      ("datetime", "2026-03-01T09:00:00-0800")] [] ] ].

(** An unsubmitted assignment whose button carries an empty id. *)
Definition button_row_empty_id : node :=
  Tag "tr" [("role", "row")]
    [ Tag "th" []
        [ Tag "button" [("data-assignment-title", "Quiz 2");
                        ("data-assignment-id", "")] [Text "Quiz 2"] ] ].

(** An unsubmitted assignment whose button carries no id at all. *)
Definition button_row_no_id : node :=
  Tag "tr" [("role", "row")]
    [ Tag "th" []
        [ Tag "button" [("data-assignment-title", "Quiz 3")] [Text "Quiz 3"] ];
      Tag "td" []
        [ Tag "time" [("class", "submissionTimeChart--dueDate");
                      ("datetime", "2026-01-15T23:59:00")] [] ] ].

(** Two empty hidden columns, and a [time] element labelled "Due at". *)
Definition hidden_then_label_row : node :=
  Tag "tr" [("role", "row")]
    [ Tag "th" []
        [ Tag "a" [("href", "/courses/101/assignments/556")] [Text "Lab 1"] ];
      Tag "td" [("class", "hidden-column")] [];
      Tag "td" [("class", "hidden-column")] [Text "  "];
      Tag "td" []
        [ Tag "time" [("aria-label", "Due at February 3");
                      ("datetime", "2026-02-03 17:00:00 -0800")]
            [Text "Feb 03"] ] ].

Definition table (rows : list node) : node :=
  Tag "html" [] [ Tag "body" [] [ Tag "table" [] [ Tag "tbody" [] rows ] ] ].

Definition cs101 : course :=
  mk_course "101" "CS 101" "Introduction to Computing"
            "https://www.gradescope.com/courses/101".

Definition stamp : datetime := mkdt 2026 1 10 8 0 0 0 None.

End Samples.

(* ===================================================================== *)
(** * Notions used by the statements *)
(* ===================================================================== *)

Import Strptime Samples.

(** ** Records and events *)

(** The event [create_event] builds for a pair whose due date normalises
    to [d]. *)
Definition event_of (c : course) (a : assignment) (utcnow d : datetime) : Event :=
  mk_event (a_name a ++ " - " ++ c_short_name c)
           (c_id c ++ "-" ++ fmt (a_id a) ++ "@gradescope-sync")
           d d utcnow
           (if truthy (a_url a)
            then "Course: " ++ c_full_name c ++ String "010" ("Link: " ++ fmt (a_url a))
            else "Course: " ++ c_full_name c)
           (if truthy (a_url a) then a_url a else None).

(** The event an assignment dict adds to the calendar, if any. *)
Definition event_or_skip (utcnow : datetime) (Y : Z) (a : dict) : option Event :=
  match create_event a utcnow Y with
  | Ok r => r
  | Raise _ => None
  end.

Definition raises {A} (m : res A) : Prop := exists e, m = Raise e.

(** The record a row contributes, if any. *)
Definition record_of (cid : string) (row : node) : option assignment :=
  match process_row cid row with
  | Ok r => r
  | Raise _ => None
  end.

Definition TR_ROW : list (string * attr_filter) := [("role", AttrEq "row")].

Definition quiz3 : assignment :=
  mk_assignment "Quiz 3" None (Some "2026-01-15T23:59:00") None.

Definition homework1 : assignment :=
  mk_assignment "Homework 1" (Some "555") (Some "2026-02-01T09:00:00-0800")
    (Some "https://www.gradescope.com/courses/101/assignments/555").

Definition mk_rec (id : option string) : assignment :=
  mk_assignment "Homework" id (Some "2026-01-15T23:59:00") None.

Definition mk_crs (id : string) : course := mk_course id "CS" "Computing" "".

(** An assignment dict without the keys [course_id] and [assignment_id]. *)
Definition dict_without_ids : dict :=
  <["name" := Some "Homework"]>
  (<["course_name" := Some "CS"]>
  (<["due_date" := Some "2026-01-15T23:59:00"]> ∅)).

(** 09:00 on 2026-02-01, eight hours behind UTC. *)
Definition nine_am_pst : datetime :=
  mkdt 2026 2 1 9 0 0 0 (Some (-8 * 3600 * 1000000)).

(** ** The two ways a row can name its assignment *)

(** Strategy (a): the text of the assignment link. *)
Definition link_name (row : node) : option string :=
  match find row (Some "a") [("href", AttrRe assignments_re)] with
  | Some name_link => Some (get_text name_link)
  | None => None
  end.

(** Strategy (b): the title attribute of the submit button. *)
Definition button_name (row : node) : option string :=
  match find row (Some "button") [("data-assignment-title", AttrTrue)] with
  | Some submit_button => get submit_button "data-assignment-title"
  | None => None
  end.

(** ** The due date as a chain of strategies *)

(** Strategy (a): the datetime attribute of the first [time] element of
    class [submissionTimeChart--dueDate]. *)
Definition due_by_class (row : node) : option string :=
  match find row (Some "time") [("class", AttrEq "submissionTimeChart--dueDate")] with
  | Some t => get t "datetime"
  | None => None
  end.

(** Strategy (b): the text of the second [hidden-column] cell. *)
Definition due_by_hidden_column (row : node) : option string :=
  match find_all row (Some "td") [("class", AttrEq "hidden-column")] with
  | _ :: cell :: _ => Some (get_text cell)
  | _ => None
  end.

(** Strategy (c): the first [time] element whose [aria-label] contains
    "Due at": its datetime attribute when non-empty, else its text. *)
Definition due_by_label (row : node) : option string :=
  match List.filter (fun t => contains "Due at" (get_default t "aria-label" ""))
               (find_all row (Some "time") []) with
  | t :: _ => if truthy (get t "datetime") then get t "datetime"
              else Some (get_text t)
  | [] => None
  end.

(** The first strategy that yields a non-empty string wins. *)
Fixpoint first_success (strategies : list (option string)) : option string :=
  match strategies with
  | [] => None
  | v :: rest => if truthy v then v else first_success rest
  end.

Definition due_date_chain (row : node) : option string :=
  first_success [due_by_class row; due_by_hidden_column row; due_by_label row].

(** ** The rule for the [url] of a record *)

Definition url_rule (cid : string) (row : node) (rec : assignment) : Prop :=
  match find row (Some "a") [("href", AttrRe assignments_re)] with
  | Some name_link =>
      exists href, get name_link "href" = Some href
                   /\ a_url rec = Some (GRADESCOPE_BASE_URL ++ href)%string
  | None =>
      (exists submit_button,
          find row (Some "button") [("data-assignment-title", AttrTrue)]
            = Some submit_button
          /\ a_id rec = get submit_button "data-assignment-id")
      /\ if truthy (a_id rec)
         then a_url rec = Some (GRADESCOPE_BASE_URL ++ "/courses/" ++ cid
                                ++ "/assignments/" ++ fmt (a_id rec))%string
         else a_url rec = None
  end.

(** ** An instant written in a format *)

(** The text of an instant in a format, as the comments beside
    [formats_with_year] show it: numbers zero-padded to their width,
    English month names, AM or PM, the offset as a sign and four digits. *)
Module Written.

Definition digit (n : Z) : ascii := ascii_of_N (48 + Z.to_N n).

Definition pad2 (n : Z) : string :=
  String (digit (n / 10)) (String (digit (n mod 10)) "").

Definition pad4 (n : Z) : string :=
  String (digit (n / 1000))
    (String (digit (n / 100 mod 10))
       (String (digit (n / 10 mod 10)) (String (digit (n mod 10)) ""))).

Definition month_names : list string :=
  ["January"; "February"; "March"; "April"; "May"; "June"; "July";
   "August"; "September"; "October"; "November"; "December"].

Definition month_name (m : Z) : string := nth (Z.to_nat (m - 1)) month_names "".
Definition month_abbr (m : Z) : string := substring 0 3 (month_name m).

Definition hour12 (h : Z) : Z := if h mod 12 =? 0 then 12 else h mod 12.
Definition am_or_pm (h : Z) : string := if h <? 12 then "AM" else "PM".

Definition offset (tz : option Z) : string :=
  match tz with
  | None => ""
  | Some us =>
      let minutes := Z.abs us / 60000000 in
      ((if (us <? 0)%Z then "-" else "+")
       ++ pad2 (minutes / 60) ++ pad2 (minutes mod 60))%string
  end.

Definition field (c : ascii) (dt : datetime) : string :=
  match c with
  | "Y"%char => pad4 (year dt)
  | "m"%char => pad2 (month dt)
  | "d"%char => pad2 (day dt)
  | "H"%char => pad2 (hour dt)
  | "M"%char => pad2 (minute dt)
  | "S"%char => pad2 (second dt)
  | "I"%char => pad2 (hour12 (hour dt))
  | "p"%char => am_or_pm (hour dt)
  | "B"%char => month_name (month dt)
  | "b"%char => month_abbr (month dt)
  | "z"%char => offset (tzinfo dt)
  | _ => String "%" (String c "")
  end.

Fixpoint write (dt : datetime) (format : string) : string :=
  match format with
  | EmptyString => EmptyString
  | String "%" (String c rest) => (field c dt ++ write dt rest)%string
  | String c rest => String c (write dt rest)
  end.

(** The format shows all of the instant: its seconds unless they are zero,
    and its offset (whole minutes, strictly between -24 h and 24 h) exactly
    when it has one. *)
Definition shows (format : string) (dt : datetime) : bool :=
  (contains "%S" format || (second dt =? 0))
  && match tzinfo dt with
     | Some us => contains "%z" format && (us mod 60000000 =? 0)
                  && (-86400000000 <? us) && (us <? 86400000000)
     | None => negb (contains "%z" format)
     end.

(** The instant is one the [datetime] constructor accepts, with no
    microseconds. *)
Definition valid (dt : datetime) : Prop :=
  Datetime.new (year dt) (month dt) (day dt) (hour dt) (minute dt) (second dt)
               0 (tzinfo dt) = Ok dt.

End Written.

Import Written.

(** ** Auxiliary notions of the proofs *)

Fixpoint zrange (lo : Z) (n : nat) : list Z :=
  match n with O => [] | S n' => lo :: zrange (lo + 1) n' end.

(** [R] cannot begin a match at a digit. *)
Definition rejects_digits {A : Type} (R : regex)
    (k : string -> captures -> option A) : Prop :=
  forall c s caps, is_digit c = true -> rmatch true R (String c s) caps k = None.

(** A syntactic reason for it. *)
Fixpoint nondigit_start (r : regex) : bool :=
  match r with
  | Chr l => negb (is_digit (lower l))
  | ChrCS l => negb (is_digit l)
  | Cls Space => true
  | Cls (OneOf cs) =>
      forallb (fun x => negb (is_digit x)) (list_ascii_of_string (str_map lower cs))
  | Seq r1 _ => nondigit_start r1
  | Alt r1 r2 => nondigit_start r1 && nondigit_start r2
  | Group _ r1 => nondigit_start r1
  | _ => false
  end.

Definition head_nonspace (s : string) : Prop :=
  match s with
  | String c _ => is_space c = false
  | EmptyString => True
  end.

Fixpoint ends_nonspace (s : string) : bool :=
  match s with
  | EmptyString => false
  | String c EmptyString => negb (is_space c)
  | String _ s' => ends_nonspace s'
  end.

(** The continuation of [re_match]. *)
Abbreviation k0 := (fun (rest : string) (c : captures) => Some (c, rest)).

(** [r] matches all of [s] and its only group, [n], holds [p]. *)
Definition sole_group (ic : bool) (r : regex) (s n p : string) : bool :=
  match re_match ic r s with
  | Some ([(n', p')], "") => String.eqb n' n && String.eqb p' p
  | _ => false
  end.

(** Whole minutes strictly between -24 h and 24 h. *)
Definition whole_minutes (us : Z) : Prop :=
  us mod 60000000 = 0 /\ -86400000000 < us < 86400000000.

(** The entries of [formats_with_year] and the patterns [TimeRE] makes of
    them. *)
Definition F1 : string := "%Y-%m-%d %H:%M:%S %z".
Definition F2 : string := "%Y-%m-%dT%H:%M:%S%z".
Definition F3 : string := "%Y-%m-%dT%H:%M:%S".
Definition F4 : string := "%b %d, %Y %I:%M %p".
Definition F5 : string := "%b %d, %Y at %I:%M %p".
Definition F6 : string := "%B %d, %Y %I:%M %p".
Definition F7 : string := "%B %d, %Y at %I:%M %p".
Definition F8 : string := "%m/%d/%Y %I:%M %p".

Definition R1 : regex :=
  re_Y >> Chr "-" >> re_m >> Chr "-" >> re_d >> Plus Space
  >> re_H >> Chr ":" >> re_M >> Chr ":" >> re_S >> Plus Space >> re_z >> Eps.
Definition R2 : regex :=
  re_Y >> Chr "-" >> re_m >> Chr "-" >> re_d >> Chr "T"
  >> re_H >> Chr ":" >> re_M >> Chr ":" >> re_S >> re_z >> Eps.
Definition R3 : regex :=
  re_Y >> Chr "-" >> re_m >> Chr "-" >> re_d >> Chr "T"
  >> re_H >> Chr ":" >> re_M >> Chr ":" >> re_S >> Eps.
Definition R4 : regex :=
  re_b >> Plus Space >> re_d >> Chr "," >> Plus Space >> re_Y >> Plus Space
  >> re_I >> Chr ":" >> re_M >> Plus Space >> re_p >> Eps.
Definition R5 : regex :=
  re_b >> Plus Space >> re_d >> Chr "," >> Plus Space >> re_Y >> Plus Space
  >> Chr "a" >> Chr "t" >> Plus Space
  >> re_I >> Chr ":" >> re_M >> Plus Space >> re_p >> Eps.
Definition R6 : regex :=
  re_B >> Plus Space >> re_d >> Chr "," >> Plus Space >> re_Y >> Plus Space
  >> re_I >> Chr ":" >> re_M >> Plus Space >> re_p >> Eps.
Definition R7 : regex :=
  re_B >> Plus Space >> re_d >> Chr "," >> Plus Space >> re_Y >> Plus Space
  >> Chr "a" >> Chr "t" >> Plus Space
  >> re_I >> Chr ":" >> re_M >> Plus Space >> re_p >> Eps.
Definition R8 : regex :=
  re_m >> Chr "/" >> re_d >> Chr "/" >> re_Y >> Plus Space
  >> re_I >> Chr ":" >> re_M >> Plus Space >> re_p >> Eps.

(** ** Well-formed timestamps *)

(** The fields of a timestamp are those of a calendar date and a time of
    day, without microseconds. *)
Definition well_formed (dt : datetime) : Prop :=
  1 <= year dt <= 9999 /\ 1 <= month dt <= 12
  /\ 1 <= day dt <= days_in_month (year dt) (month dt)
  /\ 0 <= hour dt <= 23 /\ 0 <= minute dt <= 59 /\ 0 <= second dt <= 59
  /\ microsecond dt = 0.

Definition offset_in_range (tz : option Z) : Prop :=
  match tz with
  | Some us => -86400000000 < us < 86400000000
  | None => True
  end.

(** ** Strings of digits *)

Definition all_digits (s : string) : bool :=
  forallb is_digit (list_ascii_of_string s).

Definition starts_with_digit (s : string) : bool :=
  match s with
  | String c _ => is_digit c
  | EmptyString => false
  end.

(** The longest prefix of [s] in the class [c], and what follows it. *)
Fixpoint take_class (c : cclass) (s : string) : string :=
  match s with
  | String a s' => if cls_match false c a then String a (take_class c s') else ""
  | EmptyString => ""
  end.

Fixpoint drop_class (c : cclass) (s : string) : string :=
  match s with
  | String a s' => if cls_match false c a then drop_class c s' else s
  | EmptyString => ""
  end.

(** [s] without its prefix [p], if it has it. *)
Fixpoint strip_prefix (p s : string) : option string :=
  match p, s with
  | EmptyString, _ => Some s
  | String a p', String b s' => if Ascii.eqb b a then strip_prefix p' s' else None
  | String _ _, EmptyString => None
  end.

(** The dicts [main] hands to [save_ics_file] for one course: one per
    record, skipped or not. *)
Definition has_due_date (a : assignment) : bool := truthy (a_due_date a).

(** Dicts that lack the keys [create_event] reads. *)
Definition dict_with_due_date_only : dict :=
  <["due_date" := Some "2026-01-15T23:59:00"]> ∅.

Definition dict_with_blank_due_date : dict :=
  <["due_date" := Some "  "]> ∅.

(** The calendar of no event. *)
Definition empty_calendar : Calendar :=
  mk_calendar default_prodid "2.0" "GREGORIAN" "PUBLISH"
              "Gradescope Assignments" "America/Los_Angeles" [].

(** A course box of the account page. *)
Definition cs101_link : node :=
  Tag "a" [("class", "courseBox"); ("href", "/courses/101")]
    [ Tag "h3" [("class", "courseBox--shortname")] [Text "CS 101"];
      Tag "div" [("class", "courseBox--name")] [Text "Introduction to Computing"];
      Tag "div" [("class", "courseBox--assignments")] [Text "12 assignments"] ].

(** The entries of [formats_without_year] and the patterns [TimeRE] makes
    of them. *)
Definition G1 : string := "%B %d at %I:%M%p".
Definition G2 : string := "%B %d at %I:%M %p".
Definition G3 : string := "%b %d at %I:%M%p".
Definition G4 : string := "%b %d at %I:%M %p".
Definition G5 : string := "%B %d %I:%M%p".
Definition G6 : string := "%B %d %I:%M %p".

Definition Q1 : regex :=
  re_B >> Plus Space >> re_d >> Plus Space >> Chr "a" >> Chr "t" >> Plus Space
  >> re_I >> Chr ":" >> re_M >> re_p >> Eps.
Definition Q2 : regex :=
  re_B >> Plus Space >> re_d >> Plus Space >> Chr "a" >> Chr "t" >> Plus Space
  >> re_I >> Chr ":" >> re_M >> Plus Space >> re_p >> Eps.
Definition Q3 : regex :=
  re_b >> Plus Space >> re_d >> Plus Space >> Chr "a" >> Chr "t" >> Plus Space
  >> re_I >> Chr ":" >> re_M >> re_p >> Eps.
Definition Q4 : regex :=
  re_b >> Plus Space >> re_d >> Plus Space >> Chr "a" >> Chr "t" >> Plus Space
  >> re_I >> Chr ":" >> re_M >> Plus Space >> re_p >> Eps.
Definition Q5 : regex :=
  re_B >> Plus Space >> re_d >> Plus Space
  >> re_I >> Chr ":" >> re_M >> re_p >> Eps.
Definition Q6 : regex :=
  re_B >> Plus Space >> re_d >> Plus Space
  >> re_I >> Chr ":" >> re_M >> Plus Space >> re_p >> Eps.

(** The 29th of February at a given time of day, in a year-less format. *)
Definition feb29 (h mi : Z) : datetime := mkdt 1904 2 29 h mi 0 0 None.

(** What [parse_date] does with a text on which every format fails. *)
Definition all_formats_raise (s : string) : bool :=
  forallb (fun fmt => match Strptime.strptime s fmt with
                      | Raise ValueError => true
                      | _ => false
                      end) (formats_with_year ++ formats_without_year).

(** The groups the permissive pattern finds in a text. *)
Definition fallback_groups (s : string)
  : option (string * string * string * string * string) :=
  match re_search true month_day_at_time s with
  | Some m =>
      match group m "1", group m "2", group m "3", group m "4", group m "5" with
      | Some a, Some b, Some c, Some d, Some e => Some (a, b, c, d, e)
      | _, _, _, _, _ => None
      end
  | None => None
  end.

(** The checks run over every time of day of a 29th of February: the
    permissive pattern finds the month, the day, the hour on the 12-hour
    clock, the minute and AM or PM in the text, or finds nothing. *)
Definition feb29_groups (fmt mon : string) (h mi : Z) : bool :=
  match fallback_groups (write (feb29 h mi) fmt) with
  | Some (a, b, c, d, e) =>
      String.eqb a mon && String.eqb b "29" && String.eqb c (pad2 (hour12 h))
      && String.eqb d (pad2 mi) && String.eqb e (am_or_pm h)
  | None => false
  end.

Definition feb29_no_groups (fmt : string) (h mi : Z) : bool :=
  match re_search true month_day_at_time (write (feb29 h mi) fmt) with
  | None => true
  | Some _ => false
  end.

Definition every_minute (check : Z -> Z -> bool) : bool :=
  forallb (fun h => forallb (check h) (zrange 0 60)) (zrange 0 24).

(** ** Requests to the calendar service *)

Definition is_insert (r : request) : bool :=
  match r with events_insert _ _ => true | _ => false end.

Definition is_update (r : request) : bool :=
  match r with events_update _ _ _ => true | _ => false end.

Definition count (p : request -> bool) (log : list request) : Z :=
  Z.of_nat (length (List.filter p log)).

(** The search [find_event] makes. *)
Definition search_for (title calendar_id : string) : request :=
  events_list calendar_id (Some title) 10 true None.

(** The body [create_or_update_event] sends for a due date read as [dt]. *)
Definition body_for (title description location : string) (dt : datetime)
  : event_body :=
  mk_event_body title description
    (isoformat dt, "America/Los_Angeles") (isoformat dt, "America/Los_Angeles")
    (false, [("popup", 60); ("popup", 1440)])
    (if nonempty location then Some location else None).

(** The title [main] gives the event of an assignment. *)
Definition title_of (c : course) (a : assignment) : string :=
  (a_name a ++ " - " ++ c_short_name c)%string.

(** The number of assignments, with or without a due date. *)
Definition processed (t : totals) : Z :=
  total_created t + total_updated t + total_skipped t.

(** The test of [cleanup_old_events] on a title. *)
Definition looks_like_gradescope (title : string) : bool :=
  existsb (fun pattern => contains pattern title && contains " - " title)
          course_patterns.

Definition title_in (event : resource) : string :=
  match event !! "summary" with
  | Some s => s
  | None => ""
  end.

(** The requests of the cleanup: pages of the primary calendar, and
    deletions in it. *)
Definition cleanup_request (r : request) : bool :=
  match r with
  | events_list "primary" None 100 true _ => true
  | events_delete "primary" _ => true
  | _ => false
  end.

(** The records of a course, as [main] gets them. *)
Definition records_of (fetch : string -> node) (c : course) : list assignment :=
  match get_assignments
          (fetch (GRADESCOPE_BASE_URL ++ "/courses/" ++ c_id c)%string)
          (c_id c) with
  | Ok l => l
  | Raise _ => []
  end.

(** The events the cleanup takes for events of Gradescope. *)
Definition doomed (events : list resource) : list resource :=
  List.filter (fun e => looks_like_gradescope (title_in e)) events.

Definition id_in (event : resource) : string :=
  match event !! "id" with
  | Some id => id
  | None => ""
  end.

(** ** A sample service and a sample run *)

(** A calendar that holds one event, titled "Homework 1 - CS 101", and
    accepts every request. *)
Definition homework1_event : resource :=
  <["summary" := "Homework 1 - CS 101"]> (<["id" := "ev1"]> ∅).

Definition sample_service (log : list request) (r : request) : res response :=
  match r with
  | events_list _ (Some q) _ _ _ =>
      if String.eqb q "Homework 1 - CS 101"
      then Ok (mk_response (Some [homework1_event]) None)
      else Ok (mk_response (Some []) None)
  | _ => Ok (mk_response None None)
  end.

Definition sample_fetch (url : string) : node :=
  table [header_row; linked_row; button_row_no_id; button_row_empty_id].

Definition sample_sync : res totals * list request :=
  sync_courses sample_service sample_fetch [cs101] "primary" 2026
               (mk_totals 0 0 0) [].

Definition sample_log : list request := Eval vm_compute in snd sample_sync.

(** A page of the primary calendar: an event of a course, a private
    event, an event that names two courses. *)
Definition sample_page : list resource :=
  [ <["summary" := "Homework 3 - CS 70"]> (<["id" := "a1"]> ∅);
    <["summary" := "Dentist"]> (<["id" := "a2"]> ∅);
    <["summary" := "Review - CS 70 and CS 198"]> (<["id" := "a3"]> ∅) ].

Definition paging_service (log : list request) (r : request) : res response :=
  match r with
  | events_list _ None _ _ None => Ok (mk_response (Some sample_page) None)
  | _ => Ok (mk_response None None)
  end.

Definition is_delete (r : request) : bool :=
  match r with events_delete _ _ => true | _ => false end.

(** The first page of the primary calendar. *)
Definition first_page : request := events_list "primary" None 100 true None.

Definition deletion_of (event : resource) : request :=
  events_delete "primary" (id_in event).

(** The ISO form, field by field. *)
Definition iso_fields (dt : datetime) (tail : string) : string :=
  pad4 (year dt) ++ String "-" (pad2 (month dt) ++ String "-"
    (pad2 (day dt) ++ String "T" (pad2 (hour dt) ++ String ":"
      (pad2 (minute dt) ++ String ":" (pad2 (second dt) ++ tail))))).

Definition cs70 : course :=
  mk_course "70" "CS 70" "Discrete Mathematics and Probability Theory"
            "https://www.gradescope.com/courses/70".

(** ** What a match captures *)

(** The shortest text a pattern can match. *)
Fixpoint minlen (r : regex) : nat :=
  match r with
  | Eps | Star _ => 0
  | Chr _ | ChrCS _ | Cls _ => 1
  | Seq a b => minlen a + minlen b
  | Alt a b => Nat.min (minlen a) (minlen b)
  | Group _ r1 => minlen r1
  end.

Fixpoint no_groups (r : regex) : bool :=
  match r with
  | Seq a b | Alt a b => no_groups a && no_groups b
  | Group _ _ => false
  | _ => true
  end.

(** The groups that take part in every match of a pattern. *)
Fixpoint must (r : regex) : list string :=
  match r with
  | Seq a b => must a ++ must b
  | Group n r1 => n :: must r1
  | _ => []
  end.

(** The only group named [z] in the pattern is the one of [%z]. *)
Fixpoint zsafe (r : regex) : Prop :=
  match r with
  | Seq a b | Alt a b => zsafe a /\ zsafe b
  | Group n r1 => if String.eqb n "z" then Group n r1 = re_z else zsafe r1
  | _ => True
  end.

(** What [%z] captures is "Z" or has a sign and three characters at
    least. *)
Definition zgood (v : string) : Prop :=
  v = "Z"%string \/ (4 <= String.length v)%nat.

Definition caps_ok (caps : captures) : Prop :=
  forall v, In ("z"%string, v) caps -> zgood v.

(** The exceptions [parse_date] lets through. *)
Definition value_or_overflow (e : exn) : Prop :=
  e = ValueError \/ e = OverflowError.

(** The formats [parse_date] and its month lookup hand to [strptime]. *)
Definition formats_used : list string :=
  formats_with_year ++ formats_without_year ++ ["%B"; "%b"]%string.

(** The first alternative of [%z]: a sign, hours and minutes, and what may
    follow them. *)
Definition z_long : regex :=
  Cls (OneOf "+-") >> r09 >> r09 >> Opt (Chr ":") >> r "0" "5" >> r09
  >> Opt (Opt (Chr ":") >> r "0" "5" >> r09 >> Opt (Chr "." >> UpTo 5 Digit)).

(* ===================================================================== *)
(** * Properties *)
(* ===================================================================== *)

(** ** Projection *)

Lemma project_eq c a utcnow Y :
  project c a utcnow Y =
  match parse_date (a_due_date a) Y with
  | Ok (Some d) => Ok (Some (event_of c a utcnow d))
  | Ok None => Ok None
  | Raise e => Raise e
  end.
Proof.
  unfold project, create_event.
  change (dget (format_assignment c a) "due_date") with (a_due_date a).
  destruct (parse_date (a_due_date a) Y) as [[d|]|e]; simpl; try reflexivity.
  unfold event_of.
  change (dget (format_assignment c a) "url") with (a_url a).
  destruct (truthy (a_url a)) eqn:Hu; simpl; try reflexivity.
Qed.

(** ** The chain of formats *)

Lemma for_formats_all_fail body fmts otherwise :
  Forall (fun fmt => body fmt = Raise ValueError) fmts ->
  for_formats body fmts otherwise = otherwise.
Proof.
  induction 1 as [|fmt fmts Hf _ IH]; simpl; [reflexivity|].
  rewrite Hf. simpl. exact IH.
Qed.

Lemma parse_date_regex_branch s Y :
  nonempty s = true ->
  Forall (fun fmt => Strptime.strptime (strip s) fmt = Raise ValueError)
         (formats_with_year ++ formats_without_year) ->
  parse_date (Some s) Y =
  match re_search true month_day_at_time (strip s) with
  | Some m => from_match m Y
  | None => Ok None
  end.
Proof.
  intros Hs Hall. apply Forall_app in Hall as [H1 H2].
  destruct s as [|c s]; [discriminate|].
  unfold parse_date.
  rewrite for_formats_all_fail by exact H1.
  rewrite for_formats_all_fail; [reflexivity|].
  eapply Forall_impl; [exact H2|]. intros fmt Hf. simpl in Hf. rewrite Hf. reflexivity.
Qed.

Ltac all_formats_fail :=
  cbv [formats_with_year formats_without_year app];
  repeat (apply List.Forall_cons; [vm_compute; reflexivity|]);
  apply List.Forall_nil.

(** C1 (fails on the code). The date normaliser is not total: on
    "January 99 at 4:00 PM" no [strptime] format matches, the permissive
    pattern extracts day 99, and the [datetime] constructor, which no [try]
    encloses, raises: [ValueError] with reference year 2026, and some
    exception with every reference year. The twin [_parse_date] behaves the
    same, and the exception passes through the projection of a record that
    carries this due date. *)
Theorem parse_date_raises_on_day_99 :
  parse_date (Some "January 99 at 4:00 PM") 2026 = Raise ValueError
  /\ _parse_date (Some "January 99 at 4:00 PM") 2026 = Raise ValueError
  /\ (forall Y, exists e, parse_date (Some "January 99 at 4:00 PM") Y = Raise e)
  /\ project cs101
       (mk_assignment "Homework" (Some "7") (Some "January 99 at 4:00 PM") None)
       stamp 2026 = Raise ValueError.
Proof.
  assert (G : forall Y, exists e,
             parse_date (Some "January 99 at 4:00 PM") Y = Raise e
             /\ (Y = 2026 -> e = ValueError)).
  { intros Y. rewrite parse_date_regex_branch; [|reflexivity|all_formats_fail].
    change (strip "January 99 at 4:00 PM") with "January 99 at 4:00 PM".
    replace (re_search true month_day_at_time "January 99 at 4:00 PM")
      with (Some [("5", "PM"); ("4", "00"); ("3", "4"); ("2", "99");
                  ("1", "January")] : option captures)
      by (vm_compute; reflexivity).
    unfold from_match. cbn [group String.eqb Ascii.eqb Bool.eqb].
    replace (month_of "January") with (Ok (Some 1) : res (option Z))
      by (vm_compute; reflexivity).
    cbn [Py.bind].
    replace (int "4") with (Ok 4 : res Z) by (vm_compute; reflexivity).
    replace (int "00") with (Ok 0 : res Z) by (vm_compute; reflexivity).
    replace (int "99") with (Ok 99 : res Z) by (vm_compute; reflexivity).
    cbn [Py.bind].
    replace (str_upper "PM") with "PM" by (vm_compute; reflexivity).
    cbn -[Datetime.new].
    destruct (Z.eq_dec Y 2026) as [->|Hne].
    - exists ValueError. split; [vm_compute; reflexivity|reflexivity].
    - unfold Datetime.new, check_date_args.
      destruct (negb _); [eexists; split; [reflexivity|contradiction]|].
      destruct (negb (_ && (Y <=? _)));
        [simpl; eexists; split; [reflexivity|contradiction]|].
      simpl. eexists; split; [reflexivity|contradiction]. }
  assert (P : parse_date (Some "January 99 at 4:00 PM") 2026 = Raise ValueError).
  { destruct (G 2026) as (e & He & Hv). rewrite He, (Hv eq_refl). reflexivity. }
  split; [exact P|]. split; [exact P|]. split.
  - intros Y. destruct (G Y) as (e & He & _). eauto.
  - rewrite project_eq. simpl a_due_date. rewrite P. reflexivity.
Qed.

(** ** Strings and uids *)

Local Open Scope string_scope.

Lemma append_nil_r s : s ++ "" = s.
Proof. induction s as [|c s IH]; simpl; congruence. Qed.

Lemma append_assoc s t u : (s ++ t) ++ u = s ++ (t ++ u).
Proof. induction s as [|c s IH]; simpl; congruence. Qed.

Lemma length_append s t :
  String.length (s ++ t) = (String.length s + String.length t)%nat.
Proof. induction s as [|c s IH]; simpl; congruence. Qed.

Lemma append_inv_tail s t u : s ++ u = t ++ u -> s = t.
Proof.
  revert t. induction s as [|c s IH]; intros [|d t] H; simpl in H.
  - reflexivity.
  - apply (f_equal String.length) in H. simpl in H. rewrite length_append in H. lia.
  - apply (f_equal String.length) in H. simpl in H. rewrite length_append in H. lia.
  - injection H as -> H. f_equal. auto.
Qed.

Lemma substring_0_append p rest :
  substring 0 (String.length p) (p ++ rest) = p.
Proof.
  induction p as [|c p IH]; simpl.
  - destruct rest; reflexivity.
  - f_equal. exact IH.
Qed.

Lemma consumed_append p rest : consumed (p ++ rest) rest = p.
Proof.
  unfold consumed. rewrite length_append.
  replace (String.length p + String.length rest - String.length rest)%nat
    with (String.length p) by lia.
  apply substring_0_append.
Qed.

(** The text in front of the first dash of a string determines the rest. *)
Lemma first_dash_split a b r r' :
  mem "-" a = false -> mem "-" b = false ->
  a ++ String "-" r = b ++ String "-" r' -> a = b /\ r = r'.
Proof.
  revert b. induction a as [|c a IH]; intros [|d b] Ha Hb H; simpl in *.
  - injection H as ->. auto.
  - injection H as <- _. simpl in Hb. discriminate.
  - injection H as -> _. simpl in Ha. discriminate.
  - injection H as -> H.
    apply orb_false_iff in Ha as [_ Ha]. apply orb_false_iff in Hb as [_ Hb].
    destruct (IH b Ha Hb H) as [-> ->]. auto.
Qed.

Lemma project_uid c a utcnow Y ev :
  project c a utcnow Y = Ok (Some ev) ->
  uid ev = c_id c ++ "-" ++ fmt (a_id a) ++ "@gradescope-sync".
Proof.
  rewrite project_eq.
  destruct (parse_date (a_due_date a) Y) as [[d|]|e]; intros H;
    inversion H; reflexivity.
Qed.

(** C2 (fails on the code). [create_event] puts "unknown" in the uid only
    for a dict that lacks the key; [main] always passes the key, bound to
    [None] when the assignment has no id, and the uid then reads "None":
    the record of an unsubmitted assignment without [data-assignment-id]
    is projected to the uid "101-None@gradescope-sync". *)
Theorem absent_assignment_id_renders_None :
  get_assignments (table [header_row; button_row_no_id]) "101" = Ok [quiz3]
  /\ a_id quiz3 = None
  /\ (exists ev, project cs101 quiz3 stamp 2026 = Ok (Some ev)
                 /\ uid ev = "101-None@gradescope-sync"
                 /\ contains "unknown" (uid ev) = false)
  /\ (exists ev, create_event dict_without_ids stamp 2026 = Ok (Some ev)
                 /\ uid ev = "unknown-unknown@gradescope-sync").
Proof.
  split; [vm_compute; reflexivity|]. split; [reflexivity|]. split.
  - eexists. split; [vm_compute; reflexivity|]. split; vm_compute; reflexivity.
  - eexists. split; [vm_compute; reflexivity|]. vm_compute; reflexivity.
Qed.

(** C3, as stated, fails: the ids are strings and the uid joins them with a
    dash, so course "1-2" with assignment "3" and course "1" with
    assignment "2-3" get the same uid. *)
Lemma uid_collision :
  ~ (forall c1 a1 c2 a2 utcnow Y e1 e2,
       project c1 a1 utcnow Y = Ok (Some e1) ->
       project c2 a2 utcnow Y = Ok (Some e2) ->
       c_id c1 <> c_id c2 \/ a_id a1 <> a_id a2 ->
       uid e1 <> uid e2).
Proof.
  intros H.
  refine (H (mk_crs "1-2") (mk_rec (Some "3")) (mk_crs "1") (mk_rec (Some "2-3"))
            stamp 2026 _ _ _ _ _ _).
  - vm_compute. reflexivity.
  - vm_compute. reflexivity.
  - left. simpl. discriminate.
  - reflexivity.
Qed.

(** C3 (amended). Two projections of pairs with the same course id and
    assignment id carry the same uid, whatever the clock; and for pairs
    whose assignments both have an id and whose course ids contain no
    dash, a difference in the course id or in the assignment id gives
    different uids. *)
Theorem uid_deterministic_and_injective c1 a1 c2 a2 t1 t2 Y1 Y2 e1 e2 :
  project c1 a1 t1 Y1 = Ok (Some e1) ->
  project c2 a2 t2 Y2 = Ok (Some e2) ->
  (c_id c1 = c_id c2 -> a_id a1 = a_id a2 -> uid e1 = uid e2)
  /\ (forall i1 i2,
        a_id a1 = Some i1 -> a_id a2 = Some i2 ->
        mem "-" (c_id c1) = false -> mem "-" (c_id c2) = false ->
        c_id c1 <> c_id c2 \/ i1 <> i2 ->
        uid e1 <> uid e2).
Proof.
  intros H1 H2. apply project_uid in H1, H2. rewrite H1, H2. split.
  - intros -> ->. reflexivity.
  - intros i1 i2 -> -> D1 D2 Hne Heq. cbn [fmt] in Heq.
    change ("-" ++ ?x) with (String "-" x) in Heq.
    apply first_dash_split in Heq as [Hc Hr]; [|assumption..].
    apply append_inv_tail in Hr.
    destruct Hne; congruence.
Qed.

Lemma uid_deterministic_and_injective_witness :
  exists e1 e2,
    project (mk_crs "101") (mk_rec (Some "555")) stamp 2026 = Ok (Some e1)
    /\ project (mk_crs "102") (mk_rec (Some "555")) stamp 2027 = Ok (Some e2)
    /\ uid e1 <> uid e2.
Proof.
  eexists. eexists.
  assert (P1 : project (mk_crs "101") (mk_rec (Some "555")) stamp 2026 = Ok (Some (event_of (mk_crs "101") (mk_rec (Some "555")) stamp (mkdt 2026 1 15 23 59 0 0 None)))) by (vm_compute; reflexivity).
  assert (P2 : project (mk_crs "102") (mk_rec (Some "555")) stamp 2027 = Ok (Some (event_of (mk_crs "102") (mk_rec (Some "555")) stamp (mkdt 2026 1 15 23 59 0 0 None)))) by (vm_compute; reflexivity).
  split; [exact P1|]. split; [exact P2|].
  apply (proj2 (uid_deterministic_and_injective _ _ _ _ _ _ _ _ _ _ P1 P2)
           "555" "555"); try reflexivity.
  left. discriminate.
Defined.

Local Close Scope string_scope.

(** ** The calendar loop *)

Lemma add_events_ok cal l t Y :
  Forall (fun a => ~ raises (create_event a t Y)) l ->
  exists cal', add_events cal l t Y = Ok cal'
    /\ components cal' = components cal ++ omap (event_or_skip t Y) l.
Proof.
  intros H. revert cal. induction H as [|a l Ha _ IH]; intros cal; simpl.
  - exists cal. split; [reflexivity|]. rewrite app_nil_r. reflexivity.
  - unfold event_or_skip at 1.
    destruct (create_event a t Y) as [r|e] eqn:E; [|exfalso; apply Ha; eexists; reflexivity].
    simpl. destruct r as [ev|].
    + destruct (IH (add_component cal ev)) as (cal' & -> & Hc).
      exists cal'. split; [reflexivity|]. rewrite Hc. simpl. rewrite <- app_assoc. reflexivity.
    + exact (IH cal).
Qed.

Lemma add_events_raises cal l t Y :
  Exists (fun a => raises (create_event a t Y)) l ->
  raises (add_events cal l t Y).
Proof.
  intros H. revert cal. induction l as [|a l IH]; intros cal.
  - inversion H.
  - simpl. destruct (create_event a t Y) as [r|e] eqn:E.
    + simpl. apply IH. inversion H as [? ? [e' He']|]; subst; [congruence|assumption].
    + simpl. eexists. reflexivity.
Qed.

Lemma raises_dec {A} (m : res A) : raises m \/ ~ raises m.
Proof. destruct m; [right; intros [e H]; discriminate|left; eexists; reflexivity]. Qed.

Lemma all_or_some_raises t Y (l : list dict) :
  Forall (fun a => ~ raises (create_event a t Y)) l
  \/ Exists (fun a => raises (create_event a t Y)) l.
Proof.
  induction l as [|a l [IH|IH]].
  - left. constructor.
  - destruct (raises_dec (create_event a t Y)); [right; constructor 1; assumption|left; constructor; assumption].
  - right. constructor 2. assumption.
Qed.

(** C9. For a list of assignment dicts and any permutation of it, with the
    same timestamp and reference year, [create_calendar] either raises on
    both or returns on both, and the events of the two calendars are the
    same up to their order: the same events, each the same number of
    times. *)
Theorem calendar_events_up_to_order (l l' : list dict) prodid t Y :
  Permutation l l' ->
  match create_calendar l prodid t Y, create_calendar l' prodid t Y with
  | Ok c, Ok c' =>
      Permutation (components c) (components c')
      /\ (forall ev, In ev (components c) <-> In ev (components c'))
  | Raise _, Raise _ => True
  | _, _ => False
  end.
Proof.
  intros HP. unfold create_calendar.
  destruct (all_or_some_raises t Y l) as [H|H].
  - destruct (add_events_ok (mk_calendar prodid "2.0" "GREGORIAN" "PUBLISH"
                          "Gradescope Assignments" "America/Los_Angeles" []) l t Y H) as (c & -> & Hc).
    assert (H' : Forall (fun a => ~ raises (create_event a t Y)) l').
    { rewrite <- HP. exact H. }
    destruct (add_events_ok (mk_calendar prodid "2.0" "GREGORIAN" "PUBLISH"
                          "Gradescope Assignments" "America/Los_Angeles" []) l' t Y H') as (c' & -> & Hc').
    rewrite Hc, Hc'. simpl.
    assert (P : Permutation (omap (event_or_skip t Y) l) (omap (event_or_skip t Y) l')).
    { rewrite HP. reflexivity. }
    split; [exact P|].
    intros ev. split; intros Hin.
    + eapply Permutation_in; [exact P|exact Hin].
    + eapply Permutation_in; [symmetry; exact P|exact Hin].
  - assert (H' : Exists (fun a => raises (create_event a t Y)) l').
    { rewrite <- HP. exact H. }
    destruct (add_events_raises (mk_calendar prodid "2.0" "GREGORIAN" "PUBLISH"
                          "Gradescope Assignments" "America/Los_Angeles" []) l t Y H) as [e ->].
    destruct (add_events_raises (mk_calendar prodid "2.0" "GREGORIAN" "PUBLISH"
                          "Gradescope Assignments" "America/Los_Angeles" []) l' t Y H') as [e' ->].
    exact I.
Qed.

(** ** Extraction: rows and records *)

Lemma calendar_events_up_to_order_witness :
  match create_calendar
          [format_assignment cs101 quiz3; format_assignment cs101 homework1]
          default_prodid stamp 2026,
        create_calendar
          [format_assignment cs101 homework1; format_assignment cs101 quiz3]
          default_prodid stamp 2026 with
  | Ok c, Ok c' =>
      Permutation (components c) (components c')
      /\ (forall ev, In ev (components c) <-> In ev (components c'))
  | Raise _, Raise _ => True
  | _, _ => False
  end.
Proof.
  apply (calendar_events_up_to_order
           [format_assignment cs101 quiz3; format_assignment cs101 homework1]
           [format_assignment cs101 homework1; format_assignment cs101 quiz3]).
  apply perm_swap.
Defined.

Lemma due_at_scan_filter ts d :
  due_at_scan ts d =
  match List.filter (fun t => contains "Due at" (get_default t "aria-label" "")) ts with
  | t :: _ => if truthy (get t "datetime") then get t "datetime"
              else Some (get_text t)
  | [] => d
  end.
Proof.
  induction ts as [|t ts IH]; simpl; [reflexivity|].
  destruct (contains "Due at" (get_default t "aria-label" "")) eqn:E; simpl.
  - reflexivity.
  - exact IH.
Qed.

Lemma due_date_of_chain row :
  exists v, due_date_of row = Ok v
    /\ match due_date_chain row with
       | Some d => v = Some d /\ nonempty d = true
       | None => truthy v = false
       end.
Proof.
  unfold due_date_of, due_date_chain, first_success, due_by_class,
    due_by_hidden_column, due_by_label.
  set (a := match find row (Some "time") _ with Some t => get t "datetime" | None => None end).
  destruct (truthy a) eqn:Ha; simpl.
  - rewrite Ha. simpl. exists a. split; [reflexivity|]. destruct a; [auto|discriminate].
  - set (cells := find_all row (Some "td") _).
    destruct cells as [|c1 [|c2 cells]]; simpl.
    + rewrite Ha. simpl. rewrite due_at_scan_filter.
      destruct (List.filter _ _) as [|t ts].
      * exists a. auto.
      * destruct (truthy (get t "datetime")) eqn:Ht.
        -- rewrite Ht. eexists; split; [reflexivity|]. destruct (get t "datetime"); [auto|discriminate].
        -- simpl. destruct (nonempty (get_text t)) eqn:Hn; eexists; split; try reflexivity; simpl; auto.
    + rewrite Ha. simpl. rewrite due_at_scan_filter.
      destruct (List.filter _ _) as [|t ts].
      * exists a. auto.
      * destruct (truthy (get t "datetime")) eqn:Ht.
        -- rewrite Ht. eexists; split; [reflexivity|]. destruct (get t "datetime"); [auto|discriminate].
        -- simpl. destruct (nonempty (get_text t)) eqn:Hn; eexists; split; try reflexivity; simpl; auto.
    + destruct (nonempty (get_text c2)) eqn:Hc; simpl.
      * eexists; split; [reflexivity|]. auto.
      * rewrite due_at_scan_filter.
        destruct (List.filter _ _) as [|t ts].
        -- eexists; split; [reflexivity|]. simpl. exact Hc.
        -- destruct (truthy (get t "datetime")) eqn:Ht.
           ++ rewrite Ht. eexists; split; [reflexivity|]. destruct (get t "datetime"); [auto|discriminate].
           ++ simpl. destruct (nonempty (get_text t)) eqn:Hn; eexists; split; try reflexivity; simpl; auto.
Qed.

Lemma due_date_of_total row : exists v, due_date_of row = Ok v.
Proof. destruct (due_date_of_chain row) as (v & H & _). eauto. Qed.

Lemma process_row_total cid row : exists r, process_row cid row = Ok r.
Proof.
  unfold process_row.
  destruct (find row None _); [eauto|].
  destruct (name_href_aid row) as [[name href] aid].
  destruct name as [[|c n]|]; eauto.
  destruct (due_date_of_total row) as [v ->]. simpl. eauto.
Qed.

Lemma rows_loop_omap cid rows acc :
  rows_loop cid rows acc = Ok (acc ++ omap (record_of cid) rows).
Proof.
  revert acc. induction rows as [|row rows IH]; intros acc; simpl.
  - rewrite app_nil_r. reflexivity.
  - unfold record_of at 1.
    destruct (process_row_total cid row) as [r ->]. simpl.
    rewrite IH. destruct r; [rewrite <- app_assoc|]; reflexivity.
Qed.

Lemma get_assignments_omap soup cid :
  get_assignments soup cid =
  Ok (omap (record_of cid) (find_all soup (Some "tr") TR_ROW)).
Proof. unfold get_assignments. rewrite rows_loop_omap. reflexivity. Qed.

Lemma name_of_row row :
  (name_href_aid row).1.1 =
  if truthy (link_name row) then link_name row
  else match find row (Some "button") [("data-assignment-title", AttrTrue)] with
       | Some _ => button_name row
       | None => link_name row
       end.
Proof.
  unfold name_href_aid, link_name, button_name.
  destruct (find row (Some "a") _) as [l|]; simpl.
  - destruct (nonempty (get_text l)); simpl; [reflexivity|].
    destruct (find row (Some "button") _); reflexivity.
  - destruct (find row (Some "button") _); reflexivity.
Qed.

Lemma nameless_row_skipped cid row :
  truthy (link_name row) = false -> truthy (button_name row) = false ->
  process_row cid row = Ok None.
Proof.
  intros Hl Hb. unfold process_row.
  destruct (find row None _); [reflexivity|].
  pose proof (name_of_row row) as Hn. rewrite Hl in Hn.
  destruct (name_href_aid row) as [[name href] aid]. simpl in Hn.
  assert (truthy name = false) as Ht.
  { rewrite Hn. destruct (find row (Some "button") _); assumption. }
  destruct name as [[|c n]|]; try reflexivity. discriminate.
Qed.

(** C5. [get_assignments] returns on every page; and a row for which
    neither the assignment link nor the submit button yields a non-empty
    name is skipped: the result is the one of the page without that row. *)
Theorem rows_without_name_are_dropped soup cid :
  (exists recs, get_assignments soup cid = Ok recs)
  /\ forall rows1 row rows2,
       find_all soup (Some "tr") [("role", AttrEq "row")] = rows1 ++ row :: rows2 ->
       truthy (link_name row) = false ->
       truthy (button_name row) = false ->
       process_row cid row = Ok None
       /\ get_assignments soup cid = rows_loop cid (rows1 ++ rows2) [].
Proof.
  split; [rewrite get_assignments_omap; eauto|].
  intros rows1 row rows2 Hrows Hl Hb.
  pose proof (nameless_row_skipped cid row Hl Hb) as Hskip.
  split; [exact Hskip|].
  rewrite get_assignments_omap, rows_loop_omap. unfold TR_ROW. rewrite Hrows.
  rewrite !omap_app. simpl. unfold record_of at 2. rewrite Hskip. reflexivity.
Qed.

Lemma rows_without_name_are_dropped_witness :
  exists recs,
    get_assignments (table [header_row; nameless_row; linked_row]) "101" = Ok recs
    /\ get_assignments (table [header_row; nameless_row; linked_row]) "101"
       = rows_loop "101" ([header_row] ++ [linked_row]) [].
Proof.
  destruct (rows_without_name_are_dropped
              (table [header_row; nameless_row; linked_row]) "101") as [[recs Hr] H].
  exists recs. split; [exact Hr|].
  apply (H [header_row] nameless_row [linked_row]); vm_compute; reflexivity.
Defined.

(** C4 (amended). Resolving the due date of a row never raises. The value
    is that of the first strategy yielding a non-empty string among: the
    datetime attribute of the first due-date [time] element; the text of
    the second hidden-column cell; for the first [time] element labelled
    "Due at", its datetime attribute if non-empty, else its text. When none
    does, the value is [None] or the empty string. It is the [due_date] of
    the record appended for the row. *)
Theorem due_date_resolution cid row :
  exists v, due_date_of row = Ok v
    /\ match due_date_chain row with
       | Some d => v = Some d /\ nonempty d = true
       | None => truthy v = false
       end
    /\ forall rec, process_row cid row = Ok (Some rec) -> a_due_date rec = v.
Proof.
  destruct (due_date_of_chain row) as (v & Hv & Hc).
  exists v. split; [exact Hv|]. split; [exact Hc|].
  intros rec. unfold process_row.
  destruct (find row None _); [discriminate|].
  destruct (name_href_aid row) as [[name href] aid].
  destruct name as [[|c n]|]; try discriminate.
  rewrite Hv. simpl. intros H. inversion H. reflexivity.
Qed.

(** C4, as stated, fails at (b): with no due-date [time] element and two
    hidden-column cells of which the second is blank, the due date is not
    that blank text but what strategy (c) finds. *)
Lemma second_hidden_cell_is_not_always_the_due_date :
  ~ (forall row c1 c2 rest,
       due_by_class row = None ->
       find_all row (Some "td") [("class", AttrEq "hidden-column")]
         = c1 :: c2 :: rest ->
       due_date_of row = Ok (Some (get_text c2))).
Proof.
  intros H.
  specialize (H hidden_then_label_row
                (Tag "td" [("class", "hidden-column")] [])
                (Tag "td" [("class", "hidden-column")] [Text "  "]) []
                eq_refl eq_refl).
  vm_compute in H. discriminate.
Qed.

(** ** The url of a record *)

Lemma due_date_resolution_witness :
  exists v, due_date_of hidden_then_label_row = Ok v
    /\ v = Some "2026-02-03 17:00:00 -0800"
    /\ forall rec, process_row "101" hidden_then_label_row = Ok (Some rec) ->
                   a_due_date rec = v.
Proof.
  destruct (due_date_resolution "101" hidden_then_label_row) as (v & Hv & Hc & Hr).
  exists v. split; [exact Hv|]. split; [|exact Hr].
  vm_compute in Hc. apply Hc.
Defined.

Lemma find_matches n name attrs x :
  find n name attrs = Some x -> matches name attrs x = true.
Proof.
  unfold find, find_all. intros H.
  assert (In x (List.filter (fun d => matches name attrs d) (descendants n))) as Hin.
  { destruct (List.filter _ _) as [|y l]; simpl in H; [discriminate|].
    inversion H. left. reflexivity. }
  apply filter_In in Hin. apply Hin.
Qed.

Lemma link_has_href row name_link :
  find row (Some "a") [("href", AttrRe assignments_re)] = Some name_link ->
  exists href, get name_link "href" = Some href /\ nonempty href = true.
Proof.
  intros H. apply find_matches in H. unfold matches in H.
  destruct name_link as [s|tag attrs ch]; [discriminate|].
  apply andb_true_iff in H as [_ H]. simpl in H.
  rewrite andb_true_r in H. unfold attr_matches in H.
  destruct (get (Tag tag attrs ch) "href") as [v|]; [|discriminate].
  exists v. split; [reflexivity|].
  simpl in H. destruct v; [|reflexivity]. vm_compute in H. discriminate.
Qed.

Lemma process_row_url cid row rec :
  process_row cid row = Ok (Some rec) ->
  url_rule cid row rec /\ (truthy (a_id rec) = true -> a_url rec <> None).
Proof.
  unfold process_row, url_rule. destruct (find row None _); [discriminate|].
  unfold name_href_aid.
  destruct (find row (Some "a") _) as [l|] eqn:El.
  - destruct (link_has_href _ _ El) as (href & Hh & Hne).
    unfold get_default. rewrite Hh.
    set (aid0 := match re_search false assignments_id_re href with Some m => group m "1" | None => None end).
    assert (U : forall aid, url_of cid (Some href) aid = Some (GRADESCOPE_BASE_URL ++ href)%string).
    { intros aid. unfold url_of. simpl. rewrite Hne. reflexivity. }
    destruct (negb (truthy (Some (get_text l)))).
    + destruct (find row (Some "button") _) as [b|].
      * destruct (get b "data-assignment-title") as [[|c n]|]; try discriminate.
        destruct (due_date_of_total row) as [v ->]. simpl. intros H. inversion H. simpl.
        rewrite U. split; [eauto|discriminate].
      * destruct (get_text l) as [|c n]; try discriminate.
        destruct (due_date_of_total row) as [v ->]. simpl. intros H. inversion H. simpl.
        rewrite U. split; [eauto|discriminate].
    + destruct (get_text l) as [|c n]; try discriminate.
      destruct (due_date_of_total row) as [v ->]. simpl. intros H. inversion H. simpl.
      rewrite U. split; [eauto|discriminate].
  - simpl. destruct (find row (Some "button") _) as [b|]; [|discriminate].
    destruct (get b "data-assignment-title") as [[|c n]|]; try discriminate.
    destruct (due_date_of_total row) as [v ->]. simpl. intros H. inversion H. simpl.
    unfold url_of. simpl.
    destruct (truthy (get b "data-assignment-id")) eqn:Ht.
    + split; [split; [eauto|reflexivity]|discriminate].
    + split; [split; [eauto|reflexivity]|discriminate].
Qed.

Lemma omap_record_of_in cid rows rec :
  In rec (omap (record_of cid) rows) ->
  exists row, In row rows /\ process_row cid row = Ok (Some rec).
Proof.
  induction rows as [|row rows IH]; simpl; [tauto|].
  unfold record_of at 1.
  destruct (process_row cid row) as [[r|]|e] eqn:E; simpl.
  - intros [->|H]; [eauto|]. destruct (IH H) as (row' & ? & ?); eauto.
  - intros H. destruct (IH H) as (row' & ? & ?); eauto.
  - intros H. destruct (IH H) as (row' & ? & ?); eauto.
Qed.

(** C10 (amended). Every record returned comes from a row; if the row has
    an assignment link, the url is the base URL followed by its href;
    otherwise the id is the button's, and the url is
    base/courses/<course>/assignments/<id> when that id is a non-empty
    string and [None] when it is [None] or empty. So every record with a
    non-empty id has a url. *)
Theorem record_url_rule soup cid recs rec :
  get_assignments soup cid = Ok recs ->
  In rec recs ->
  exists row,
    In row (find_all soup (Some "tr") [("role", AttrEq "row")])
    /\ process_row cid row = Ok (Some rec)
    /\ url_rule cid row rec
    /\ (truthy (a_id rec) = true -> a_url rec <> None).
Proof.
  rewrite get_assignments_omap. intros H Hin. inversion H; subst.
  apply omap_record_of_in in Hin as (row & Hrow & Hp).
  exists row. split; [exact Hrow|]. split; [exact Hp|].
  apply process_row_url. exact Hp.
Qed.

Lemma record_url_rule_witness :
  exists rec row,
    get_assignments (table [header_row; linked_row]) "101" = Ok [rec]
    /\ process_row "101" row = Ok (Some rec)
    /\ url_rule "101" row rec.
Proof.
  exists (mk_assignment "Homework 1" (Some "555") (Some "2026-02-01T09:00:00-0800")
            (Some "https://www.gradescope.com/courses/101/assignments/555")).
  assert (G : get_assignments (table [header_row; linked_row]) "101"
              = Ok [mk_assignment "Homework 1" (Some "555") (Some "2026-02-01T09:00:00-0800")
            (Some "https://www.gradescope.com/courses/101/assignments/555")])
    by (vm_compute; reflexivity).
  destruct (record_url_rule _ _ _ _ G (or_introl eq_refl)) as (row & _ & Hp & Hu & _).
  exists row. auto.
Defined.

(** C10, as stated, fails: a button with [data-assignment-id=""] gives a
    record whose id is not [None] and whose url is [None]. *)
Lemma empty_id_record_has_no_url :
  ~ (forall soup cid recs rec,
       get_assignments soup cid = Ok recs -> In rec recs ->
       a_id rec <> None -> a_url rec <> None).
Proof.
  intros H.
  apply (H (table [header_row; button_row_empty_id]) "101"
           [mk_assignment "Quiz 2" (Some "") None None]
           (mk_assignment "Quiz 2" (Some "") None None)).
  - vm_compute. reflexivity.
  - left. reflexivity.
  - discriminate.
  - reflexivity.
Qed.

(** ** End to end *)

Lemma for_formats_hit body pre fmt post otherwise d :
  Forall (fun f => body f = Raise ValueError) pre ->
  body fmt = Ok d ->
  for_formats body (pre ++ fmt :: post) otherwise = Ok (Some d).
Proof.
  intros Hpre Hf. induction Hpre as [|f pre Hfail _ IH]; simpl.
  - rewrite Hf. reflexivity.
  - rewrite Hfail. simpl. exact IH.
Qed.

Lemma parse_nine_am_pst Y :
  parse_date (Some "2026-02-01T09:00:00-0800") Y = Ok (Some nine_am_pst).
Proof.
  unfold parse_date.
  change (strip "2026-02-01T09:00:00-0800") with "2026-02-01T09:00:00-0800".
  apply (for_formats_hit _ ["%Y-%m-%d %H:%M:%S %z"] "%Y-%m-%dT%H:%M:%S%z").
  - constructor; [vm_compute; reflexivity|constructor].
  - vm_compute. reflexivity.
Qed.

Lemma row_record cid row name :
  find row None [("role", AttrEq "columnheader")] = None ->
  (name_href_aid row).1.1 = Some name -> nonempty name = true ->
  exists v, due_date_of row = Ok v
    /\ process_row cid row
       = Ok (Some (mk_assignment name (name_href_aid row).2 v
                     (url_of cid (name_href_aid row).1.2 (name_href_aid row).2))).
Proof.
  intros Hh Hn Hne. unfold process_row. rewrite Hh.
  destruct (name_href_aid row) as [[n href] aid]. simpl in *. subst n.
  destruct name as [|c name]; [discriminate|].
  destruct (due_date_of_total row) as [v Hv]. exists v. rewrite Hv. auto.
Qed.

(** C8. For a page whose rows are a header row and one data row, a row
    that names an assignment and whose due-date [time] element carries
    datetime="2026-02-01T09:00:00-0800": exactly one record is returned,
    and its projection, for any course, timestamp and reference year, is an
    event that starts and ends at 09:00 on 2026-02-01 with offset -08:00.
    When the record has an id, the id part of the uid is that id: the uid
    is "<course id>-<assignment id>@gradescope-sync". *)
Theorem one_data_row_end_to_end soup cid header row t :
  find_all soup (Some "tr") [("role", AttrEq "row")] = [header; row] ->
  find header None [("role", AttrEq "columnheader")] <> None ->
  find row None [("role", AttrEq "columnheader")] = None ->
  truthy (link_name row) = true \/ truthy (button_name row) = true ->
  find row (Some "time") [("class", AttrEq "submissionTimeChart--dueDate")]
    = Some t ->
  get t "datetime" = Some "2026-02-01T09:00:00-0800" ->
  exists rec,
    get_assignments soup cid = Ok [rec]
    /\ a_due_date rec = Some "2026-02-01T09:00:00-0800"
    /\ forall course utcnow Y,
         exists ev,
           project course rec utcnow Y = Ok (Some ev)
           /\ dtstart ev = mkdt 2026 2 1 9 0 0 0 (Some (-8 * 3600 * 1000000))
           /\ dtend ev = dtstart ev
           /\ forall i, a_id rec = Some i ->
                 uid ev = (c_id course ++ "-" ++ i ++ "@gradescope-sync")%string.
Proof.
  intros Hrows Hhead Hdata Hname Htime Hdt.
  assert (exists name, (name_href_aid row).1.1 = Some name /\ nonempty name = true)
    as (name & Hn & Hne).
  { rewrite name_of_row. destruct (truthy (link_name row)) eqn:Hl.
    - destruct (link_name row) as [n|]; [eauto|discriminate].
    - destruct Hname as [?|Hb]; [discriminate|].
      unfold button_name in *.
      destruct (find row (Some "button") _); [|discriminate].
      destruct (get n "data-assignment-title") as [n'|]; [eauto|discriminate]. }
  destruct (row_record cid row name Hdata Hn Hne) as (v & Hv & Hp).
  assert (v = Some "2026-02-01T09:00:00-0800") as ->.
  { destruct (due_date_of_chain row) as (v' & Hv' & Hc).
    rewrite Hv in Hv'. inversion Hv'; subst v'.
    unfold due_date_chain, first_success, due_by_class in Hc.
    rewrite Htime, Hdt in Hc. simpl in Hc. apply Hc. }
  eexists. split; [|split].
  - rewrite get_assignments_omap. unfold TR_ROW. rewrite Hrows. simpl.
    unfold record_of. rewrite Hp.
    unfold process_row. destruct (find header None _); [|congruence]. reflexivity.
  - reflexivity.
  - intros course utcnow Y. rewrite project_eq. simpl a_due_date.
    rewrite parse_nine_am_pst. eexists. split; [reflexivity|].
    split; [reflexivity|]. split; [reflexivity|].
    intros i Hi. cbn [uid event_of]. cbn [a_id] in Hi. rewrite Hi. reflexivity.
Qed.

Lemma one_data_row_end_to_end_witness :
  exists rec ev,
    get_assignments (table [header_row; linked_row]) "101" = Ok [rec]
    /\ project cs101 rec stamp 2026 = Ok (Some ev)
    /\ dtstart ev = mkdt 2026 2 1 9 0 0 0 (Some (-8 * 3600 * 1000000))
    /\ a_id rec = Some "555"%string
    /\ uid ev = "101-555@gradescope-sync"%string.
Proof.
  destruct (one_data_row_end_to_end (table [header_row; linked_row]) "101"
              header_row linked_row
              (Tag "time" [("class", "submissionTimeChart--dueDate");
                           ("datetime", "2026-02-01T09:00:00-0800")]
                 [Text "Feb 01 at 9:00AM"]))
    as (rec & Hg & _ & Hp).
  - vm_compute. reflexivity.
  - vm_compute. discriminate.
  - vm_compute. reflexivity.
  - left. vm_compute. reflexivity.
  - vm_compute. reflexivity.
  - reflexivity.
  - destruct (Hp cs101 stamp 2026) as (ev & He & Hs & _ & Hu).
    assert (Hi : a_id rec = Some "555"%string).
    { assert (G : get_assignments (table [header_row; linked_row]) "101"
                  = Ok [homework1]) by (vm_compute; reflexivity).
      rewrite G in Hg. injection Hg as <-. reflexivity. }
    exists rec, ev. split; [exact Hg|]. split; [exact He|]. split; [exact Hs|].
    split; [exact Hi|]. exact (Hu "555"%string Hi).
Defined.

(** ** The reference year *)

Lemma new_inv y m d h mi s us tz dt :
  Datetime.new y m d h mi s us tz = Ok dt ->
  dt = mkdt y m d h mi s us tz
  /\ check_date_args y m d = Ok tt /\ check_time_args h mi s us = Ok tt
  /\ (fits_int y && fits_int m && fits_int d) = true.
Proof.
  unfold Datetime.new.
  destruct (fits_int y && fits_int m && fits_int d) eqn:F; simpl;
    [|rewrite ?andb_false_l; discriminate].
  destruct (_ && fits_int us); simpl; [|discriminate].
  destruct (check_date_args y m d) as [[]|]; simpl; [|discriminate].
  destruct (check_time_args h mi s us) as [[]|]; simpl; [|discriminate].
  intros H. inversion H. auto.
Qed.

Lemma new_year y m d h mi s us tz dt :
  Datetime.new y m d h mi s us tz = Ok dt -> year dt = y.
Proof. intros H. apply new_inv in H as [-> _]. reflexivity. Qed.

Lemma for_formats_inv body fmts otherwise d :
  for_formats body fmts otherwise = Ok (Some d) ->
  (exists fmt, In fmt fmts /\ body fmt = Ok d) \/ otherwise = Ok (Some d).
Proof.
  induction fmts as [|fmt fmts IH]; simpl; [auto|].
  destruct (body fmt) as [d'|e] eqn:E; simpl.
  - intros H. inversion H; subst. left. eauto.
  - destruct e; simpl; try discriminate.
    intros H. destruct (IH H) as [(f & Hin & Hf)|Ho]; [left; eauto|auto].
Qed.

Lemma from_match_year m Y dt : from_match m Y = Ok (Some dt) -> year dt = Y.
Proof.
  unfold from_match.
  destruct (group m "1"), (group m "2"), (group m "3"), (group m "4"),
    (group m "5"); try discriminate.
  destruct (month_of _) as [[mo|]|]; simpl; try discriminate.
  destruct (int _) as [h|]; simpl; try discriminate.
  destruct (int _) as [mi|]; simpl; try discriminate.
  destruct (int _) as [d|]; simpl; try discriminate.
  destruct (Datetime.new _ _ _ _ _ _ _ _) as [dt'|] eqn:E; simpl; try discriminate.
  intros H. inversion H; subst. eapply new_year. exact E.
Qed.

(** C6. When no absolute format reads the text and [parse_date] returns a
    timestamp, by a year-less format or by the permissive pattern, the
    year of the timestamp is the reference year; "January 24 at 4:00PM" in
    2026 gives 2026-01-24 16:00. *)
Theorem yearless_dates_take_the_reference_year :
  (forall s Y dt,
      (forall fmt d, In fmt formats_with_year ->
                     Strptime.strptime (strip s) fmt <> Ok d) ->
      parse_date (Some s) Y = Ok (Some dt) ->
      year dt = Y)
  /\ parse_date (Some "January 24 at 4:00PM") 2026
     = Ok (Some (mkdt 2026 1 24 16 0 0 0 None)).
Proof.
  split; [|vm_compute; reflexivity].
  intros s Y dt Hno H. unfold parse_date in H.
  destruct s as [|c s]; [discriminate|].
  apply for_formats_inv in H as [(fmt & Hin & Hf)|H].
  { exfalso. exact (Hno fmt dt Hin Hf). }
  apply for_formats_inv in H as [(fmt & Hin & Hf)|H].
  - destruct (Strptime.strptime _ fmt) as [parsed|]; simpl in Hf; [|discriminate].
    eapply new_year. exact Hf.
  - destruct (re_search true month_day_at_time _) as [m|]; [|discriminate].
    eapply from_match_year. exact H.
Qed.

Ltac no_absolute_format :=
  let fmt := fresh "fmt" in let d := fresh "d" in let Hin := fresh "Hin" in
  intros fmt d Hin; cbv [formats_with_year In] in Hin;
  repeat (destruct Hin as [<-|Hin]; [vm_compute; discriminate|]);
  destruct Hin.

Lemma yearless_dates_take_the_reference_year_witness :
  (exists dt, parse_date (Some "Jan 24 at 4:00 PM") 2031 = Ok (Some dt)
              /\ year dt = 2031)
  /\ (exists dt, parse_date (Some "Due: March 3 at 11:59pm") 2027 = Ok (Some dt)
                 /\ year dt = 2027).
Proof.
  split.
  - exists (mkdt 2031 1 24 16 0 0 0 None).
    assert (P : parse_date (Some "Jan 24 at 4:00 PM") 2031
                = Ok (Some (mkdt 2031 1 24 16 0 0 0 None))) by (vm_compute; reflexivity).
    split; [exact P|].
    apply (proj1 yearless_dates_take_the_reference_year "Jan 24 at 4:00 PM" 2031 _);
      [no_absolute_format|exact P].
  - exists (mkdt 2027 3 3 23 59 0 0 None).
    assert (P : parse_date (Some "Due: March 3 at 11:59pm") 2027
                = Ok (Some (mkdt 2027 3 3 23 59 0 0 None))) by (vm_compute; reflexivity).
    split; [exact P|].
    apply (proj1 yearless_dates_take_the_reference_year "Due: March 3 at 11:59pm" 2027 _);
      [no_absolute_format|exact P].
Defined.

(** ** Written instants: numbers and their digits *)

Lemma in_zrange lo n v : lo <= v < lo + Z.of_nat n -> In v (zrange lo n).
Proof.
  revert lo. induction n as [|n IH]; intros lo H; simpl; [lia|].
  destruct (Z.eq_dec lo v); [auto|right; apply IH; lia].
Qed.

Lemma forall_range (P : Z -> bool) lo n :
  forallb P (zrange lo (Z.to_nat n)) = true ->
  forall v, lo <= v < lo + n -> P v = true.
Proof.
  intros H v Hv. rewrite forallb_forall in H. apply H, in_zrange. lia.
Qed.

Lemma int_pad2 v : 0 <= v <= 99 -> int (pad2 v) = Ok v.
Proof.
  intros H.
  pose proof (forall_range (fun v => match int (pad2 v) with Ok w => w =? v | Raise _ => false end) 0 100 ltac:(vm_compute; reflexivity) v ltac:(lia)) as C.
  simpl in C. destruct (int (pad2 v)); [|discriminate]. apply Z.eqb_eq in C. congruence.
Qed.

Lemma int_pad4 v : 0 <= v <= 9999 -> int (pad4 v) = Ok v.
Proof.
  intros H.
  pose proof (forall_range (fun v => match int (pad4 v) with Ok w => w =? v | Raise _ => false end) 0 10000 ltac:(vm_compute; reflexivity) v ltac:(lia)) as C.
  simpl in C. destruct (int (pad4 v)); [|discriminate]. apply Z.eqb_eq in C. congruence.
Qed.

#[local] Arguments consumed : simpl never.
#[local] Arguments int : simpl never.

Lemma consumed_2 a b rest :
  consumed (String a (String b rest)) rest = String a (String b "").
Proof. exact (consumed_append (String a (String b "")) rest). Qed.
Lemma consumed_1of2 a b rest :
  consumed (String a (String b rest)) (String b rest) = String a "".
Proof. exact (consumed_append (String a "") (String b rest)). Qed.

Lemma digit_facts c :
  is_digit c = true -> lower c = c /\ is_space c = false.
Proof.
  destruct c as [[] [] [] [] [] [] [] []]; intros H; try discriminate H;
    split; reflexivity.
Qed.

Lemma mem_lowered_digit c cs :
  is_digit c = true ->
  forallb (fun x => negb (is_digit x)) (list_ascii_of_string (str_map lower cs)) = true ->
  mem c (str_map lower cs) = false.
Proof.
  intros Hc. induction cs as [|x cs IH]; simpl; [reflexivity|].
  intros H. apply andb_true_iff in H as [Hx H].
  rewrite (IH H), orb_false_r.
  destruct (Ascii.eqb_spec (lower x) c) as [E|E]; [|reflexivity].
  rewrite E, Hc in Hx. discriminate.
Qed.

Ltac norm_pad :=
  repeat match goal with
    | |- context [pad2 ?v] =>
        let s := eval vm_compute in (pad2 v) in change (pad2 v) with s
    end.

Ltac enum v n :=
  let E := fresh "E" in
  assert (E : In v (zrange 0 n)) by (apply in_zrange; simpl; lia);
  vm_compute in E;
  repeat (destruct E as [E|E]; [subst v|]); [..|destruct E].

Ltac two_digit_step HR :=
  norm_pad; simpl;
  rewrite ?consumed_2, ?consumed_1of2;
  rewrite ?HR by reflexivity;
  match goal with
  | |- match ?x with Some _ => _ | None => _ end = _ => destruct x; reflexivity
  | |- _ => reflexivity
  end.

Ltac fields_step v n HR := enum v n; try (exfalso; lia); two_digit_step HR.

Ltac name_step :=
  match goal with
  | |- _ = rmatch true ?R ?rest ((?n, ?p) :: ?caps) ?k =>
      replace ((n, p) :: caps) with ((n, consumed (p ++ rest) rest) :: caps)
        by (rewrite consumed_append; reflexivity)
  end;
  simpl;
  match goal with
  | |- match ?x with Some _ => _ | None => _ end = _ => destruct x; reflexivity
  | |- _ => reflexivity
  end.

Ltac norm_names :=
  repeat match goal with
    | |- context [month_name ?v] =>
        let s := eval vm_compute in (month_name v) in change (month_name v) with s
    | |- context [month_abbr ?v] =>
        let s := eval vm_compute in (month_abbr v) in change (month_abbr v) with s
    end.

Section Stepping.
Context {A : Type}.
Implicit Types (k : string -> captures -> option A) (R : regex).

Lemma nondigit_start_rejects R k : nondigit_start R = true -> rejects_digits R k.
Proof.
  unfold rejects_digits. revert k.
  induction R as [|l|l|cl|r1 IH1 r2 IH2|r1 IH1 r2 IH2|cl|n r1 IH1];
    intros k HR c s caps Hc; simpl in *; try discriminate.
  - unfold chr_match. simpl. destruct (digit_facts c Hc) as [-> _].
    destruct (Ascii.eqb_spec c (lower l)) as [E|E]; [|reflexivity].
    rewrite <- E, Hc in HR. discriminate.
  - destruct (Ascii.eqb_spec c l) as [E|E]; [|reflexivity].
    rewrite <- E, Hc in HR. discriminate.
  - destruct cl; try discriminate; simpl.
    + destruct (digit_facts c Hc) as [_ ->]. reflexivity.
    + destruct (digit_facts c Hc) as [-> _].
      rewrite mem_lowered_digit by assumption. reflexivity.
  - apply IH1; assumption.
  - apply andb_true_iff in HR as [H1 H2].
    rewrite IH1 by assumption. apply IH2; assumption.
  - apply IH1; assumption.
Qed.

Lemma re_M_step R v rest caps k :
  0 <= v <= 59 -> rejects_digits R k ->
  rmatch true (re_M >> R) (pad2 v ++ rest) caps k
  = rmatch true R rest (("M", pad2 v) :: caps) k.
Proof. intros Hv HR. fields_step v 60%nat HR. Qed.

Lemma re_S_step R v rest caps k :
  0 <= v <= 59 -> rejects_digits R k ->
  rmatch true (re_S >> R) (pad2 v ++ rest) caps k
  = rmatch true R rest (("S", pad2 v) :: caps) k.
Proof. intros Hv HR. fields_step v 60%nat HR. Qed.

Lemma re_H_step R v rest caps k :
  0 <= v <= 23 -> rejects_digits R k ->
  rmatch true (re_H >> R) (pad2 v ++ rest) caps k
  = rmatch true R rest (("H", pad2 v) :: caps) k.
Proof. intros Hv HR. fields_step v 24%nat HR. Qed.

Lemma re_I_step R v rest caps k :
  1 <= v <= 12 -> rejects_digits R k ->
  rmatch true (re_I >> R) (pad2 v ++ rest) caps k
  = rmatch true R rest (("I", pad2 v) :: caps) k.
Proof. intros Hv HR. fields_step v 13%nat HR. Qed.

Lemma re_m_step R v rest caps k :
  1 <= v <= 12 -> rejects_digits R k ->
  rmatch true (re_m >> R) (pad2 v ++ rest) caps k
  = rmatch true R rest (("m", pad2 v) :: caps) k.
Proof. intros Hv HR. fields_step v 13%nat HR. Qed.

Lemma re_d_step R v rest caps k :
  1 <= v <= 31 -> rejects_digits R k ->
  rmatch true (re_d >> R) (pad2 v ++ rest) caps k
  = rmatch true R rest (("d", pad2 v) :: caps) k.
Proof. intros Hv HR. fields_step v 32%nat HR. Qed.

Lemma digit_is_digit n : 0 <= n <= 9 -> cls_match true Digit (digit n) = true.
Proof.
  intros H.
  exact (forall_range (fun n => cls_match true Digit (digit n)) 0 10
           ltac:(vm_compute; reflexivity) n ltac:(lia)).
Qed.

Lemma digit_not_space n : 0 <= n <= 9 -> is_space (digit n) = false.
Proof.
  intros H. apply negb_true_iff.
  exact (forall_range (fun n => negb (is_space (digit n))) 0 10
           ltac:(vm_compute; reflexivity) n ltac:(lia)).
Qed.

Lemma pad4_digits y :
  0 <= y <= 9999 ->
  0 <= y / 1000 <= 9 /\ 0 <= y / 100 mod 10 <= 9
  /\ 0 <= y / 10 mod 10 <= 9 /\ 0 <= y mod 10 <= 9.
Proof. intros H. repeat split; Z.div_mod_to_equations; lia. Qed.

Lemma pad2_digits v :
  0 <= v <= 99 -> 0 <= v / 10 <= 9 /\ 0 <= v mod 10 <= 9.
Proof. intros H. repeat split; Z.div_mod_to_equations; lia. Qed.

Lemma re_Y_step R y rest caps k :
  0 <= y <= 9999 ->
  rmatch true (re_Y >> R) (pad4 y ++ rest) caps k
  = rmatch true R rest (("Y", pad4 y) :: caps) k.
Proof.
  intros Hy. destruct (pad4_digits y Hy) as (H1 & H2 & H3 & H4).
  rewrite <- (consumed_append (pad4 y) rest) at 2.
  unfold re_Y, r09, pad4. cbn [rmatch String.append].
  rewrite !digit_is_digit by assumption. reflexivity.
Qed.

Lemma chr_step R c a rest caps k :
  chr_match true c a = true ->
  rmatch true (Chr c >> R) (String a rest) caps k = rmatch true R rest caps k.
Proof. intros H. simpl. rewrite H. reflexivity. Qed.

Lemma space_step R rest caps k :
  head_nonspace rest ->
  rmatch true (Plus Space >> R) (String " " rest) caps k
  = rmatch true R rest caps k.
Proof.
  intros H. unfold Plus. cbn [rmatch]. simpl cls_match. cbv iota.
  destruct rest as [|c rest]; simpl; [reflexivity|].
  simpl in H. rewrite H. reflexivity.
Qed.

Lemma re_B_step R m rest caps k :
  1 <= m <= 12 ->
  rmatch true (re_B >> R) (month_name m ++ rest) caps k
  = rmatch true R rest (("B", month_name m) :: caps) k.
Proof. intros Hm. enum m 13%nat; try (exfalso; lia); norm_names; name_step. Qed.

Lemma re_b_step R m rest caps k :
  1 <= m <= 12 ->
  rmatch true (re_b >> R) (month_abbr m ++ rest) caps k
  = rmatch true R rest (("b", month_abbr m) :: caps) k.
Proof. intros Hm. enum m 13%nat; try (exfalso; lia); norm_names; name_step. Qed.

(** The abbreviation of a longer name is followed by a letter, not a space. *)
Lemma re_b_on_full_name R m rest caps k :
  1 <= m <= 12 -> m <> 5 ->
  rmatch true (re_b >> Plus Space >> R) (month_name m ++ rest) caps k = None.
Proof. intros Hm H5. enum m 13%nat; try (exfalso; lia); norm_names; reflexivity. Qed.

End Stepping.

(** ** The groups already matched do not influence a match *)
Lemma star_ext {A} ic c s (k1 k2 : string -> option A) :
  (forall s', k1 s' = k2 s') -> star ic c s k1 = star ic c s k2.
Proof.
  intros H. induction s as [|a s IH]; simpl; [apply H|].
  rewrite IH, H. reflexivity.
Qed.

Lemma rmatch_ext {A} ic r s caps (k1 k2 : string -> captures -> option A) :
  (forall s' c', k1 s' c' = k2 s' c') ->
  rmatch ic r s caps k1 = rmatch ic r s caps k2.
Proof.
  revert s caps k1 k2.
  induction r as [|l|l|cl|r1 IH1 r2 IH2|r1 IH1 r2 IH2|cl|n r1 IH1];
    intros s caps k1 k2 H; simpl.
  - apply H.
  - destruct s; [reflexivity|]. rewrite H. reflexivity.
  - destruct s; [reflexivity|]. rewrite H. reflexivity.
  - destruct s; [reflexivity|]. rewrite H. reflexivity.
  - apply IH1. intros s' c'. apply IH2, H.
  - rewrite (IH1 s caps k1 k2 H), (IH2 s caps k1 k2 H). reflexivity.
  - apply star_ext. intros s'. apply H.
  - apply IH1. intros s' c'. apply H.
Qed.

Lemma star_map {A B} ic c s (k : string -> option A) (g : A -> B) :
  star ic c s (fun s' => option_map g (k s')) = option_map g (star ic c s k).
Proof.
  induction s as [|a s IH]; simpl; [reflexivity|].
  destruct (cls_match ic c a); [|reflexivity].
  rewrite IH. destruct (star ic c s k); reflexivity.
Qed.

Lemma rmatch_map {A B} ic r s caps (k : string -> captures -> option A)
    (g : A -> B) :
  rmatch ic r s caps (fun s' c' => option_map g (k s' c'))
  = option_map g (rmatch ic r s caps k).
Proof.
  revert s caps k.
  induction r as [|l|l|cl|r1 IH1 r2 IH2|r1 IH1 r2 IH2|cl|n r1 IH1];
    intros s caps k; simpl.
  - reflexivity.
  - destruct s; [reflexivity|]. destruct (chr_match ic l a); reflexivity.
  - destruct s; [reflexivity|]. destruct (Ascii.eqb a l); reflexivity.
  - destruct s; [reflexivity|]. destruct (cls_match ic cl a); reflexivity.
  - rewrite <- IH1. apply rmatch_ext. intros s' c'. apply IH2.
  - rewrite IH1, IH2. destruct (rmatch ic r1 s caps k); reflexivity.
  - apply (star_map ic cl s (fun s' => k s' caps) g).
  - apply (IH1 s caps (fun s' caps' => k s' ((n, consumed s s') :: caps'))).
Qed.

Lemma rmatch_frame {A} ic r s c1 c2 (k : string -> captures -> option A) :
  rmatch ic r s (c1 ++ c2) k
  = rmatch ic r s c1 (fun s' c' => k s' (c' ++ c2)).
Proof.
  revert s c1 k.
  induction r as [|l|l|cl|r1 IH1 r2 IH2|r1 IH1 r2 IH2|cl|n r1 IH1];
    intros s c1 k; simpl; try reflexivity.
  - rewrite IH1. apply rmatch_ext. intros s' c'. apply IH2.
  - rewrite IH1, IH2. reflexivity.
  - rewrite IH1. reflexivity.
Qed.

Lemma re_match_frame ic r s caps c0 rest0 :
  re_match ic r s = Some (c0, rest0) ->
  rmatch ic r s caps (fun rest c => Some (c, rest)) = Some (c0 ++ caps, rest0).
Proof.
  unfold re_match. intros H.
  rewrite (rmatch_frame ic r s [] caps). simpl.
  rewrite (rmatch_ext ic r s [] _
             (fun s' c' => option_map (fun p : captures * string => (p.1 ++ caps, p.2))
                                      (Some (c', s'))))
    by reflexivity.
  rewrite (rmatch_map ic r s [] (fun s' c' => Some (c', s'))).
  rewrite H. reflexivity.
Qed.

(** ** The last field of a format *)

Lemma re_p_last h caps :
  rmatch true (re_p >> Eps) (am_or_pm h ++ "") caps k0
  = Some (("p", am_or_pm h) :: caps, "").
Proof.
  unfold am_or_pm. destruct (h <? 12);
    apply (re_match_frame true _ _ caps [(_, _)] ""); vm_compute; reflexivity.
Qed.

Lemma sole_group_spec ic r s n p caps :
  sole_group ic r s n p = true ->
  rmatch ic r s caps k0 = Some ((n, p) :: caps, "").
Proof.
  unfold sole_group. intros C.
  apply (re_match_frame ic r s caps [(n, p)] "").
  destruct (re_match ic r s) as [[[|[n' p'] [|]] [|]]|]; try discriminate.
  apply andb_true_iff in C as [C1 C2].
  apply String.eqb_eq in C1, C2. subst. reflexivity.
Qed.

Lemma re_S_last v caps :
  0 <= v <= 59 ->
  rmatch true (re_S >> Eps) (pad2 v ++ "") caps k0
  = Some (("S", pad2 v) :: caps, "").
Proof.
  intros H. apply sole_group_spec.
  exact (forall_range
    (fun v => sole_group true (re_S >> Eps) (pad2 v ++ "") "S" (pad2 v))
    0 60 ltac:(vm_compute; reflexivity) v ltac:(lia)).
Qed.

Lemma whole_minutes_inv us :
  whole_minutes us -> exists m, us = m * 60000000 /\ -1440 < m < 1440.
Proof.
  intros [H1 H2]. exists (us / 60000000). split.
  - Z.div_mod_to_equations. lia.
  - Z.div_mod_to_equations. lia.
Qed.

Lemma re_z_last us caps :
  whole_minutes us ->
  rmatch true (re_z >> Eps) (offset (Some us) ++ "") caps k0
  = Some (("z", offset (Some us)) :: caps, "").
Proof.
  intros H. apply whole_minutes_inv in H as (m & -> & Hm).
  apply sole_group_spec.
  exact (forall_range
    (fun m => sole_group true (re_z >> Eps) (offset (Some (m * 60000000)) ++ "")
                "z" (offset (Some (m * 60000000))))
    (-1439) 2879 ltac:(vm_compute; reflexivity) m ltac:(lia)).
Qed.

Lemma parse_z_offset us :
  whole_minutes us -> parse_z (offset (Some us)) = Ok (us / 1000000, 0).
Proof.
  intros H. apply whole_minutes_inv in H as (m & -> & Hm).
  pose proof (forall_range
    (fun m => match parse_z (offset (Some (m * 60000000))) with
              | Ok (g, f) => (g =? m * 60000000 / 1000000) && (f =? 0)
              | _ => false
              end) (-1439) 2879 ltac:(vm_compute; reflexivity) m ltac:(lia)) as C.
  cbv beta in C.
  destruct (parse_z (offset (Some (m * 60000000)))) as [[g f]|]; try discriminate.
  apply andb_true_iff in C as [C1 C2].
  apply Z.eqb_eq in C1, C2. subst. reflexivity.
Qed.

(** ** From the groups to the fields *)
#[local] Arguments pad2 : simpl never.
#[local] Arguments pad4 : simpl never.
#[local] Arguments month_name : simpl never.
#[local] Arguments month_abbr : simpl never.
#[local] Arguments hour12 : simpl never.
#[local] Arguments am_or_pm : simpl never.
#[local] Arguments offset : simpl never.
#[local] Arguments index_of : simpl never.
#[local] Arguments parse_z : simpl never.
#[local] Arguments str_lower : simpl never.

Section Fields.
Variable fd : captures.
Variables (y0 : option Z) (mo0 d0 h0 mi0 s0 : Z) (off0 : option Z) (fr0 : Z).
Abbreviation st := (mkfields y0 mo0 d0 h0 mi0 s0 off0 fr0).

Lemma step_Y y :
  group fd "Y" = Some (pad4 y) -> 0 <= y <= 9999 ->
  step fd st "Y" = Ok (mkfields (Some y) mo0 d0 h0 mi0 s0 off0 fr0).
Proof.
  intros G H. unfold step, getitem. simpl. rewrite G. simpl.
  rewrite int_pad4 by assumption. reflexivity.
Qed.

Lemma step_m v :
  group fd "m" = Some (pad2 v) -> 0 <= v <= 99 ->
  step fd st "m" = Ok (mkfields y0 v d0 h0 mi0 s0 off0 fr0).
Proof.
  intros G H. unfold step, getitem. simpl. rewrite G. simpl.
  rewrite int_pad2 by assumption. reflexivity.
Qed.

Lemma step_d v :
  group fd "d" = Some (pad2 v) -> 0 <= v <= 99 ->
  step fd st "d" = Ok (mkfields y0 mo0 v h0 mi0 s0 off0 fr0).
Proof.
  intros G H. unfold step, getitem. simpl. rewrite G. simpl.
  rewrite int_pad2 by assumption. reflexivity.
Qed.

Lemma step_H v :
  group fd "H" = Some (pad2 v) -> 0 <= v <= 99 ->
  step fd st "H" = Ok (mkfields y0 mo0 d0 v mi0 s0 off0 fr0).
Proof.
  intros G H. unfold step, getitem. simpl. rewrite G. simpl.
  rewrite int_pad2 by assumption. reflexivity.
Qed.

Lemma step_M v :
  group fd "M" = Some (pad2 v) -> 0 <= v <= 99 ->
  step fd st "M" = Ok (mkfields y0 mo0 d0 h0 v s0 off0 fr0).
Proof.
  intros G H. unfold step, getitem. simpl. rewrite G. simpl.
  rewrite int_pad2 by assumption. reflexivity.
Qed.

Lemma step_S v :
  group fd "S" = Some (pad2 v) -> 0 <= v <= 99 ->
  step fd st "S" = Ok (mkfields y0 mo0 d0 h0 mi0 v off0 fr0).
Proof.
  intros G H. unfold step, getitem. simpl. rewrite G. simpl.
  rewrite int_pad2 by assumption. reflexivity.
Qed.

Lemma step_p : step fd st "p" = Ok st.
Proof. reflexivity. Qed.

Lemma step_B m :
  group fd "B" = Some (month_name m) -> 1 <= m <= 12 ->
  step fd st "B" = Ok (mkfields y0 m d0 h0 mi0 s0 off0 fr0).
Proof.
  intros G H. unfold step, getitem. simpl. rewrite G. simpl.
  replace (index_of (str_lower (month_name m)) f_month) with (Ok m : res Z);
    [reflexivity|].
  enum m 13%nat; try (exfalso; lia); vm_compute; reflexivity.
Qed.

Lemma step_b m :
  group fd "b" = Some (month_abbr m) -> 1 <= m <= 12 ->
  step fd st "b" = Ok (mkfields y0 m d0 h0 mi0 s0 off0 fr0).
Proof.
  intros G H. unfold step, getitem. simpl. rewrite G. simpl.
  replace (index_of (str_lower (month_abbr m)) a_month) with (Ok m : res Z);
    [reflexivity|].
  enum m 13%nat; try (exfalso; lia); vm_compute; reflexivity.
Qed.

Lemma step_I h :
  group fd "I" = Some (pad2 (hour12 h)) -> group fd "p" = Some (am_or_pm h) ->
  0 <= h <= 23 ->
  step fd st "I" = Ok (mkfields y0 mo0 d0 h mi0 s0 off0 fr0).
Proof.
  intros G P H. unfold step, getitem. simpl. rewrite G, P. simpl.
  enum h 24%nat; vm_compute; reflexivity.
Qed.

Lemma step_z us :
  group fd "z" = Some (offset (Some us)) -> whole_minutes us ->
  step fd st "z" = Ok (mkfields y0 mo0 d0 h0 mi0 s0 (Some (us / 1000000)) 0).
Proof.
  intros G H. unfold step, getitem. simpl. rewrite G. simpl.
  rewrite parse_z_offset by assumption. reflexivity.
Qed.

End Fields.

(** ** Assembling [strptime] *)
Lemma valid_ranges y m d h mi s tz dt :
  Datetime.new y m d h mi s 0 tz = Ok dt ->
  dt = mkdt y m d h mi s 0 tz
  /\ 1 <= y <= 9999 /\ 1 <= m <= 12 /\ 1 <= d <= 31
  /\ 0 <= h <= 23 /\ 0 <= mi <= 59 /\ 0 <= s <= 59
  /\ Datetime.date y m d = Ok tt /\ Datetime.date y 1 1 = Ok tt.
Proof.
  intros H. apply new_inv in H as (-> & Hd & Ht & F). split; [reflexivity|].
  unfold Datetime.date. rewrite F, Hd. simpl.
  unfold check_date_args, check_time_args, MINYEAR, MAXYEAR in *.
  destruct ((1 <=? y) && (y <=? 9999)) eqn:E1; simpl in *; [|discriminate].
  destruct ((1 <=? m) && (m <=? 12)) eqn:E2; simpl in *; [|discriminate].
  destruct ((1 <=? d) && (d <=? days_in_month y m)) eqn:E3; simpl in *; [|discriminate].
  destruct ((0 <=? h) && (h <=? 23)) eqn:E4; simpl in *; [|discriminate].
  destruct ((0 <=? mi) && (mi <=? 59)) eqn:E5; simpl in *; [|discriminate].
  destruct ((0 <=? s) && (s <=? 59)) eqn:E6; simpl in *; [|discriminate].
  assert (days_in_month y m <= 31).
  { unfold days_in_month. destruct (m =? 2); [destruct (is_leap y); lia|].
    destruct (_ || _); lia. }
  apply andb_true_iff in E1 as [?%Z.leb_le ?%Z.leb_le].
  apply andb_true_iff in E2 as [?%Z.leb_le ?%Z.leb_le].
  apply andb_true_iff in E3 as [?%Z.leb_le ?%Z.leb_le].
  apply andb_true_iff in E4 as [?%Z.leb_le ?%Z.leb_le].
  apply andb_true_iff in E5 as [?%Z.leb_le ?%Z.leb_le].
  apply andb_true_iff in E6 as [?%Z.leb_le ?%Z.leb_le].
  assert (fits_int y = true) as -> by (unfold fits_int; lia).
  repeat split; lia.
Qed.

Lemma strptime_of_match format R s caps y m d h mi sec off frac :
  pattern format = Some R ->
  re_match true R s = Some (caps, "") ->
  steps caps fields0 (keys caps) = Ok (mkfields (Some y) m d h mi sec off frac) ->
  Datetime.date y m d = Ok tt -> Datetime.date y 1 1 = Ok tt ->
  Strptime.strptime s format
  = match off with
    | Some g => Py.bind (Datetime.timezone g frac)
                  (fun tz => Datetime.new y m d h mi sec 0 (Some tz))
    | None => Datetime.new y m d h mi sec 0 None
    end.
Proof.
  intros HP HM HS D1 D2. unfold Strptime.strptime, _strptime.
  rewrite HP, HM. simpl. rewrite HS. simpl. rewrite D1, D2. simpl. reflexivity.
Qed.

Lemma strptime_no_match format R s :
  pattern format = Some R -> re_match true R s = None ->
  Strptime.strptime s format = Raise ValueError.
Proof.
  intros HP HM. unfold Strptime.strptime, _strptime. rewrite HP, HM. reflexivity.
Qed.

Lemma head_pad2 v rest : 0 <= v <= 99 -> head_nonspace (pad2 v ++ rest).
Proof. intros H. apply digit_not_space, pad2_digits, H. Qed.

Lemma head_pad4 v rest : 0 <= v <= 9999 -> head_nonspace (pad4 v ++ rest).
Proof. intros H. apply digit_not_space, pad4_digits, H. Qed.

Lemma head_offset us rest : head_nonspace (offset (Some us) ++ rest).
Proof. unfold offset. destruct (us <? 0); reflexivity. Qed.

Lemma head_am_or_pm h rest : head_nonspace (am_or_pm h ++ rest).
Proof. unfold am_or_pm. destruct (h <? 12); reflexivity. Qed.

Lemma hour12_range h : 0 <= h <= 23 -> 1 <= hour12 h <= 12.
Proof.
  intros H. unfold hour12. destruct (Z.eqb_spec (h mod 12) 0); [lia|].
  Z.div_mod_to_equations. lia.
Qed.

Ltac side :=
  first
    [ assumption
    | reflexivity
    | lia
    | apply nondigit_start_rejects; reflexivity
    | apply head_pad2; lia
    | apply head_pad4; lia
    | apply head_offset
    | apply head_am_or_pm
    | apply hour12_range; lia
    | exact I ].

Ltac walk :=
  repeat first
    [ rewrite re_Y_step by side
    | rewrite re_m_step by side
    | rewrite re_d_step by side
    | rewrite re_H_step by side
    | rewrite re_M_step by side
    | rewrite re_S_step by side
    | rewrite re_I_step by side
    | rewrite re_B_step by side
    | rewrite re_b_step by side
    | rewrite chr_step by side
    | rewrite space_step by side ].

Ltac convert :=
  unfold fields0; cbn [keys rev map fst app steps];
  repeat first
    [ erewrite step_Y; [|reflexivity|side]
    | erewrite step_m; [|reflexivity|side]
    | erewrite step_d; [|reflexivity|side]
    | erewrite step_H; [|reflexivity|side]
    | erewrite step_M; [|reflexivity|side]
    | erewrite step_S; [|reflexivity|side]
    | erewrite step_B; [|reflexivity|side]
    | erewrite step_b; [|reflexivity|side]
    | erewrite step_I; [|reflexivity|reflexivity|side]
    | erewrite step_z; [|reflexivity|side]
    | rewrite step_p
    | progress cbn [Py.bind steps] ].

Lemma pattern_3 : pattern "%Y-%m-%dT%H:%M:%S" = Some R3.
Proof. reflexivity. Qed.

Lemma roundtrip_3 dt :
  Datetime.new (year dt) (month dt) (day dt) (hour dt) (minute dt) (second dt) 0 None
    = Ok dt ->
  Strptime.strptime (write dt "%Y-%m-%dT%H:%M:%S") "%Y-%m-%dT%H:%M:%S" = Ok dt.
Proof.
  intros V. pose proof V as V'.
  apply valid_ranges in V' as (E & Hy & Hm & Hd & Hh & Hmi & Hs & D1 & D2).
  rewrite (strptime_of_match _ R3 _
             [("S", pad2 (second dt)); ("M", pad2 (minute dt)); ("H", pad2 (hour dt));
              ("d", pad2 (day dt)); ("m", pad2 (month dt)); ("Y", pad4 (year dt))]
             (year dt) (month dt) (day dt) (hour dt) (minute dt) (second dt) None 0
             pattern_3); try assumption.
  - unfold re_match, R3. cbn [write field String.append]. walk. apply re_S_last. lia.
  - convert. reflexivity.
Qed.

(** ** Mismatches *)
Section Misses.
Context {A : Type}.
Implicit Types (k : string -> captures -> option A) (R : regex).

Lemma chr_miss R c a rest caps k :
  chr_match true c a = false ->
  rmatch true (Chr c >> R) (String a rest) caps k = None.
Proof. intros H. simpl. rewrite H. reflexivity. Qed.

Lemma space_miss R a rest caps k :
  is_space a = false ->
  rmatch true (Plus Space >> R) (String a rest) caps k = None.
Proof. intros H. unfold Plus. cbn [rmatch]. simpl cls_match. rewrite H. reflexivity. Qed.

Lemma pad2_rejected R v rest caps k :
  rejects_digits R k -> 0 <= v <= 99 ->
  rmatch true R (pad2 v ++ rest) caps k = None.
Proof.
  intros HR Hv. unfold pad2. cbn [String.append]. apply HR.
  apply (digit_is_digit (v / 10)), pad2_digits, Hv.
Qed.

Lemma re_Y_on_abbr R m rest caps k :
  1 <= m <= 12 ->
  rmatch true (re_Y >> R) (month_abbr m ++ rest) caps k = None.
Proof. intros Hm. enum m 13%nat; try (exfalso; lia); norm_names; reflexivity. Qed.

Lemma re_Y_on_name R m rest caps k :
  1 <= m <= 12 ->
  rmatch true (re_Y >> R) (month_name m ++ rest) caps k = None.
Proof. intros Hm. enum m 13%nat; try (exfalso; lia); norm_names; reflexivity. Qed.

Lemma re_Y_on_slash R v rest caps k :
  1 <= v <= 12 ->
  rmatch true (re_Y >> R) (pad2 v ++ String "/" rest) caps k = None.
Proof. intros Hm. enum v 13%nat; try (exfalso; lia); norm_pad; reflexivity. Qed.

End Misses.

Lemma pattern_1 : pattern F1 = Some R1. Proof. reflexivity. Qed.
Lemma pattern_2 : pattern F2 = Some R2. Proof. reflexivity. Qed.
Lemma pattern_4 : pattern F4 = Some R4. Proof. reflexivity. Qed.
Lemma pattern_5 : pattern F5 = Some R5. Proof. reflexivity. Qed.
Lemma pattern_6 : pattern F6 = Some R6. Proof. reflexivity. Qed.
Lemma pattern_7 : pattern F7 = Some R7. Proof. reflexivity. Qed.
Lemma pattern_8 : pattern F8 = Some R8. Proof. reflexivity. Qed.

Lemma formats_with_year_eq :
  formats_with_year = [F1; F2; F3; F4; F5; F6; F7; F8].
Proof. reflexivity. Qed.

Ltac ranges V :=
  let V' := fresh in
  pose proof V as V'; unfold valid in V';
  apply valid_ranges in V' as (? & ? & ? & ? & ? & ? & ? & ? & ?);
  match goal with
  | Hh : 0 <= hour ?d <= 23 |- _ => pose proof (hour12_range _ Hh)
  end.

Ltac open_written F R :=
  unfold re_match, F, R; cbn [write field String.append].

Lemma timezone_whole us : whole_minutes us -> timezone (us / 1000000) 0 = Ok us.
Proof.
  intros [H1 H2]. unfold timezone.
  replace (us / 1000000 * 1000000 + 0) with us by (Z.div_mod_to_equations; lia).
  destruct (Z.ltb_spec (-86400000000) us); [|lia].
  destruct (Z.ltb_spec us 86400000000); [|lia]. reflexivity.
Qed.

Ltac finish_miss :=
  first
    [ reflexivity
    | apply chr_miss; reflexivity
    | apply space_miss; reflexivity
    | apply re_Y_on_abbr; side
    | apply re_Y_on_name; side
    | apply re_Y_on_slash; side
    | apply re_b_on_full_name; side
    | apply pad2_rejected; [apply nondigit_start_rejects; reflexivity | lia] ].

Ltac miss P F R :=
  apply (strptime_no_match _ R _ P); open_written F R; walk; finish_miss.

Section Formats.
Variable dt : datetime.
Hypothesis V : valid dt.

Lemma match_1_1 us :
  tzinfo dt = Some us -> whole_minutes us ->
  Strptime.strptime (write dt F1) F1 = Ok dt.
Proof.
  intros Htz W. ranges V.
  rewrite (strptime_of_match _ R1 _
             [("z", offset (Some us)); ("S", pad2 (second dt));
              ("M", pad2 (minute dt)); ("H", pad2 (hour dt));
              ("d", pad2 (day dt)); ("m", pad2 (month dt)); ("Y", pad4 (year dt))]
             (year dt) (month dt) (day dt) (hour dt) (minute dt) (second dt)
             (Some (us / 1000000)) 0 pattern_1); try assumption.
  - rewrite timezone_whole by assumption. simpl. rewrite <- Htz. exact V.
  - open_written F1 R1. rewrite Htz. walk. apply re_z_last. assumption.
  - convert. reflexivity.
Qed.

Lemma match_2_2 us :
  tzinfo dt = Some us -> whole_minutes us ->
  Strptime.strptime (write dt F2) F2 = Ok dt.
Proof.
  intros Htz W. ranges V.
  rewrite (strptime_of_match _ R2 _
             [("z", offset (Some us)); ("S", pad2 (second dt));
              ("M", pad2 (minute dt)); ("H", pad2 (hour dt));
              ("d", pad2 (day dt)); ("m", pad2 (month dt)); ("Y", pad4 (year dt))]
             (year dt) (month dt) (day dt) (hour dt) (minute dt) (second dt)
             (Some (us / 1000000)) 0 pattern_2); try assumption.
  - rewrite timezone_whole by assumption. simpl. rewrite <- Htz. exact V.
  - open_written F2 R2. rewrite Htz. walk. apply re_z_last. assumption.
  - convert. reflexivity.
Qed.

Lemma match_3_3 :
  tzinfo dt = None -> Strptime.strptime (write dt F3) F3 = Ok dt.
Proof.
  intros Htz. apply roundtrip_3. rewrite <- Htz. exact V.
Qed.

Lemma miss_1_2 : Strptime.strptime (write dt F2) F1 = Raise ValueError.
Proof. ranges V. miss pattern_1 F2 R1. Qed.

Lemma miss_1_3 : Strptime.strptime (write dt F3) F1 = Raise ValueError.
Proof. ranges V. miss pattern_1 F3 R1. Qed.

Lemma miss_2_3 : Strptime.strptime (write dt F3) F2 = Raise ValueError.
Proof. ranges V. miss pattern_2 F3 R2. Qed.

(** The formats that begin with the year reject a text that begins with a
    month. *)
Lemma miss_1_4 : Strptime.strptime (write dt F4) F1 = Raise ValueError.
Proof. ranges V. miss pattern_1 F4 R1. Qed.
Lemma miss_2_4 : Strptime.strptime (write dt F4) F2 = Raise ValueError.
Proof. ranges V. miss pattern_2 F4 R2. Qed.
Lemma miss_3_4 : Strptime.strptime (write dt F4) F3 = Raise ValueError.
Proof. ranges V. miss pattern_3 F4 R3. Qed.
Lemma miss_1_5 : Strptime.strptime (write dt F5) F1 = Raise ValueError.
Proof. ranges V. miss pattern_1 F5 R1. Qed.
Lemma miss_2_5 : Strptime.strptime (write dt F5) F2 = Raise ValueError.
Proof. ranges V. miss pattern_2 F5 R2. Qed.
Lemma miss_3_5 : Strptime.strptime (write dt F5) F3 = Raise ValueError.
Proof. ranges V. miss pattern_3 F5 R3. Qed.
Lemma miss_1_6 : Strptime.strptime (write dt F6) F1 = Raise ValueError.
Proof. ranges V. miss pattern_1 F6 R1. Qed.
Lemma miss_2_6 : Strptime.strptime (write dt F6) F2 = Raise ValueError.
Proof. ranges V. miss pattern_2 F6 R2. Qed.
Lemma miss_3_6 : Strptime.strptime (write dt F6) F3 = Raise ValueError.
Proof. ranges V. miss pattern_3 F6 R3. Qed.
Lemma miss_1_7 : Strptime.strptime (write dt F7) F1 = Raise ValueError.
Proof. ranges V. miss pattern_1 F7 R1. Qed.
Lemma miss_2_7 : Strptime.strptime (write dt F7) F2 = Raise ValueError.
Proof. ranges V. miss pattern_2 F7 R2. Qed.
Lemma miss_3_7 : Strptime.strptime (write dt F7) F3 = Raise ValueError.
Proof. ranges V. miss pattern_3 F7 R3. Qed.
Lemma miss_1_8 : Strptime.strptime (write dt F8) F1 = Raise ValueError.
Proof. ranges V. miss pattern_1 F8 R1. Qed.
Lemma miss_2_8 : Strptime.strptime (write dt F8) F2 = Raise ValueError.
Proof. ranges V. miss pattern_2 F8 R2. Qed.
Lemma miss_3_8 : Strptime.strptime (write dt F8) F3 = Raise ValueError.
Proof. ranges V. miss pattern_3 F8 R3. Qed.

(** The formats that begin with a month name reject a text that begins
    with a digit. *)
Lemma miss_4_8 : Strptime.strptime (write dt F8) F4 = Raise ValueError.
Proof. ranges V. miss pattern_4 F8 R4. Qed.
Lemma miss_5_8 : Strptime.strptime (write dt F8) F5 = Raise ValueError.
Proof. ranges V. miss pattern_5 F8 R5. Qed.
Lemma miss_6_8 : Strptime.strptime (write dt F8) F6 = Raise ValueError.
Proof. ranges V. miss pattern_6 F8 R6. Qed.
Lemma miss_7_8 : Strptime.strptime (write dt F8) F7 = Raise ValueError.
Proof. ranges V. miss pattern_7 F8 R7. Qed.

(** "at" where the hour is expected, and the other way round. *)
Lemma miss_4_5 : Strptime.strptime (write dt F5) F4 = Raise ValueError.
Proof. ranges V. miss pattern_4 F5 R4. Qed.
Lemma miss_6_7 : Strptime.strptime (write dt F7) F6 = Raise ValueError.
Proof. ranges V. miss pattern_6 F7 R6. Qed.

(** A full month name other than May is not an abbreviation. *)
Lemma miss_4_6 : month dt <> 5 -> Strptime.strptime (write dt F6) F4 = Raise ValueError.
Proof. intros H5. ranges V. miss pattern_4 F6 R4. Qed.
Lemma miss_5_6 : month dt <> 5 -> Strptime.strptime (write dt F6) F5 = Raise ValueError.
Proof. intros H5. ranges V. miss pattern_5 F6 R5. Qed.
Lemma miss_4_7 : month dt <> 5 -> Strptime.strptime (write dt F7) F4 = Raise ValueError.
Proof. intros H5. ranges V. miss pattern_4 F7 R4. Qed.
Lemma miss_5_7 : month dt <> 5 -> Strptime.strptime (write dt F7) F5 = Raise ValueError.
Proof. intros H5. ranges V. miss pattern_5 F7 R5. Qed.

Hypothesis Hsec : second dt = 0.
Hypothesis Htz : tzinfo dt = None.

Lemma valid_minute_resolution :
  Datetime.new (year dt) (month dt) (day dt) (hour dt) (minute dt) 0 0 None = Ok dt.
Proof. rewrite <- Hsec at 1. rewrite <- Htz. exact V. Qed.

Lemma match_4_4 : Strptime.strptime (write dt F4) F4 = Ok dt.
Proof.
  ranges V.
  rewrite (strptime_of_match _ R4 _
             [("p", am_or_pm (hour dt)); ("M", pad2 (minute dt));
              ("I", pad2 (hour12 (hour dt))); ("Y", pad4 (year dt));
              ("d", pad2 (day dt)); ("b", month_abbr (month dt))]
             (year dt) (month dt) (day dt) (hour dt) (minute dt) 0 None 0
             pattern_4); try assumption.
  - exact valid_minute_resolution.
  - open_written F4 R4. walk. apply re_p_last.
  - convert. reflexivity.
Qed.

Lemma match_5_5 : Strptime.strptime (write dt F5) F5 = Ok dt.
Proof.
  ranges V.
  rewrite (strptime_of_match _ R5 _
             [("p", am_or_pm (hour dt)); ("M", pad2 (minute dt));
              ("I", pad2 (hour12 (hour dt))); ("Y", pad4 (year dt));
              ("d", pad2 (day dt)); ("b", month_abbr (month dt))]
             (year dt) (month dt) (day dt) (hour dt) (minute dt) 0 None 0
             pattern_5); try assumption.
  - exact valid_minute_resolution.
  - open_written F5 R5. walk. apply re_p_last.
  - convert. reflexivity.
Qed.

Lemma match_6_6 : Strptime.strptime (write dt F6) F6 = Ok dt.
Proof.
  ranges V.
  rewrite (strptime_of_match _ R6 _
             [("p", am_or_pm (hour dt)); ("M", pad2 (minute dt));
              ("I", pad2 (hour12 (hour dt))); ("Y", pad4 (year dt));
              ("d", pad2 (day dt)); ("B", month_name (month dt))]
             (year dt) (month dt) (day dt) (hour dt) (minute dt) 0 None 0
             pattern_6); try assumption.
  - exact valid_minute_resolution.
  - open_written F6 R6. walk. apply re_p_last.
  - convert. reflexivity.
Qed.

Lemma match_7_7 : Strptime.strptime (write dt F7) F7 = Ok dt.
Proof.
  ranges V.
  rewrite (strptime_of_match _ R7 _
             [("p", am_or_pm (hour dt)); ("M", pad2 (minute dt));
              ("I", pad2 (hour12 (hour dt))); ("Y", pad4 (year dt));
              ("d", pad2 (day dt)); ("B", month_name (month dt))]
             (year dt) (month dt) (day dt) (hour dt) (minute dt) 0 None 0
             pattern_7); try assumption.
  - exact valid_minute_resolution.
  - open_written F7 R7. walk. apply re_p_last.
  - convert. reflexivity.
Qed.

Lemma match_8_8 : Strptime.strptime (write dt F8) F8 = Ok dt.
Proof.
  ranges V.
  rewrite (strptime_of_match _ R8 _
             [("p", am_or_pm (hour dt)); ("M", pad2 (minute dt));
              ("I", pad2 (hour12 (hour dt))); ("Y", pad4 (year dt));
              ("d", pad2 (day dt)); ("m", pad2 (month dt))]
             (year dt) (month dt) (day dt) (hour dt) (minute dt) 0 None 0
             pattern_8); try assumption.
  - exact valid_minute_resolution.
  - open_written F8 R8. walk. apply re_p_last.
  - convert. reflexivity.
Qed.

End Formats.

Lemma rstrip_id s : ends_nonspace s = true -> rstrip s = s.
Proof.
  induction s as [|c s IH]; [discriminate|].
  destruct s as [|c' s'].
  - simpl. intros H. apply negb_true_iff in H. rewrite H. reflexivity.
  - intros H. change (ends_nonspace (String c' s') = true) in H.
    change (rstrip (String c (String c' s')))
      with (match rstrip (String c' s') with
            | EmptyString => if is_space c then EmptyString else String c EmptyString
            | t => String c t
            end).
    rewrite (IH H). reflexivity.
Qed.

Lemma lstrip_id s : head_nonspace s -> lstrip s = s.
Proof. destruct s as [|c s]; simpl; [reflexivity|]. intros ->. reflexivity. Qed.

Lemma strip_id s : head_nonspace s -> ends_nonspace s = true -> strip s = s.
Proof. intros H1 H2. unfold strip. rewrite (lstrip_id s H1). apply rstrip_id, H2. Qed.

Lemma ends_cons c s : ends_nonspace s = true -> ends_nonspace (String c s) = true.
Proof. destruct s; [discriminate|]. intros H. exact H. Qed.

Lemma ends_app a b : ends_nonspace b = true -> ends_nonspace (a ++ b) = true.
Proof.
  intros H. induction a as [|c a IH]; [exact H|].
  simpl. apply ends_cons. exact IH.
Qed.

Lemma ends_pad2 v : 0 <= v <= 99 -> ends_nonspace (pad2 v ++ "") = true.
Proof.
  intros H. unfold pad2. simpl. apply negb_true_iff, digit_not_space.
  apply pad2_digits, H.
Qed.

Lemma ends_am_or_pm h : ends_nonspace (am_or_pm h ++ "") = true.
Proof. unfold am_or_pm. destruct (h <? 12); reflexivity. Qed.

Lemma ends_offset us : ends_nonspace (offset (Some us) ++ "") = true.
Proof.
  unfold offset. cbv zeta. rewrite append_assoc. apply ends_app.
  rewrite append_assoc. apply ends_app. apply ends_pad2.
  Z.div_mod_to_equations. lia.
Qed.

Lemma head_month_abbr m rest : 1 <= m <= 12 -> head_nonspace (month_abbr m ++ rest).
Proof. intros H. enum m 13%nat; try (exfalso; lia); reflexivity. Qed.

Lemma head_month_name m rest : 1 <= m <= 12 -> head_nonspace (month_name m ++ rest).
Proof. intros H. enum m 13%nat; try (exfalso; lia); reflexivity. Qed.

Lemma parse_date_hit s Y pre fmt post d :
  formats_with_year = pre ++ fmt :: post ->
  head_nonspace s -> ends_nonspace s = true ->
  Forall (fun f => Strptime.strptime s f = Raise ValueError) pre ->
  Strptime.strptime s fmt = Ok d ->
  parse_date (Some s) Y = Ok (Some d).
Proof.
  intros HF H1 H2 Hpre Hfmt. unfold parse_date.
  destruct s as [|c s]; [discriminate|].
  rewrite (strip_id _ H1 H2), HF.
  apply for_formats_hit; assumption.
Qed.

Ltac tail_ok :=
  cbn [write field String.append];
  try match goal with H : tzinfo _ = Some _ |- _ => rewrite H end;
  repeat first
    [ solve [apply ends_pad2; lia]
    | solve [apply ends_am_or_pm]
    | solve [apply ends_offset]
    | apply ends_app
    | apply ends_cons ].

Ltac head_ok :=
  cbn [write field String.append];
  first [apply head_pad4; lia | apply head_pad2; lia
        | apply head_month_abbr; lia | apply head_month_name; lia].

Ltac misses := repeat (apply List.Forall_cons; [auto|]); apply List.Forall_nil.

Section Normalised.
Variable dt : datetime.
Hypothesis V : valid dt.
Variable Y : Z.

Lemma parse_written_1 us :
  tzinfo dt = Some us -> whole_minutes us ->
  parse_date (Some (write dt F1)) Y = Ok (Some dt).
Proof.
  intros Htz W. ranges V.
  apply (parse_date_hit _ Y [] F1 [F2; F3; F4; F5; F6; F7; F8]);
    [reflexivity|unfold F1; head_ok|unfold F1; tail_ok|misses|].
  exact (match_1_1 dt V us Htz W).
Qed.

Lemma parse_written_2 us :
  tzinfo dt = Some us -> whole_minutes us ->
  parse_date (Some (write dt F2)) Y = Ok (Some dt).
Proof.
  intros Htz W. ranges V.
  pose proof (miss_1_2 dt V).
  apply (parse_date_hit _ Y [F1] F2 [F3; F4; F5; F6; F7; F8]);
    [reflexivity|unfold F2; head_ok|unfold F2; tail_ok|misses|].
  exact (match_2_2 dt V us Htz W).
Qed.

Lemma parse_written_3 :
  tzinfo dt = None ->
  parse_date (Some (write dt F3)) Y = Ok (Some dt).
Proof.
  intros Htz. ranges V.
  pose proof (miss_1_3 dt V). pose proof (miss_2_3 dt V).
  apply (parse_date_hit _ Y [F1; F2] F3 [F4; F5; F6; F7; F8]);
    [reflexivity|unfold F3; head_ok|unfold F3; tail_ok|misses|].
  exact (match_3_3 dt V Htz).
Qed.

Hypothesis Hsec : second dt = 0.
Hypothesis Htz : tzinfo dt = None.

Lemma parse_written_4 :
  parse_date (Some (write dt F4)) Y = Ok (Some dt).
Proof.
  ranges V.
  pose proof (miss_1_4 dt V). pose proof (miss_2_4 dt V). pose proof (miss_3_4 dt V).
  apply (parse_date_hit _ Y [F1; F2; F3] F4 [F5; F6; F7; F8]);
    [reflexivity|unfold F4; head_ok|unfold F4; tail_ok|misses|].
  exact (match_4_4 dt V Hsec Htz).
Qed.

Lemma parse_written_5 :
  parse_date (Some (write dt F5)) Y = Ok (Some dt).
Proof.
  ranges V.
  pose proof (miss_1_5 dt V). pose proof (miss_2_5 dt V). pose proof (miss_3_5 dt V).
  pose proof (miss_4_5 dt V).
  apply (parse_date_hit _ Y [F1; F2; F3; F4] F5 [F6; F7; F8]);
    [reflexivity|unfold F5; head_ok|unfold F5; tail_ok|misses|].
  exact (match_5_5 dt V Hsec Htz).
Qed.

Lemma may_is_its_own_abbreviation format :
  month dt = 5 ->
  write dt (String "%" (String "B" format)) = write dt (String "%" (String "b" format)).
Proof. intros H. cbn [write field]. rewrite H. reflexivity. Qed.

Lemma parse_written_6 :
  parse_date (Some (write dt F6)) Y = Ok (Some dt).
Proof.
  destruct (Z.eq_dec (month dt) 5) as [E|E].
  { unfold F6. rewrite (may_is_its_own_abbreviation _ E). exact parse_written_4. }
  ranges V.
  pose proof (miss_1_6 dt V). pose proof (miss_2_6 dt V). pose proof (miss_3_6 dt V).
  pose proof (miss_4_6 dt V E). pose proof (miss_5_6 dt V E).
  apply (parse_date_hit _ Y [F1; F2; F3; F4; F5] F6 [F7; F8]);
    [reflexivity|unfold F6; head_ok|unfold F6; tail_ok|misses|].
  exact (match_6_6 dt V Hsec Htz).
Qed.

Lemma parse_written_7 :
  parse_date (Some (write dt F7)) Y = Ok (Some dt).
Proof.
  destruct (Z.eq_dec (month dt) 5) as [E|E].
  { unfold F7. rewrite (may_is_its_own_abbreviation _ E). exact parse_written_5. }
  ranges V.
  pose proof (miss_1_7 dt V). pose proof (miss_2_7 dt V). pose proof (miss_3_7 dt V).
  pose proof (miss_4_7 dt V E). pose proof (miss_5_7 dt V E). pose proof (miss_6_7 dt V).
  apply (parse_date_hit _ Y [F1; F2; F3; F4; F5; F6] F7 [F8]);
    [reflexivity|unfold F7; head_ok|unfold F7; tail_ok|misses|].
  exact (match_7_7 dt V Hsec Htz).
Qed.

Lemma parse_written_8 :
  parse_date (Some (write dt F8)) Y = Ok (Some dt).
Proof.
  ranges V.
  pose proof (miss_1_8 dt V). pose proof (miss_2_8 dt V). pose proof (miss_3_8 dt V).
  pose proof (miss_4_8 dt V). pose proof (miss_5_8 dt V). pose proof (miss_6_8 dt V).
  pose proof (miss_7_8 dt V).
  apply (parse_date_hit _ Y [F1; F2; F3; F4; F5; F6; F7] F8 []);
    [reflexivity|unfold F8; head_ok|unfold F8; tail_ok|misses|].
  exact (match_8_8 dt V Hsec Htz).
Qed.

End Normalised.

Lemma shows_tz format dt :
  shows format dt = true -> contains "%z" format = true ->
  exists us, tzinfo dt = Some us /\ whole_minutes us.
Proof.
  unfold shows. intros H C. apply andb_true_iff in H as [_ H].
  destruct (tzinfo dt) as [us|]; [|rewrite C in H; discriminate].
  exists us. split; [reflexivity|].
  rewrite C in H. simpl in H.
  apply andb_true_iff in H as [H H3]. apply andb_true_iff in H as [H1 H2].
  unfold whole_minutes. lia.
Qed.

Lemma shows_naive format dt :
  shows format dt = true -> contains "%z" format = false -> tzinfo dt = None.
Proof.
  unfold shows. intros H C. apply andb_true_iff in H as [_ H].
  destruct (tzinfo dt) as [us|]; [|reflexivity].
  rewrite C in H. discriminate.
Qed.

Lemma shows_minutes format dt :
  shows format dt = true -> contains "%S" format = false -> second dt = 0.
Proof.
  unfold shows. intros H C. apply andb_true_iff in H as [H _].
  rewrite C in H. simpl in H. lia.
Qed.

Lemma written_instant_is_recovered dt format Y :
  In format formats_with_year -> valid dt -> shows format dt = true ->
  parse_date (Some (write dt format)) Y = Ok (Some dt).
Proof.
  intros Hin V S. rewrite formats_with_year_eq in Hin.
  cbv [In] in Hin.
  destruct Hin as [<-|[<-|[<-|[<-|[<-|[<-|[<-|[<-|[]]]]]]]]].
  - destruct (shows_tz _ _ S eq_refl) as (us & Htz & W).
    exact (parse_written_1 dt V Y us Htz W).
  - destruct (shows_tz _ _ S eq_refl) as (us & Htz & W).
    exact (parse_written_2 dt V Y us Htz W).
  - exact (parse_written_3 dt V Y (shows_naive _ _ S eq_refl)).
  - exact (parse_written_4 dt V Y (shows_minutes _ _ S eq_refl) (shows_naive _ _ S eq_refl)).
  - exact (parse_written_5 dt V Y (shows_minutes _ _ S eq_refl) (shows_naive _ _ S eq_refl)).
  - exact (parse_written_6 dt V Y (shows_minutes _ _ S eq_refl) (shows_naive _ _ S eq_refl)).
  - exact (parse_written_7 dt V Y (shows_minutes _ _ S eq_refl) (shows_naive _ _ S eq_refl)).
  - exact (parse_written_8 dt V Y (shows_minutes _ _ S eq_refl) (shows_naive _ _ S eq_refl)).
Qed.

(** C7. For every instant the [datetime] constructor accepts and every two
    absolute formats that show all of it, [parse_date] returns that same
    instant from its text in either format, whatever the reference year;
    "Jan 15, 2026 11:59 PM" and "2026-01-15T23:59:00" both give
    2026-01-15 23:59. *)
Theorem absolute_formats_agree :
  (forall dt f1 f2 Y1 Y2,
      In f1 formats_with_year -> In f2 formats_with_year ->
      valid dt -> shows f1 dt = true -> shows f2 dt = true ->
      parse_date (Some (write dt f1)) Y1 = Ok (Some dt)
      /\ parse_date (Some (write dt f2)) Y2 = Ok (Some dt))
  /\ (forall Y1 Y2,
         parse_date (Some "Jan 15, 2026 11:59 PM") Y1
         = Ok (Some (mkdt 2026 1 15 23 59 0 0 None))
         /\ parse_date (Some "2026-01-15T23:59:00") Y2
            = Ok (Some (mkdt 2026 1 15 23 59 0 0 None))).
Proof.
  split.
  - intros dt f1 f2 Y1 Y2 H1 H2 V S1 S2.
    split; apply written_instant_is_recovered; assumption.
  - intros Y1 Y2. split.
    + apply (written_instant_is_recovered (mkdt 2026 1 15 23 59 0 0 None) F4 Y1);
        [vm_compute; tauto|reflexivity|reflexivity].
    + apply (written_instant_is_recovered (mkdt 2026 1 15 23 59 0 0 None) F3 Y2);
        [vm_compute; tauto|reflexivity|reflexivity].
Qed.

Lemma absolute_formats_agree_witness :
  parse_date
    (Some (write (mkdt 2026 5 9 0 5 0 0 None) "%B %d, %Y at %I:%M %p")) 2030
  = Ok (Some (mkdt 2026 5 9 0 5 0 0 None))
  /\ parse_date
       (Some (write (mkdt 2026 5 9 0 5 0 0 None) "%m/%d/%Y %I:%M %p")) 2031
     = Ok (Some (mkdt 2026 5 9 0 5 0 0 None)).
Proof.
  apply (proj1 absolute_formats_agree (mkdt 2026 5 9 0 5 0 0 None)
           "%B %d, %Y at %I:%M %p" "%m/%d/%Y %I:%M %p" 2030 2031).
  - simpl. tauto.
  - simpl. tauto.
  - reflexivity.
  - reflexivity.
  - reflexivity.
Defined.
(* ===================================================================== *)
(** * Further properties of the date normaliser *)
(* ===================================================================== *)

(** ** Whitespace *)

Lemma lstrip_head s : head_nonspace (lstrip s).
Proof.
  induction s as [|c s IH]; simpl; [exact I|].
  destruct (is_space c) eqn:E; [exact IH|exact E].
Qed.

Lemma rstrip_head s : head_nonspace s -> head_nonspace (rstrip s).
Proof.
  destruct s as [|c s]; simpl; [auto|]. intros H.
  destruct (rstrip s); [rewrite H|]; exact H.
Qed.

Lemma rstrip_ends s : rstrip s = EmptyString \/ ends_nonspace (rstrip s) = true.
Proof.
  induction s as [|c s IH]; simpl; [auto|].
  destruct (rstrip s) as [|c' t] eqn:E.
  - destruct (is_space c) eqn:Hc; [auto|]. right. simpl. rewrite Hc. reflexivity.
  - right. destruct IH as [IH|IH]; [discriminate|]. exact IH.
Qed.

Lemma strip_idempotent s : strip (strip s) = strip s.
Proof.
  destruct (rstrip_ends (lstrip s)) as [E|E]; unfold strip at 2 3.
  - rewrite E. reflexivity.
  - apply strip_id; [apply rstrip_head, lstrip_head|exact E].
Qed.

Lemma blank_strip s :
  forallb is_space (list_ascii_of_string s) = true -> strip s = EmptyString.
Proof.
  unfold strip. induction s as [|c s IH]; simpl; [reflexivity|].
  intros [Hc Hs]%andb_true_iff. rewrite Hc. auto.
Qed.

Lemma parse_date_of_stripped_blank s Y :
  nonempty s = true -> strip s = EmptyString -> parse_date (Some s) Y = Ok None.
Proof.
  intros Hs E. destruct s as [|c s]; [discriminate|].
  unfold parse_date. rewrite E. vm_compute. reflexivity.
Qed.

(** X1. Empty input. [parse_date] returns [None], and raises nothing, on
    [None], on the empty string and on every string made of whitespace
    only, whatever the reference year. *)
Theorem blank_dates_are_absent :
  (forall Y, parse_date None Y = Ok None)
  /\ (forall s Y, forallb is_space (list_ascii_of_string s) = true ->
                  parse_date (Some s) Y = Ok None).
Proof.
  split; [reflexivity|]. intros s Y H.
  destruct s as [|c s]; [reflexivity|].
  apply parse_date_of_stripped_blank; [reflexivity|apply blank_strip, H].
Qed.

Lemma blank_dates_are_absent_witness :
  parse_date (Some (String " " (String "009" (String "010" " ")))) 2026 = Ok None.
Proof. apply (proj2 blank_dates_are_absent). vm_compute. reflexivity. Defined.

(** X2. Whitespace around a date never matters: a text and the same text
    without its leading and trailing whitespace are normalised alike, to
    the same timestamp, to [None], or to the same exception. *)
Theorem surrounding_whitespace_is_ignored (s : string) (Y : Z) :
  parse_date (Some s) Y = parse_date (Some (strip s)) Y.
Proof.
  destruct s as [|c s]; [reflexivity|].
  destruct (strip (String c s)) as [|c' t] eqn:E.
  - apply parse_date_of_stripped_blank; [reflexivity|exact E].
  - unfold parse_date. rewrite <- E, strip_idempotent. reflexivity.
Qed.

(** ** What a result looks like *)

Lemma timezone_range s us off :
  timezone s us = Ok off -> -86400000000 < off < 86400000000.
Proof.
  unfold timezone.
  destruct (_ && _) eqn:E; [|discriminate].
  intros H. inversion H; subst. apply andb_true_iff in E as [?%Z.ltb_lt ?%Z.ltb_lt]. lia.
Qed.

Lemma new_well_formed y m d h mi s tz dt :
  Datetime.new y m d h mi s 0 tz = Ok dt -> well_formed dt.
Proof.
  intros H. pose proof (valid_ranges _ _ _ _ _ _ _ _ H) as (-> & R).
  apply new_inv in H as (_ & Hd & _).
  unfold well_formed. cbn [year month day hour minute second microsecond tzinfo].
  assert (1 <= d <= days_in_month y m).
  { unfold check_date_args in Hd.
    destruct (negb _); [discriminate|]. destruct (negb _); [discriminate|].
    destruct ((1 <=? d) && (d <=? days_in_month y m)) eqn:E; [|discriminate].
    apply andb_true_iff in E as [?%Z.leb_le ?%Z.leb_le]. lia. }
  intuition.
Qed.

Lemma strptime_well_formed s fmt dt :
  Strptime.strptime s fmt = Ok dt ->
  well_formed dt /\ offset_in_range (tzinfo dt).
Proof.
  unfold Strptime.strptime.
  destruct (_strptime s fmt) as [[y mo d h mi sec off frac]|]; simpl; [|discriminate].
  destruct off as [g|].
  - destruct (timezone g frac) as [tz|] eqn:T; simpl; [|discriminate].
    intros H. split; [eapply new_well_formed; exact H|].
    apply new_inv in H as (-> & _). simpl. eapply timezone_range. exact T.
  - intros H. split; [eapply new_well_formed; exact H|].
    apply new_inv in H as (-> & _). exact I.
Qed.

(** X3. Whatever [parse_date] returns is a timestamp the [datetime]
    constructor accepts: year 1..9999, a day that exists in its month,
    a time of day, no microseconds, and an offset, if any, strictly between
    -24 h and 24 h. *)
Theorem parsed_dates_are_well_formed (date_str : option string) (Y : Z)
    (dt : datetime) :
  parse_date date_str Y = Ok (Some dt) ->
  well_formed dt /\ offset_in_range (tzinfo dt).
Proof.
  destruct date_str as [[|c s]|]; try discriminate.
  unfold parse_date. intros H.
  apply for_formats_inv in H as [(fmt & _ & Hf)|H].
  { eapply strptime_well_formed. exact Hf. }
  apply for_formats_inv in H as [(fmt & _ & Hf)|H].
  - destruct (Strptime.strptime _ fmt) as [parsed|] eqn:P; simpl in Hf; [|discriminate].
    apply strptime_well_formed in P as [P1 P2].
    unfold replace_year in Hf.
    assert (microsecond parsed = 0) as Hus by apply P1.
    rewrite Hus in Hf. split; [eapply new_well_formed; exact Hf|].
    apply new_inv in Hf as (-> & _). exact P2.
  - destruct (re_search true month_day_at_time _) as [m|]; [|discriminate].
    unfold from_match in H.
    destruct (group m "1"), (group m "2"), (group m "3"), (group m "4"),
      (group m "5"); try discriminate.
    destruct (month_of _) as [[mo|]|]; simpl in H; try discriminate.
    destruct (int _) as [h|]; simpl in H; try discriminate.
    destruct (int _) as [mi|]; simpl in H; try discriminate.
    destruct (int _) as [d|]; simpl in H; try discriminate.
    destruct (Datetime.new _ _ _ _ _ _ _ _) as [dt'|] eqn:E; simpl in H; try discriminate.
    inversion H; subst. split; [eapply new_well_formed; exact E|].
    apply new_inv in E as (-> & _). exact I.
Qed.

Lemma parsed_dates_are_well_formed_witness :
  well_formed (mkdt 2026 2 1 9 0 0 0 (Some (-28800000000)))
  /\ offset_in_range (Some (-28800000000)).
Proof.
  apply (parsed_dates_are_well_formed (Some "2026-02-01T09:00:00-0800") 2026).
  vm_compute. reflexivity.
Defined.

(** ** Dates that carry their year *)

Lemma for_formats_hit_any body fmts o1 o2 :
  (exists fmt d, In fmt fmts /\ body fmt = Ok d) ->
  for_formats body fmts o1 = for_formats body fmts o2.
Proof.
  intros (fmt & d & Hin & Hf). induction fmts as [|f fmts IH]; [destruct Hin|].
  simpl. destruct (body f) as [d'|e] eqn:E; simpl; [reflexivity|].
  destruct e; try reflexivity. simpl.
  destruct Hin as [->|Hin]; [congruence|auto].
Qed.

(** X4. A text that one of the formats with a year reads is normalised
    without the clock: the outcome is the same for every reference year. *)
Theorem absolute_dates_ignore_the_reference_year (s fmt : string)
    (d : datetime) (Y1 Y2 : Z) :
  In fmt formats_with_year ->
  Strptime.strptime (strip s) fmt = Ok d ->
  parse_date (Some s) Y1 = parse_date (Some s) Y2.
Proof.
  intros Hin Hf. destruct s as [|c s]; [reflexivity|].
  unfold parse_date. apply for_formats_hit_any. eauto.
Qed.

Lemma absolute_dates_ignore_the_reference_year_witness :
  parse_date (Some "Jan 15, 2026 11:59 PM") 1999
  = parse_date (Some "Jan 15, 2026 11:59 PM") 2031.
Proof.
  apply (absolute_dates_ignore_the_reference_year _ "%b %d, %Y %I:%M %p"
           (mkdt 2026 1 15 23 59 0 0 None)).
  - cbv [formats_with_year In]. auto.
  - vm_compute. reflexivity.
Defined.
(* ===================================================================== *)
(** * Events, calendars and the saved file *)
(* ===================================================================== *)

(** ** The keys [create_event] needs *)

Lemma truthy_dget_ditem (d : dict) key :
  truthy (dget d key) = true -> ditem d key = Ok (dget d key).
Proof. unfold dget, ditem. destruct (d !! key); [reflexivity|discriminate]. Qed.

(** X5. Missing keys. When the due date of a dict normalises to a
    timestamp, [create_event] needs the keys [name] and [course_name] and no
    other: without one of them it raises [KeyError]; with both it returns
    an event that starts and ends at that timestamp and is stamped with the
    current time, whatever other keys are absent. *)
Theorem create_event_needs_name_and_course_name (d : dict) (t dt : datetime)
    (Y : Z) :
  parse_date (dget d "due_date") Y = Ok (Some dt) ->
  (d !! "name" = None \/ d !! "course_name" = None ->
   create_event d t Y = Raise KeyError)
  /\ (forall name course_name,
        d !! "name" = Some name -> d !! "course_name" = Some course_name ->
        exists ev, create_event d t Y = Ok (Some ev)
                   /\ summary ev = (fmt name ++ " - " ++ fmt course_name)%string
                   /\ dtstart ev = dt /\ dtend ev = dt /\ dtstamp ev = t).
Proof.
  intros P. unfold create_event. rewrite P. simpl. split.
  - intros [H|H]; unfold ditem; rewrite H; simpl; [reflexivity|].
    destruct (d !! "name"); reflexivity.
  - intros name cn Hn Hc. unfold ditem at 1 2 3. rewrite Hn, Hc. simpl.
    destruct (truthy (dget d "url")) eqn:U.
    + rewrite (truthy_dget_ditem _ _ U). simpl. eexists. split; [reflexivity|]. auto.
    + simpl. eexists. split; [reflexivity|]. auto.
Qed.

Lemma create_event_needs_name_and_course_name_witness :
  (exists ev, create_event dict_without_ids stamp 2026 = Ok (Some ev)
              /\ dtstart ev = mkdt 2026 1 15 23 59 0 0 None)
  /\ create_event dict_with_due_date_only stamp 2026 = Raise KeyError.
Proof.
  pose proof (create_event_needs_name_and_course_name
                dict_without_ids stamp (mkdt 2026 1 15 23 59 0 0 None) 2026) as H1.
  pose proof (create_event_needs_name_and_course_name
                dict_with_due_date_only stamp (mkdt 2026 1 15 23 59 0 0 None) 2026)
    as H2.
  split.
  - destruct H1 as [_ H1]; [vm_compute; reflexivity|].
    destruct (H1 (Some "Homework"%string) (Some "CS"%string)) as (ev & E & _ & S & _);
      [reflexivity|reflexivity|].
    exists ev. split; assumption.
  - destruct H2 as [H2 _]; [vm_compute; reflexivity|].
    apply H2. left. reflexivity.
Defined.

(** X6. A dict whose due date is absent, [None], empty or blank gives no
    event and no error, even when every other key is missing. *)
Theorem no_due_date_no_event (d : dict) (t : datetime) (Y : Z) :
  match dget d "due_date" with
  | Some s => forallb is_space (list_ascii_of_string s) = true
  | None => True
  end ->
  create_event d t Y = Ok None.
Proof.
  intros H. unfold create_event.
  destruct (dget d "due_date") as [s|]; [|reflexivity].
  destruct s as [|c s]; [reflexivity|].
  rewrite parse_date_of_stripped_blank; [reflexivity|reflexivity|].
  apply blank_strip, H.
Qed.

Lemma no_due_date_no_event_witness :
  create_event ∅ stamp 2026 = Ok None
  /\ create_event dict_with_blank_due_date stamp 2026 = Ok None.
Proof.
  split; apply no_due_date_no_event; vm_compute; auto.
Defined.

(** ** The calendar *)

Lemma add_events_header cal l t Y cal' :
  add_events cal l t Y = Ok cal' ->
  prodid cal' = prodid cal /\ version cal' = version cal
  /\ calscale cal' = calscale cal /\ method cal' = method cal
  /\ x_wr_calname cal' = x_wr_calname cal
  /\ x_wr_timezone cal' = x_wr_timezone cal.
Proof.
  revert cal. induction l as [|a l IH]; intros cal; simpl.
  - intros H. inversion H. auto 6.
  - destruct (create_event a t Y) as [[ev|]|]; simpl; [| |discriminate].
    + intros H. apply IH in H. simpl in H. exact H.
    + apply IH.
Qed.

Lemma add_events_components cal l t Y cal' :
  add_events cal l t Y = Ok cal' ->
  components cal' = components cal ++ omap (event_or_skip t Y) l.
Proof.
  intros H. destruct (all_or_some_raises t Y l) as [F|E].
  - destruct (add_events_ok cal l t Y F) as (c & Hc & Hcomp). congruence.
  - destruct (add_events_raises cal l t Y E) as [e He]. congruence.
Qed.

Lemma omap_length_le {A B} (f : A -> option B) l :
  (length (omap f l) <= length l)%nat.
Proof. induction l as [|x l IH]; csimpl; [lia|]. destruct (f x); simpl; lia. Qed.

(** X7. The calendar [create_calendar] returns carries the given product
    identifier and the fixed properties VERSION 2.0, CALSCALE GREGORIAN,
    METHOD PUBLISH, the calendar name and the time zone; its events are
    those of the dicts whose due date normalises, in the order of the
    dicts, so never more than there are dicts. *)
Theorem calendar_header_and_events (l : list dict) (p : string)
    (t : datetime) (Y : Z) (cal : Calendar) :
  create_calendar l p t Y = Ok cal ->
  prodid cal = p /\ version cal = "2.0"%string
  /\ calscale cal = "GREGORIAN"%string /\ method cal = "PUBLISH"%string
  /\ x_wr_calname cal = "Gradescope Assignments"%string
  /\ x_wr_timezone cal = "America/Los_Angeles"%string
  /\ components cal = omap (event_or_skip t Y) l
  /\ (length (components cal) <= length l)%nat.
Proof.
  unfold create_calendar. intros H.
  pose proof (add_events_header _ _ _ _ _ H) as (? & ? & ? & ? & ? & ?).
  pose proof (add_events_components _ _ _ _ _ H) as Hc. simpl in *.
  repeat (split; [assumption|]). rewrite Hc. apply omap_length_le.
Qed.

Lemma calendar_header_and_events_witness :
  create_calendar [∅; dict_with_blank_due_date] default_prodid stamp 2026
  = Ok empty_calendar
  /\ version empty_calendar = "2.0"%string
  /\ (length (components empty_calendar) <= 2)%nat.
Proof.
  assert (G : create_calendar [∅; dict_with_blank_due_date] default_prodid stamp 2026
              = Ok empty_calendar) by (vm_compute; reflexivity).
  split; [exact G|].
  pose proof (calendar_header_and_events _ _ _ _ _ G) as H.
  split; apply H.
Defined.

(** ** [main]: from the records to the calendar *)

Lemma collect_filter c l acc :
  collect c l acc
  = acc ++ map (format_assignment c) (List.filter has_due_date l).
Proof.
  revert acc. induction l as [|a l IH]; intros acc; simpl.
  - rewrite app_nil_r. reflexivity.
  - unfold has_due_date at 1. destruct (truthy (a_due_date a)); simpl; rewrite IH.
    + rewrite <- app_assoc. reflexivity.
    + reflexivity.
Qed.

Lemma skipped_record_has_no_event c a t Y :
  has_due_date a = false -> create_event (format_assignment c a) t Y = Ok None.
Proof.
  intros H. unfold create_event.
  change (dget (format_assignment c a) "due_date") with (a_due_date a).
  unfold has_due_date in H. destruct (a_due_date a) as [[|x s]|]; try reflexivity.
  discriminate.
Qed.

Lemma add_events_skips c l t Y : forall cal,
  add_events cal (map (format_assignment c) (List.filter has_due_date l)) t Y
  = add_events cal (map (format_assignment c) l) t Y.
Proof.
  induction l as [|a l IH]; intros cal; simpl; [reflexivity|].
  destruct (has_due_date a) eqn:H; simpl.
  - destruct (create_event _ t Y) as [[ev|]|]; simpl; auto.
  - rewrite (skipped_record_has_no_event c a t Y H). simpl. apply IH.
Qed.

(** X8. The loop of [main] over a course's records appends, in order, the
    dicts of the records that have a due date; and leaving the others out
    changes nothing for the calendar: [create_calendar] gives the same
    result, or raises the same exception, on the dicts of all the
    records. *)
Theorem skipping_records_without_due_date (c : course) (l : list assignment)
    (acc : list dict) (p : string) (t : datetime) (Y : Z) :
  collect c l acc = acc ++ map (format_assignment c) (List.filter has_due_date l)
  /\ create_calendar (collect c l []) p t Y
     = create_calendar (map (format_assignment c) l) p t Y.
Proof.
  split; [apply collect_filter|].
  unfold create_calendar. rewrite collect_filter. simpl. apply add_events_skips.
Qed.

(** ** The saved file *)

Section Saved.
Variable to_ical : Calendar -> string.
Variable disk : string -> string -> written.



End Saved.
(* ===================================================================== *)
(** * Further properties of the records *)
(* ===================================================================== *)

(** X10. Every record [get_assignments] returns has a non-empty name, and
    there are at most as many records as the page has rows of role
    [row]. *)
Theorem records_are_named (soup : node) (cid : string) :
  exists recs,
    get_assignments soup cid = Ok recs
    /\ Forall (fun r => nonempty (a_name r) = true) recs
    /\ (length recs <= length (find_all soup (Some "tr") TR_ROW))%nat.
Proof.
  rewrite get_assignments_omap. eexists. split; [reflexivity|]. split.
  - apply List.Forall_forall. intros r Hr.
    apply omap_record_of_in in Hr as (row & _ & Hrow).
    unfold process_row in Hrow.
    destruct (find row None _); [discriminate|].
    destruct (name_href_aid row) as [[name href] aid].
    destruct name as [[|c n]|]; try discriminate.
    destruct (due_date_of row); simpl in Hrow; [|discriminate].
    inversion Hrow. reflexivity.
  - apply omap_length_le.
Qed.

(** ** Literals and digit runs in a pattern *)

Lemma rmatch_lit {A} p s caps (k : string -> captures -> option A) :
  rmatch false (lit p) s caps k
  = match strip_prefix p s with
    | Some s' => k s' caps
    | None => None
    end.
Proof.
  revert s. induction p as [|a p IH]; intros s; [reflexivity|].
  assert (rmatch false (lit (String a p)) s caps k
          = rmatch false (Chr a >> lit p) s caps k) as ->.
  { destruct p; reflexivity. }
  cbn [rmatch strip_prefix]. destruct s as [|b s]; [reflexivity|].
  unfold chr_match, fold_case. destruct (Ascii.eqb b a); [apply IH|reflexivity].
Qed.

Lemma star_total {A} c s (k : string -> option A) :
  (forall s', k s' <> None) -> star false c s k = k (drop_class c s).
Proof.
  intros Hk. induction s as [|a s IH]; simpl; [reflexivity|].
  destruct (cls_match false c a); [|reflexivity].
  rewrite IH. destruct (k (drop_class c s)) eqn:E; [reflexivity|].
  exfalso. exact (Hk _ E).
Qed.

Lemma take_drop_class c s : (take_class c s ++ drop_class c s)%string = s.
Proof.
  induction s as [|a s IH]; simpl; [reflexivity|].
  destruct (cls_match false c a); simpl; [rewrite IH|]; reflexivity.
Qed.

Lemma consumed_take c s : consumed s (drop_class c s) = take_class c s.
Proof. rewrite <- (take_drop_class c s) at 1. apply consumed_append. Qed.

Lemma take_digit_all s : all_digits (take_class Digit s) = true.
Proof.
  unfold all_digits. induction s as [|a s IH]; simpl; [reflexivity|].
  destruct (is_digit a) eqn:E; simpl; [rewrite E; exact IH|reflexivity].
Qed.

Lemma drop_digit_head s : starts_with_digit (drop_class Digit s) = false.
Proof.
  induction s as [|a s IH]; simpl; [reflexivity|].
  destruct (is_digit a) eqn:E; [exact IH|exact E].
Qed.

Lemma strip_prefix_append p s s' : strip_prefix p s = Some s' -> s = (p ++ s')%string.
Proof.
  revert s. induction p as [|a p IH]; intros s; simpl.
  - intros H. inversion H. reflexivity.
  - destruct s as [|b s]; [discriminate|].
    destruct (Ascii.eqb_spec b a) as [->|]; [|discriminate].
    intros H. rewrite (IH _ H). reflexivity.
Qed.

Lemma prefix_append p s : String.prefix p (p ++ s) = true.
Proof.
  induction p as [|a p IH]; simpl; [destruct s; reflexivity|].
  destruct (ascii_dec a a); [exact IH|congruence].
Qed.

Lemma contains_append_r sub pre s :
  contains sub s = true -> contains sub (pre ++ s) = true.
Proof.
  intros H. induction pre as [|a pre IH]; simpl; [exact H|].
  change ((String.prefix sub (String a (pre ++ s))
           || contains sub (pre ++ s)) = true).
  rewrite IH. apply orb_true_r.
Qed.

Lemma contains_prefix sub s : String.prefix sub s = true -> contains sub s = true.
Proof. intros H. destruct s; cbn [contains]; rewrite H; reflexivity. Qed.

Lemma contains_middle sub pre post : contains sub (pre ++ sub ++ post) = true.
Proof. apply contains_append_r, contains_prefix, prefix_append. Qed.

(** What the two assignment patterns do at one position. *)
Lemma match_assignments_re s :
  re_match false assignments_re s
  = match strip_prefix "/assignments/" s with
    | Some (String d t) =>
        if is_digit d then Some ([], drop_class Digit t) else None
    | _ => None
    end.
Proof.
  unfold re_match, assignments_re. cbn [rmatch]. rewrite rmatch_lit.
  destruct (strip_prefix _ s) as [[|d t]|]; try reflexivity.
  unfold Plus. cbn [rmatch cls_match]. destruct (is_digit d); [|reflexivity].
  rewrite star_total by discriminate. reflexivity.
Qed.

Lemma match_assignments_id_re s :
  re_match false assignments_id_re s
  = match strip_prefix "/assignments/" s with
    | Some (String d t) =>
        if is_digit d
        then Some ([("1"%string, String d (take_class Digit t))], drop_class Digit t)
        else None
    | _ => None
    end.
Proof.
  unfold re_match, assignments_id_re. cbn [rmatch]. rewrite rmatch_lit.
  destruct (strip_prefix _ s) as [[|d t]|]; try reflexivity.
  unfold Plus. cbn [rmatch cls_match]. destruct (is_digit d) eqn:E; [|reflexivity].
  rewrite star_total by discriminate.
  assert (drop_class Digit (String d t) = drop_class Digit t) as Hd
    by (simpl; rewrite E; reflexivity).
  assert (take_class Digit (String d t) = String d (take_class Digit t)) as Ht
    by (simpl; rewrite E; reflexivity).
  rewrite <- Hd at 1. rewrite consumed_take, Ht. reflexivity.
Qed.

Lemma search_assignments s :
  re_search false assignments_re s <> None ->
  exists pre d ds post,
    s = (pre ++ "/assignments/" ++ String d ds ++ post)%string
    /\ all_digits (String d ds) = true /\ starts_with_digit post = false
    /\ re_search false assignments_id_re s = Some [("1"%string, String d ds)].
Proof.
  induction s as [|a s IH].
  - intros H. exfalso. apply H. reflexivity.
  - cbn [re_search]. rewrite match_assignments_re, match_assignments_id_re.
    assert (further :
      re_search false assignments_re s <> None ->
      exists pre d ds post,
        String a s = (pre ++ "/assignments/" ++ String d ds ++ post)%string
        /\ all_digits (String d ds) = true /\ starts_with_digit post = false
        /\ re_search false assignments_id_re s = Some [("1"%string, String d ds)]).
    { intros H. destruct (IH H) as (pre & d & ds & post & -> & Hd & Hp & Hs).
      exists (String a pre), d, ds, post. auto. }
    destruct (strip_prefix _ (String a s)) as [[|d t]|] eqn:P; [exact further| |exact further].
    destruct (is_digit d) eqn:E; [|exact further].
    intros _. exists ""%string, d, (take_class Digit t), (drop_class Digit t).
    split; [|split; [|split; [|reflexivity]]].
    + apply strip_prefix_append in P. rewrite P. simpl.
      rewrite take_drop_class. reflexivity.
    + unfold all_digits. simpl. rewrite E. apply take_digit_all.
    + apply drop_digit_head.
Qed.

Lemma link_href_matches row name_link :
  find row (Some "a") [("href", AttrRe assignments_re)] = Some name_link ->
  exists href, get name_link "href" = Some href
               /\ re_search false assignments_re href <> None.
Proof.
  intros H. apply find_matches in H. unfold matches in H.
  destruct name_link as [s|tag attrs ch]; [discriminate|].
  apply andb_true_iff in H as [_ H]. simpl in H.
  rewrite andb_true_r in H. unfold attr_matches in H.
  destruct (get (Tag tag attrs ch) "href") as [v|]; [|discriminate].
  exists v. split; [reflexivity|].
  simpl in H. destruct (re_search false assignments_re v); [discriminate|discriminate].
Qed.

(** X11. When the assignment link of a row names the assignment, the id of
    the record is a non-empty string of decimal digits: a whole run of
    digits that follows "/assignments/" in the link's [href]; and the url
    of the record is the base URL followed by that [href]. *)
Theorem linked_records_have_numeric_ids (cid : string) (row : node)
    (rec : assignment) :
  process_row cid row = Ok (Some rec) ->
  truthy (link_name row) = true ->
  exists pre id post,
    a_id rec = Some id
    /\ nonempty id = true /\ all_digits id = true
    /\ starts_with_digit post = false
    /\ a_url rec
       = Some (GRADESCOPE_BASE_URL ++ pre ++ "/assignments/" ++ id ++ post)%string.
Proof.
  unfold process_row, link_name, name_href_aid.
  destruct (find row None _); [discriminate|].
  destruct (find row (Some "a") _) as [l|] eqn:El; [|discriminate].
  destruct (link_href_matches _ _ El) as (href & Hh & Hm).
  destruct (search_assignments _ Hm) as (pre & d & ds & post & Hs & Hd & Hp & Hid).
  unfold get_default. rewrite Hh, Hid. intros H Hn. simpl in Hn.
  simpl in H. rewrite Hn in H. simpl in H.
  destruct (get_text l) as [|c n]; [discriminate|].
  destruct (due_date_of row) as [v|]; simpl in H; [|discriminate].
  inversion H. subst rec. simpl.
  exists pre, (String d ds), post. repeat split; try assumption.
  unfold url_of. rewrite Hs. destruct pre; reflexivity.
Qed.

Lemma linked_records_have_numeric_ids_witness :
  exists pre id post,
    a_id homework1 = Some id
    /\ nonempty id = true /\ all_digits id = true
    /\ starts_with_digit post = false
    /\ a_url homework1
       = Some (GRADESCOPE_BASE_URL ++ pre ++ "/assignments/" ++ id ++ post)%string.
Proof.
  apply (linked_records_have_numeric_ids "101" linked_row homework1);
    vm_compute; reflexivity.
Defined.
(* ===================================================================== *)
(** * The courses *)
(* ===================================================================== *)

(** ** [split] and the last segment *)

Lemma contains_cons_false sub c s :
  contains sub (String c s) = false -> contains sub s = false.
Proof. cbn [contains]. intros H. apply orb_false_iff in H. apply H. Qed.

Lemma last_item_app {A} (l : list A) x : last_item (l ++ [x]) = Ok x.
Proof.
  induction l as [|y l IH]; [reflexivity|].
  simpl. destruct (l ++ [x]) eqn:E; [destruct l; discriminate|exact IH].
Qed.

Lemma no_slash_cons c x :
  c <> "/"%char -> contains "/" x = false -> contains "/" (String c x) = false.
Proof.
  intros Hc Hx. cbn [contains]. rewrite Hx, orb_false_r.
  cbn [String.prefix]. destruct (ascii_dec "/" c); [congruence|reflexivity].
Qed.

Lemma split_segments s :
  exists l x pre,
    split "/" s = l ++ [x] /\ contains "/" x = false /\ s = (pre ++ x)%string
    /\ (l = [] -> pre = ""%string)
    /\ (l <> [] -> exists pre', pre = (pre' ++ "/")%string).
Proof.
  induction s as [|c s (l & x & pre & Hs & Hx & -> & H0 & H1)].
  - exists [], ""%string, ""%string. repeat split; try reflexivity. congruence.
  - cbn [split]. rewrite Hs. destruct (Ascii.eqb_spec c "/") as [->|Hc].
    + exists (""%string :: l), x, (String "/" pre).
      repeat split; try assumption; try discriminate.
      intros _. destruct l as [|y l].
      * rewrite H0 by reflexivity. exists ""%string. reflexivity.
      * destruct H1 as [pre' ->]; [discriminate|]. exists (String "/" pre'). reflexivity.
    + destruct l as [|y l]; simpl.
      * exists [], (String c x), ""%string. rewrite H0 by reflexivity.
        repeat split; try reflexivity; [|congruence].
        apply no_slash_cons; assumption.
      * exists (String c y :: l), x, (String c pre).
        repeat split; try assumption; try discriminate.
        intros _. destruct H1 as [pre' ->]; [discriminate|].
        exists (String c pre'). reflexivity.
Qed.

Lemma last_segment s :
  contains "/" s = true ->
  exists pre id,
    last_item (split "/" s) = Ok id
    /\ s = (pre ++ "/" ++ id)%string /\ contains "/" id = false.
Proof.
  intros Hs. destruct (split_segments s) as (l & x & pre & E & Hx & -> & H0 & H1).
  rewrite E, last_item_app. destruct l as [|y l].
  - rewrite H0 in Hs by reflexivity. simpl in Hs. congruence.
  - destruct H1 as [pre' ->]; [discriminate|].
    exists pre', x. rewrite append_assoc. auto.
Qed.

Lemma last_slash_unique p q a b :
  contains "/" a = false -> contains "/" b = false ->
  (p ++ "/" ++ a)%string = (q ++ "/" ++ b)%string -> a = b.
Proof.
  intros Ha Hb. revert q. induction p as [|c p IH]; intros [|c' q] E.
  - inversion E. reflexivity.
  - inversion E. subst. pose proof (contains_middle "/" q b) as C.
    change ("/" ++ b)%string with (String "/" b) in C. rewrite C in Ha. discriminate.
  - inversion E. subst. pose proof (contains_middle "/" p a) as C.
    change ("/" ++ a)%string with (String "/" a) in C. rewrite C in Hb. discriminate.
  - inversion E. eauto.
Qed.

(** ** The course links *)

Lemma match_courses_re s :
  re_match false courses_re s
  = match strip_prefix "/courses/" s with
    | Some (String d t) =>
        if is_digit d then Some ([], drop_class Digit t) else None
    | _ => None
    end.
Proof.
  unfold re_match, courses_re. cbn [rmatch]. rewrite rmatch_lit.
  destruct (strip_prefix _ s) as [[|d t]|]; try reflexivity.
  unfold Plus. cbn [rmatch cls_match]. destruct (is_digit d); [|reflexivity].
  rewrite star_total by discriminate. reflexivity.
Qed.

Lemma search_courses s :
  re_search false courses_re s <> None ->
  exists pre post, s = (pre ++ "/courses/" ++ post)%string.
Proof.
  induction s as [|a s IH].
  - intros H. exfalso. apply H. reflexivity.
  - cbn [re_search]. rewrite match_courses_re.
    destruct (strip_prefix _ (String a s)) as [t|] eqn:P.
    + intros _. exists ""%string, t. apply strip_prefix_append in P. exact P.
    + intros H. destruct (IH H) as (pre & post & ->).
      exists (String a pre), post. reflexivity.
Qed.

Lemma course_link_href soup link :
  In link (find_all soup (Some "a") [("href", AttrRe courses_re)]) ->
  exists href, get link "href" = Some href /\ contains "/" href = true.
Proof.
  unfold find_all. intros H. apply filter_In in H as [_ H]. unfold matches in H.
  destruct link as [s|tag attrs ch]; [discriminate|].
  apply andb_true_iff in H as [_ H]. simpl in H.
  rewrite andb_true_r in H. unfold attr_matches in H.
  destruct (get (Tag tag attrs ch) "href") as [v|]; [|discriminate].
  exists v. split; [reflexivity|].
  simpl in H. destruct (re_search false courses_re v) eqn:E; [|discriminate].
  destruct (search_courses v) as (pre & post & ->); [congruence|].
  apply (contains_middle "/" pre ("courses/" ++ post)).
Qed.

Lemma links_loop_spec (P : node -> course -> Prop) links :
  (forall link, In link links -> exists c, course_of link = Ok c /\ P link c) ->
  forall acc, exists cs,
    links_loop links acc = Ok (acc ++ cs) /\ Forall2 P links cs.
Proof.
  induction links as [|link links IH]; intros H acc.
  - exists []. rewrite app_nil_r. split; [reflexivity|constructor].
  - destruct (H link (or_introl eq_refl)) as (c & Hc & Pc).
    destruct (IH (fun l Hl => H l (or_intror Hl)) (acc ++ [c])) as (cs & E & F).
    exists (c :: cs). cbn [links_loop]. rewrite Hc. cbn [Py.bind]. rewrite E.
    rewrite <- app_assoc. split; [reflexivity|constructor; assumption].
Qed.

(** X12. [get_courses] never raises and returns one course for each link
    whose [href] contains "/courses/" and a digit, in document order. The
    id of the course is what follows the last "/" of the [href], so it
    holds no "/"; the url is the base URL followed by the [href]. *)
Theorem courses_follow_the_links (soup : node) :
  exists cs,
    get_courses soup = Ok cs
    /\ Forall2 (fun link c =>
                  exists pre,
                    get link "href" = Some (pre ++ "/" ++ c_id c)%string
                    /\ contains "/" (c_id c) = false
                    /\ c_url c
                       = (GRADESCOPE_BASE_URL ++ pre ++ "/" ++ c_id c)%string)
               (find_all soup (Some "a") [("href", AttrRe courses_re)]) cs.
Proof.
  unfold get_courses.
  edestruct (links_loop_spec
               (fun link c =>
                  exists pre,
                    get link "href" = Some (pre ++ "/" ++ c_id c)%string
                    /\ contains "/" (c_id c) = false
                    /\ c_url c
                       = (GRADESCOPE_BASE_URL ++ pre ++ "/" ++ c_id c)%string))
    as (cs & E & F); [|exists cs; split; [exact E|exact F]].
  intros link Hl. destruct (course_link_href _ _ Hl) as (href & Hh & Hs).
  destruct (last_segment href Hs) as (pre & id & Hlast & -> & Hid).
  unfold course_of, get_default. rewrite Hh, Hlast. cbn [Py.bind].
  eexists. split; [reflexivity|]. exists pre. simpl. auto.
Qed.

(** X13. For a course link whose [href] is "/courses/" followed by an id
    without "/", the course id is that id, and the url of the course is the
    address [main] fetches the assignments from; the url of an assignment
    known by its button only is the url of the course followed by
    "/assignments/" and the assignment's id. *)
Theorem course_url_is_the_page_fetched (link : node) (id : string) (c : course) :
  get link "href" = Some ("/courses/" ++ id)%string ->
  contains "/" id = false ->
  course_of link = Ok c ->
  c_id c = id
  /\ (forall fetch rest acc,
        courses_loop fetch (c :: rest) acc
        = let! assignments := get_assignments (fetch (c_url c)) id in
          courses_loop fetch rest (collect c assignments acc))
  /\ (forall aid, truthy aid = true ->
        url_of (c_id c) None aid
        = Some (c_url c ++ "/assignments/" ++ fmt aid)%string).
Proof.
  intros Hh Hid Hc.
  destruct (last_segment ("/courses/" ++ id) ltac:(reflexivity))
    as (pre & id' & Hlast & E & Hid').
  assert (id' = id) as ->.
  { symmetry. exact (last_slash_unique "/courses" pre id id' Hid Hid' E). }
  unfold course_of, get_default in Hc. rewrite Hh, Hlast in Hc. cbn [Py.bind] in Hc.
  inversion Hc. subst c. cbn [c_id c_url]. split; [reflexivity|]. split.
  - intros fetch rest acc. reflexivity.
  - intros aid Ha. unfold url_of. rewrite Ha. cbn [truthy].
    unfold GRADESCOPE_BASE_URL. simpl. reflexivity.
Qed.

Lemma course_url_is_the_page_fetched_witness :
  c_id cs101 = "101"%string
  /\ url_of (c_id cs101) None (Some "7"%string)
     = Some (c_url cs101 ++ "/assignments/" ++ "7")%string.
Proof.
  destruct (course_url_is_the_page_fetched cs101_link "101" cs101)
    as (H1 & _ & H3); try (vm_compute; reflexivity).
  split; [exact H1|]. apply H3. reflexivity.
Defined.
(* ===================================================================== *)
(** * Dates written without a year *)
(* ===================================================================== *)

Lemma pattern_g1 : pattern G1 = Some Q1. Proof. reflexivity. Qed.
Lemma pattern_g2 : pattern G2 = Some Q2. Proof. reflexivity. Qed.
Lemma pattern_g3 : pattern G3 = Some Q3. Proof. reflexivity. Qed.
Lemma pattern_g4 : pattern G4 = Some Q4. Proof. reflexivity. Qed.
Lemma pattern_g5 : pattern G5 = Some Q5. Proof. reflexivity. Qed.
Lemma pattern_g6 : pattern G6 = Some Q6. Proof. reflexivity. Qed.

Lemma formats_without_year_eq :
  formats_without_year = [G1; G2; G3; G4; G5; G6].
Proof. reflexivity. Qed.

(** ** More mismatches *)

Section YearlessMisses.
Context {A : Type}.
Implicit Types (k : string -> captures -> option A) (R : regex).

(** An abbreviation other than May, followed by a space, is not a name. *)
Lemma re_B_on_abbr R m rest caps k :
  1 <= m <= 12 -> m <> 5 ->
  rmatch true (re_B >> R) (month_abbr m ++ String " " rest) caps k = None.
Proof. intros Hm H5. enum m 13%nat; try (exfalso; lia); norm_names; reflexivity. Qed.

Lemma re_m_on_name R m rest caps k :
  1 <= m <= 12 ->
  rmatch true (re_m >> R) (month_name m ++ rest) caps k = None.
Proof. intros Hm. enum m 13%nat; try (exfalso; lia); norm_names; reflexivity. Qed.

Lemma re_m_on_abbr R m rest caps k :
  1 <= m <= 12 ->
  rmatch true (re_m >> R) (month_abbr m ++ rest) caps k = None.
Proof. intros Hm. enum m 13%nat; try (exfalso; lia); norm_names; reflexivity. Qed.

Lemma space_miss_am_or_pm R h rest caps k :
  rmatch true (Plus Space >> R) (am_or_pm h ++ rest) caps k = None.
Proof. unfold am_or_pm. destruct (h <? 12); reflexivity. Qed.

End YearlessMisses.

Ltac walk5 :=
  walk;
  try (change (month_name 5) with (month_abbr 5); progress walk);
  try (change (month_abbr 5) with (month_name 5); progress walk).

Ltac finish_miss5 :=
  first
    [ finish_miss
    | apply re_B_on_abbr; side
    | apply re_m_on_name; side
    | apply re_m_on_abbr; side
    | apply space_miss_am_or_pm ].

(** [miss_in G]: the text written in [G] is not read by the format of the
    goal. *)
Ltac miss_by P G R :=
  apply (strptime_no_match _ R _ P); open_written G R;
  try match goal with E : month _ = 5 |- _ => rewrite E end;
  walk5; finish_miss5.

Ltac miss_in G :=
  lazymatch goal with
  | |- Strptime.strptime _ F1 = _ => miss_by pattern_1 G R1
  | |- Strptime.strptime _ F2 = _ => miss_by pattern_2 G R2
  | |- Strptime.strptime _ F3 = _ => miss_by pattern_3 G R3
  | |- Strptime.strptime _ F4 = _ => miss_by pattern_4 G R4
  | |- Strptime.strptime _ F5 = _ => miss_by pattern_5 G R5
  | |- Strptime.strptime _ F6 = _ => miss_by pattern_6 G R6
  | |- Strptime.strptime _ F7 = _ => miss_by pattern_7 G R7
  | |- Strptime.strptime _ F8 = _ => miss_by pattern_8 G R8
  | |- Strptime.strptime _ G1 = _ => miss_by pattern_g1 G Q1
  | |- Strptime.strptime _ G2 = _ => miss_by pattern_g2 G Q2
  | |- Strptime.strptime _ G3 = _ => miss_by pattern_g3 G Q3
  | |- Strptime.strptime _ G4 = _ => miss_by pattern_g4 G Q4
  | |- Strptime.strptime _ G5 = _ => miss_by pattern_g5 G Q5
  | |- Strptime.strptime _ G6 = _ => miss_by pattern_g6 G Q6
  end.

Ltac all_miss G :=
  repeat (apply List.Forall_cons; [cbv beta; miss_in G|]); apply List.Forall_nil.

(** ** [strptime] on a year-less match *)

Lemma strptime_of_yearless_match format R s caps m d h mi :
  pattern format = Some R ->
  re_match true R s = Some (caps, "") ->
  steps caps fields0 (keys caps) = Ok (mkfields None m d h mi 0 None 0) ->
  Datetime.new 1900 m d h mi 0 0 None = Ok (mkdt 1900 m d h mi 0 0 None) ->
  Strptime.strptime s format = Ok (mkdt 1900 m d h mi 0 0 None).
Proof.
  intros HP HM HS HN. unfold Strptime.strptime, _strptime.
  rewrite HP, HM. cbn [nonempty]. rewrite HS. cbn [Py.bind].
  pose proof (valid_ranges _ _ _ _ _ _ _ _ HN) as (_ & _ & _ & _ & _ & _ & _ & D1 & D2).
  assert ((m =? 2) && (d =? 29) = false) as ->.
  { apply new_well_formed in HN. destruct HN as (_ & _ & Hd & _). simpl in Hd.
    destruct (Z.eqb_spec m 2) as [->|]; [|reflexivity].
    destruct (Z.eqb_spec d 29) as [->|]; [|reflexivity].
    vm_compute in Hd. exfalso. destruct Hd as [_ Hd]. apply Hd. reflexivity. }
  rewrite D1, D2. cbn [Py.bind]. exact HN.
Qed.

Lemma for_formats_skip body fmt fmts otherwise :
  body fmt = Raise ValueError ->
  for_formats body (fmt :: fmts) otherwise = for_formats body fmts otherwise.
Proof. intros H. simpl. rewrite H. reflexivity. Qed.

Lemma parse_date_yearless_hit s Y pre fmt post parsed d :
  formats_without_year = pre ++ fmt :: post ->
  head_nonspace s -> ends_nonspace s = true ->
  Forall (fun f => Strptime.strptime s f = Raise ValueError) formats_with_year ->
  Forall (fun f => Strptime.strptime s f = Raise ValueError) pre ->
  Strptime.strptime s fmt = Ok parsed ->
  replace_year parsed Y = Ok d ->
  parse_date (Some s) Y = Ok (Some d).
Proof.
  intros HF H1 H2 Habs Hpre Hfmt Hrep. unfold parse_date.
  destruct s as [|c s]; [discriminate|].
  rewrite (strip_id _ H1 H2), HF.
  rewrite for_formats_all_fail by exact Habs.
  apply for_formats_hit.
  - eapply Forall_impl; [exact Hpre|]. intros f Hf. simpl in Hf. rewrite Hf. reflexivity.
  - rewrite Hfmt. exact Hrep.
Qed.

(** ** Every day but the 29th of February *)

Section Yearless.
Variable dt : datetime.
Hypothesis V : valid dt.
Hypothesis Hsec : second dt = 0.
Hypothesis Htz : tzinfo dt = None.
Hypothesis Hday : ~ (month dt = 2 /\ day dt = 29).

Lemma in_1900 :
  Datetime.new 1900 (month dt) (day dt) (hour dt) (minute dt) 0 0 None
  = Ok (mkdt 1900 (month dt) (day dt) (hour dt) (minute dt) 0 0 None).
Proof.
  pose proof (new_well_formed _ _ _ _ _ _ _ _ V) as (Hy & Hm & Hd & Hh & Hmi & _).
  unfold Datetime.new, check_date_args, check_time_args, fits_int, MINYEAR, MAXYEAR.
  assert (day dt <= days_in_month 1900 (month dt)).
  { revert Hd. unfold days_in_month.
    destruct (Z.eqb_spec (month dt) 2) as [E|E].
    - change (is_leap 1900) with false. destruct (is_leap (year dt)); lia.
    - tauto. }
  assert (days_in_month 1900 (month dt) <= 31).
  { unfold days_in_month. destruct (month dt =? 2); [vm_compute; discriminate|].
    destruct (_ || _); lia. }
  repeat match goal with
         | |- context [?a <=? ?b] =>
             destruct (Z.leb_spec a b); [|exfalso; lia]
         end.
  reflexivity.
Qed.

Lemma back_in_its_year :
  replace_year (mkdt 1900 (month dt) (day dt) (hour dt) (minute dt) 0 0 None)
               (year dt) = Ok dt.
Proof. unfold replace_year. simpl. exact (valid_minute_resolution dt V Hsec Htz). Qed.

Ltac reads P R G :=
  ranges V;
  apply (strptime_of_yearless_match _ R _
           [("p", am_or_pm (hour dt)); ("M", pad2 (minute dt));
            ("I", pad2 (hour12 (hour dt))); ("d", pad2 (day dt));
            ("B", month_name (month dt))] _ _ _ _ P);
  [open_written G R; walk; apply re_p_last | convert; reflexivity | exact in_1900].

Ltac reads_abbr P R G :=
  ranges V;
  apply (strptime_of_yearless_match _ R _
           [("p", am_or_pm (hour dt)); ("M", pad2 (minute dt));
            ("I", pad2 (hour12 (hour dt))); ("d", pad2 (day dt));
            ("b", month_abbr (month dt))] _ _ _ _ P);
  [open_written G R; walk; apply re_p_last | convert; reflexivity | exact in_1900].

Lemma match_g1 :
  Strptime.strptime (write dt G1) G1
  = Ok (mkdt 1900 (month dt) (day dt) (hour dt) (minute dt) 0 0 None).
Proof. reads pattern_g1 Q1 G1. Qed.

Lemma match_g2 :
  Strptime.strptime (write dt G2) G2
  = Ok (mkdt 1900 (month dt) (day dt) (hour dt) (minute dt) 0 0 None).
Proof. reads pattern_g2 Q2 G2. Qed.

Lemma match_g3 :
  Strptime.strptime (write dt G3) G3
  = Ok (mkdt 1900 (month dt) (day dt) (hour dt) (minute dt) 0 0 None).
Proof. reads_abbr pattern_g3 Q3 G3. Qed.

Lemma match_g4 :
  Strptime.strptime (write dt G4) G4
  = Ok (mkdt 1900 (month dt) (day dt) (hour dt) (minute dt) 0 0 None).
Proof. reads_abbr pattern_g4 Q4 G4. Qed.

Lemma match_g5 :
  Strptime.strptime (write dt G5) G5
  = Ok (mkdt 1900 (month dt) (day dt) (hour dt) (minute dt) 0 0 None).
Proof. reads pattern_g5 Q5 G5. Qed.

Lemma match_g6 :
  Strptime.strptime (write dt G6) G6
  = Ok (mkdt 1900 (month dt) (day dt) (hour dt) (minute dt) 0 0 None).
Proof. reads pattern_g6 Q6 G6. Qed.

Ltac absolute_miss G :=
  rewrite formats_with_year_eq; ranges V;
  destruct (Z.eq_dec (month dt) 5) as [E|E]; all_miss G.

Lemma absolute_miss_g1 :
  Forall (fun f => Strptime.strptime (write dt G1) f = Raise ValueError)
         formats_with_year.
Proof. absolute_miss G1. Qed.

Lemma absolute_miss_g2 :
  Forall (fun f => Strptime.strptime (write dt G2) f = Raise ValueError)
         formats_with_year.
Proof. absolute_miss G2. Qed.

Lemma absolute_miss_g3 :
  month dt <> 5 ->
  Forall (fun f => Strptime.strptime (write dt G3) f = Raise ValueError)
         formats_with_year.
Proof. intros E. rewrite formats_with_year_eq. ranges V. all_miss G3. Qed.

Lemma absolute_miss_g4 :
  month dt <> 5 ->
  Forall (fun f => Strptime.strptime (write dt G4) f = Raise ValueError)
         formats_with_year.
Proof. intros E. rewrite formats_with_year_eq. ranges V. all_miss G4. Qed.

Lemma absolute_miss_g5 :
  Forall (fun f => Strptime.strptime (write dt G5) f = Raise ValueError)
         formats_with_year.
Proof. absolute_miss G5. Qed.

Lemma absolute_miss_g6 :
  Forall (fun f => Strptime.strptime (write dt G6) f = Raise ValueError)
         formats_with_year.
Proof. absolute_miss G6. Qed.

Ltac hit G pre fmt post :=
  ranges V;
  apply (parse_date_yearless_hit _ (year dt) pre fmt post
           (mkdt 1900 (month dt) (day dt) (hour dt) (minute dt) 0 0 None));
  [ reflexivity | unfold G; head_ok | unfold G; tail_ok | | | | exact back_in_its_year ].

Lemma parse_yearless_1 : parse_date (Some (write dt G1)) (year dt) = Ok (Some dt).
Proof.
  hit G1 (@nil string) G1 [G2; G3; G4; G5; G6];
    [exact absolute_miss_g1|all_miss G1|exact match_g1].
Qed.

Lemma parse_yearless_2 : parse_date (Some (write dt G2)) (year dt) = Ok (Some dt).
Proof.
  hit G2 [G1] G2 [G3; G4; G5; G6];
    [exact absolute_miss_g2|all_miss G2|exact match_g2].
Qed.

Lemma may_abbreviated format :
  month dt = 5 ->
  write dt (String "%" (String "b" format)) = write dt (String "%" (String "B" format)).
Proof. intros H. cbn [write field]. rewrite H. reflexivity. Qed.

Lemma parse_yearless_3 : parse_date (Some (write dt G3)) (year dt) = Ok (Some dt).
Proof.
  destruct (Z.eq_dec (month dt) 5) as [E|E].
  { unfold G3. rewrite (may_abbreviated _ E). exact parse_yearless_1. }
  hit G3 [G1; G2] G3 [G4; G5; G6];
    [exact (absolute_miss_g3 E)|all_miss G3|exact match_g3].
Qed.

Lemma parse_yearless_4 : parse_date (Some (write dt G4)) (year dt) = Ok (Some dt).
Proof.
  destruct (Z.eq_dec (month dt) 5) as [E|E].
  { unfold G4. rewrite (may_abbreviated _ E). exact parse_yearless_2. }
  hit G4 [G1; G2; G3] G4 [G5; G6];
    [exact (absolute_miss_g4 E)|all_miss G4|exact match_g4].
Qed.

Lemma parse_yearless_5 : parse_date (Some (write dt G5)) (year dt) = Ok (Some dt).
Proof.
  destruct (Z.eq_dec (month dt) 5) as [E|E];
  (hit G5 [G1; G2; G3; G4] G5 [G6];
    [exact absolute_miss_g5|all_miss G5|exact match_g5]).
Qed.

Lemma parse_yearless_6 : parse_date (Some (write dt G6)) (year dt) = Ok (Some dt).
Proof.
  destruct (Z.eq_dec (month dt) 5) as [E|E];
  (hit G6 [G1; G2; G3; G4; G5] G6 (@nil string);
    [exact absolute_miss_g6|all_miss G6|exact match_g6]).
Qed.

End Yearless.
(** ** The 29th of February *)

Lemma every_minute_spec check h mi :
  every_minute check = true -> 0 <= h <= 23 -> 0 <= mi <= 59 ->
  check h mi = true.
Proof.
  unfold every_minute. intros H Hh Hmi.
  rewrite forallb_forall in H. specialize (H h (in_zrange 0 24 h ltac:(lia))).
  rewrite forallb_forall in H. apply H, in_zrange. lia.
Qed.

(** [strptime] checks a year-less 29th of February in 1904 and hands it on
    in 1900, where the constructor refuses it. *)
Lemma strptime_of_yearless_feb29 format R s caps h mi :
  pattern format = Some R ->
  re_match true R s = Some (caps, "") ->
  steps caps fields0 (keys caps) = Ok (mkfields None 2 29 h mi 0 None 0) ->
  0 <= h <= 23 -> 0 <= mi <= 59 ->
  Strptime.strptime s format = Raise ValueError.
Proof.
  intros HP HM HS Hh Hmi. unfold Strptime.strptime, _strptime.
  rewrite HP, HM. cbn [nonempty]. rewrite HS.
  assert (D1 : Datetime.date 1904 2 29 = Ok tt) by reflexivity.
  assert (D2 : Datetime.date 1904 1 1 = Ok tt) by reflexivity.
  cbn [Py.bind Z.eqb Pos.eqb andb]. rewrite D1, D2. cbn [Py.bind].
  unfold Datetime.new.
  assert (fits_int h = true) as -> by (unfold fits_int; lia).
  assert (fits_int mi = true) as -> by (unfold fits_int; lia).
  reflexivity.
Qed.

Section LeapDay.
Variable dt : datetime.
Hypothesis V : valid dt.
Hypothesis Hsec : second dt = 0.
Hypothesis Htz : tzinfo dt = None.
Hypothesis Hm : month dt = 2.
Hypothesis Hd : day dt = 29.

Ltac refused P R G :=
  apply (strptime_of_yearless_feb29 _ R _
           [("p", am_or_pm (hour dt)); ("M", pad2 (minute dt));
            ("I", pad2 (hour12 (hour dt))); ("d", pad2 (day dt));
            ("B", month_name (month dt))] (hour dt) (minute dt) P);
  [open_written G R; walk; apply re_p_last
  | convert; rewrite Hm, Hd; reflexivity | lia | lia].

Ltac refused_abbr P R G :=
  apply (strptime_of_yearless_feb29 _ R _
           [("p", am_or_pm (hour dt)); ("M", pad2 (minute dt));
            ("I", pad2 (hour12 (hour dt))); ("d", pad2 (day dt));
            ("b", month_abbr (month dt))] (hour dt) (minute dt) P);
  [open_written G R; walk; apply re_p_last
  | convert; rewrite Hm, Hd; reflexivity | lia | lia].

Ltac refused_in G :=
  lazymatch goal with
  | |- Strptime.strptime (write _ G1) G1 = _ => refused pattern_g1 Q1 G1
  | |- Strptime.strptime (write _ G2) G2 = _ => refused pattern_g2 Q2 G2
  | |- Strptime.strptime (write _ G3) G3 = _ => refused_abbr pattern_g3 Q3 G3
  | |- Strptime.strptime (write _ G4) G4 = _ => refused_abbr pattern_g4 Q4 G4
  | |- Strptime.strptime (write _ G5) G5 = _ => refused pattern_g5 Q5 G5
  | |- Strptime.strptime (write _ G6) G6 = _ => refused pattern_g6 Q6 G6
  | |- _ => miss_in G
  end.

Ltac none_reads G :=
  rewrite formats_with_year_eq, formats_without_year_eq; ranges V;
  assert (month dt <> 5) by lia;
  cbn [app];
  repeat (apply List.Forall_cons; [cbv beta; refused_in G|]); apply List.Forall_nil.

Lemma none_reads_g1 :
  Forall (fun f => Strptime.strptime (write dt G1) f = Raise ValueError)
         (formats_with_year ++ formats_without_year).
Proof. none_reads G1. Qed.

Lemma none_reads_g2 :
  Forall (fun f => Strptime.strptime (write dt G2) f = Raise ValueError)
         (formats_with_year ++ formats_without_year).
Proof. none_reads G2. Qed.

Lemma none_reads_g3 :
  Forall (fun f => Strptime.strptime (write dt G3) f = Raise ValueError)
         (formats_with_year ++ formats_without_year).
Proof. none_reads G3. Qed.

Lemma none_reads_g4 :
  Forall (fun f => Strptime.strptime (write dt G4) f = Raise ValueError)
         (formats_with_year ++ formats_without_year).
Proof. none_reads G4. Qed.

Lemma none_reads_g5 :
  Forall (fun f => Strptime.strptime (write dt G5) f = Raise ValueError)
         (formats_with_year ++ formats_without_year).
Proof. none_reads G5. Qed.

Lemma none_reads_g6 :
  Forall (fun f => Strptime.strptime (write dt G6) f = Raise ValueError)
         (formats_with_year ++ formats_without_year).
Proof. none_reads G6. Qed.

Lemma leap_day_falls_back fmt Y :
  In fmt formats_without_year ->
  parse_date (Some (write dt fmt)) Y =
  match re_search true month_day_at_time (write dt fmt) with
  | Some m => from_match m Y
  | None => Ok None
  end.
Proof.
  intros Hin. rewrite formats_without_year_eq in Hin. ranges V.
  assert (S : strip (write dt fmt) = write dt fmt).
  { destruct Hin as [<-|[<-|[<-|[<-|[<-|[<-|[]]]]]]]; apply strip_id;
      first [unfold G1, G2, G3, G4, G5, G6; head_ok
            |unfold G1, G2, G3, G4, G5, G6; tail_ok]. }
  rewrite <- S at 2. apply parse_date_regex_branch.
  - destruct Hin as [<-|[<-|[<-|[<-|[<-|[<-|[]]]]]]];
      cbn [write field G1 G2 G3 G4 G5 G6]; rewrite Hm; reflexivity.
  - rewrite S.
    destruct Hin as [<-|[<-|[<-|[<-|[<-|[<-|[]]]]]]];
      auto using none_reads_g1, none_reads_g2, none_reads_g3, none_reads_g4,
        none_reads_g5, none_reads_g6.
Qed.

End LeapDay.

Lemma feb29_written dt fmt :
  month dt = 2 -> day dt = 29 -> In fmt formats_without_year ->
  write dt fmt = write (feb29 (hour dt) (minute dt)) fmt.
Proof.
  intros Hm Hd Hin. rewrite formats_without_year_eq in Hin.
  destruct Hin as [<-|[<-|[<-|[<-|[<-|[<-|[]]]]]]];
    cbn [write field G1 G2 G3 G4 G5 G6 feb29 month day hour minute];
    rewrite Hm, Hd; reflexivity.
Qed.

Lemma feb29_valid h mi :
  0 <= h <= 23 -> 0 <= mi <= 59 -> valid (feb29 h mi).
Proof.
  intros Hh Hmi. unfold valid, feb29, Datetime.new, check_time_args.
  cbn [year month day hour minute second microsecond tzinfo].
  assert (fits_int h = true) as -> by (unfold fits_int; lia).
  assert (fits_int mi = true) as -> by (unfold fits_int; lia).
  change (check_date_args 1904 2 29) with (Ok tt : res unit).
  cbn [Py.bind fits_int andb negb].
  destruct (Z.leb_spec 0 h), (Z.leb_spec h 23), (Z.leb_spec 0 mi),
    (Z.leb_spec mi 59); try lia.
  reflexivity.
Qed.

Lemma clock_of_12 h e :
  0 <= h <= 23 -> str_upper e = am_or_pm h ->
  (if String.eqb (str_upper e) "PM" && negb (hour12 h =? 12)
   then hour12 h + 12
   else if String.eqb (str_upper e) "AM" && (hour12 h =? 12) then 0
        else hour12 h) = h.
Proof. intros Hh ->. enum h 24%nat; vm_compute; reflexivity. Qed.

Lemma upper_am_or_pm h : str_upper (am_or_pm h) = am_or_pm h.
Proof. unfold am_or_pm. destruct (h <? 12); reflexivity. Qed.

Lemma from_groups fmt mon h mi Y :
  feb29_groups fmt mon h mi = true ->
  month_of mon = Ok (Some 2) ->
  0 <= h <= 23 -> 0 <= mi <= 59 ->
  match re_search true month_day_at_time (write (feb29 h mi) fmt) with
  | Some m => from_match m Y
  | None => Ok None
  end = let! dt := Datetime.new Y 2 29 h mi 0 0 None in Ok (Some dt).
Proof.
  unfold feb29_groups, fallback_groups. intros H Hmon Hh Hmi.
  destruct (re_search true month_day_at_time _) as [m|]; [|discriminate].
  unfold from_match.
  destruct (group m "1") as [a|]; [|discriminate].
  destruct (group m "2") as [b|]; [|discriminate].
  destruct (group m "3") as [c|]; [|discriminate].
  destruct (group m "4") as [d|]; [|discriminate].
  destruct (group m "5") as [e|]; [|discriminate].
  apply andb_true_iff in H as [H He]. apply andb_true_iff in H as [H Hd].
  apply andb_true_iff in H as [H Hc]. apply andb_true_iff in H as [Ha Hb].
  apply String.eqb_eq in Ha, Hb, Hc, Hd, He. subst a b c d e.
  rewrite Hmon. cbn [Py.bind].
  pose proof (hour12_range h Hh).
  rewrite !int_pad2 by lia. cbn [Py.bind].
  change (int "29") with (Ok 29 : res Z). cbn [Py.bind].
  rewrite (clock_of_12 h (am_or_pm h) Hh (upper_am_or_pm h)). reflexivity.
Qed.

Lemma feb29_g1 : every_minute (feb29_groups G1 "February") = true.
Proof. vm_compute. reflexivity. Qed.
Lemma feb29_g2 : every_minute (feb29_groups G2 "February") = true.
Proof. vm_compute. reflexivity. Qed.
Lemma feb29_g3 : every_minute (feb29_groups G3 "Feb") = true.
Proof. vm_compute. reflexivity. Qed.
Lemma feb29_g4 : every_minute (feb29_groups G4 "Feb") = true.
Proof. vm_compute. reflexivity. Qed.
Lemma feb29_g5 : every_minute (feb29_no_groups G5) = true.
Proof. vm_compute. reflexivity. Qed.
Lemma feb29_g6 : every_minute (feb29_no_groups G6) = true.
Proof. vm_compute. reflexivity. Qed.

Lemma month_of_february : month_of "February" = Ok (Some 2).
Proof. vm_compute. reflexivity. Qed.
Lemma month_of_feb : month_of "Feb" = Ok (Some 2).
Proof. vm_compute. reflexivity. Qed.

Lemma feb29_with_at fmt h mi Y :
  In fmt [G1; G2; G3; G4] -> 0 <= h <= 23 -> 0 <= mi <= 59 ->
  parse_date (Some (write (feb29 h mi) fmt)) Y
  = let! dt := Datetime.new Y 2 29 h mi 0 0 None in Ok (Some dt).
Proof.
  intros Hin Hh Hmi.
  rewrite (leap_day_falls_back (feb29 h mi) (feb29_valid h mi Hh Hmi)
             eq_refl eq_refl fmt Y)
    by (rewrite formats_without_year_eq; simpl in *; tauto).
  destruct Hin as [<-|[<-|[<-|[<-|[]]]]].
  - exact (from_groups G1 "February" h mi Y
             (every_minute_spec _ h mi feb29_g1 Hh Hmi) month_of_february Hh Hmi).
  - exact (from_groups G2 "February" h mi Y
             (every_minute_spec _ h mi feb29_g2 Hh Hmi) month_of_february Hh Hmi).
  - exact (from_groups G3 "Feb" h mi Y
             (every_minute_spec _ h mi feb29_g3 Hh Hmi) month_of_feb Hh Hmi).
  - exact (from_groups G4 "Feb" h mi Y
             (every_minute_spec _ h mi feb29_g4 Hh Hmi) month_of_feb Hh Hmi).
Qed.

Lemma feb29_without_at fmt h mi Y :
  In fmt [G5; G6] -> 0 <= h <= 23 -> 0 <= mi <= 59 ->
  parse_date (Some (write (feb29 h mi) fmt)) Y = Ok None.
Proof.
  intros Hin Hh Hmi.
  rewrite (leap_day_falls_back (feb29 h mi) (feb29_valid h mi Hh Hmi)
             eq_refl eq_refl fmt Y)
    by (rewrite formats_without_year_eq; simpl in *; tauto).
  assert (feb29_no_groups fmt h mi = true) as H.
  { destruct Hin as [<-|[<-|[]]].
    - exact (every_minute_spec _ h mi feb29_g5 Hh Hmi).
    - exact (every_minute_spec _ h mi feb29_g6 Hh Hmi). }
  unfold feb29_no_groups in H.
  destruct (re_search true month_day_at_time _); [discriminate|reflexivity].
Qed.

(** X14. A round trip. An instant with whole minutes and no offset, written
    in one of the formats without a year (the month by its English name,
    numbers padded to two digits, AM or PM), is recovered by [parse_date]
    when the reference year is the year of the instant. For the 29th of
    February this is so for the formats with "at" only, where the
    permissive pattern reads what [strptime] refuses. *)
Theorem yearless_texts_are_recovered (dt : datetime) (fmt : string) :
  valid dt -> second dt = 0 -> tzinfo dt = None ->
  In fmt formats_without_year ->
  (month dt = 2 -> day dt = 29 -> contains " at " fmt = true) ->
  parse_date (Some (write dt fmt)) (year dt) = Ok (Some dt).
Proof.
  intros V Hsec Htz Hin Hat.
  destruct (Z.eq_dec (month dt) 2) as [Hm|Hm];
    [destruct (Z.eq_dec (day dt) 29) as [Hd|Hd]|].
  - rewrite (feb29_written dt fmt Hm Hd Hin).
    pose proof (valid_minute_resolution dt V Hsec Htz) as N. rewrite Hm, Hd in N.
    specialize (Hat Hm Hd). ranges V.
    rewrite formats_without_year_eq in Hin.
    assert (In fmt [G1; G2; G3; G4]) as Hin'.
    { destruct Hin as [<-|[<-|[<-|[<-|[<-|[<-|[]]]]]]]; simpl; auto;
        vm_compute in Hat; discriminate. }
    rewrite (feb29_with_at fmt _ _ (year dt) Hin') by lia.
    rewrite N. reflexivity.
  - rewrite formats_without_year_eq in Hin.
    destruct Hin as [<-|[<-|[<-|[<-|[<-|[<-|[]]]]]]];
      [apply parse_yearless_1|apply parse_yearless_2|apply parse_yearless_3
      |apply parse_yearless_4|apply parse_yearless_5|apply parse_yearless_6];
      try assumption; tauto.
  - rewrite formats_without_year_eq in Hin.
    destruct Hin as [<-|[<-|[<-|[<-|[<-|[<-|[]]]]]]];
      [apply parse_yearless_1|apply parse_yearless_2|apply parse_yearless_3
      |apply parse_yearless_4|apply parse_yearless_5|apply parse_yearless_6];
      try assumption; tauto.
Qed.

Lemma yearless_texts_are_recovered_witness :
  parse_date (Some "February 29 at 11:59PM") 2028
  = Ok (Some (mkdt 2028 2 29 23 59 0 0 None)).
Proof.
  apply (yearless_texts_are_recovered (mkdt 2028 2 29 23 59 0 0 None)
           "%B %d at %I:%M%p");
    try reflexivity.
  cbv [formats_without_year In]. auto.
Defined.

(** X15. The 29th of February written without "at" ("February 29 11:59 PM")
    is read by no format, since [strptime] has no such day in its default
    year, and the permissive pattern needs "at": [parse_date] returns
    [None] at every time of day and in every reference year, a leap year
    or not. *)
Theorem february_29_without_at_is_dropped (fmt : string) (h mi Y : Z) :
  fmt = "%B %d %I:%M%p"%string \/ fmt = "%B %d %I:%M %p"%string ->
  0 <= h <= 23 -> 0 <= mi <= 59 ->
  parse_date (Some (write (feb29 h mi) fmt)) Y = Ok None.
Proof.
  intros Hf Hh Hmi. apply feb29_without_at; try assumption.
  destruct Hf as [-> | ->]; simpl; auto.
Qed.

Lemma february_29_without_at_is_dropped_witness :
  parse_date (Some "February 29 11:59 PM") 2028 = Ok None.
Proof.
  apply (february_29_without_at_is_dropped "%B %d %I:%M %p" 23 59 2028);
    [right; reflexivity|lia|lia].
Defined.

(** X16. The 29th of February written with "at", in a reference year that
    is not a leap year: the permissive pattern reads the text and the
    [datetime] constructor, which no [try] encloses, raises
    [ValueError]. *)
Theorem february_29_in_a_common_year_raises (fmt : string) (h mi Y : Z) :
  In fmt ["%B %d at %I:%M%p"; "%B %d at %I:%M %p";
          "%b %d at %I:%M%p"; "%b %d at %I:%M %p"]%string ->
  0 <= h <= 23 -> 0 <= mi <= 59 ->
  fits_int Y = true -> is_leap Y = false ->
  parse_date (Some (write (feb29 h mi) fmt)) Y = Raise ValueError.
Proof.
  intros Hin Hh Hmi HY Hleap.
  rewrite (feb29_with_at fmt h mi Y Hin Hh Hmi).
  unfold Datetime.new. rewrite HY.
  assert (fits_int h = true) as -> by (unfold fits_int; lia).
  assert (fits_int mi = true) as -> by (unfold fits_int; lia).
  change (fits_int 2) with true. change (fits_int 29) with true.
  change (fits_int 0) with true. cbn [andb negb].
  assert (check_date_args Y 2 29 = Raise ValueError) as ->; [|reflexivity].
  unfold check_date_args.
  destruct (negb ((MINYEAR <=? Y) && (Y <=? MAXYEAR))); [reflexivity|].
  change (negb ((1 <=? 2) && (2 <=? 12))) with false. cbv iota.
  unfold days_in_month. rewrite Hleap. reflexivity.
Qed.

Lemma february_29_in_a_common_year_raises_witness :
  parse_date (Some "Feb 29 at 11:59 PM") 2027 = Raise ValueError.
Proof.
  apply (february_29_in_a_common_year_raises "%b %d at %I:%M %p" 23 59 2027);
    [simpl; auto|lia|lia|reflexivity|reflexivity].
Defined.
(* ===================================================================== *)
(** * The calendar service *)
(* ===================================================================== *)

Section Calendar.
Variable service : list request -> request -> res response.

Lemma bindM_eq {A B} (m : M A) (f : A -> M B) log :
  bindM m f log
  = match m log with
    | (Ok a, log') => f a log'
    | (Raise e, log') => (Raise e, log')
    end.
Proof. reflexivity. Qed.

Lemma find_some {A} (p : A -> bool) l x :
  List.find p l = Some x -> In x l /\ p x = true.
Proof. apply find_some. Qed.

Lemma summary_is_spec name d :
  summary_is name d = true -> d !! "summary" = Some name.
Proof.
  unfold summary_is. destruct (d !! "summary") as [s|]; [|discriminate].
  intros H. apply String.eqb_eq in H. congruence.
Qed.

(** X17. [find_event] never raises and makes exactly one request, a search
    for the title among at most ten events of the calendar. An event it
    returns is one of the events listed in the reply and its summary is
    the title; when the request fails it returns [None]. *)
Theorem find_event_searches_once (title calendar_id : string)
    (log : list request) :
  exists found,
    find_event service title calendar_id log
    = (Ok found, log ++ [search_for title calendar_id])
    /\ match found, service log (search_for title calendar_id) with
       | Some ev, Ok reply =>
           In ev (get_items reply) /\ ev !! "summary" = Some title
       | Some _, Raise _ => False
       | None, Ok reply =>
           forall ev, In ev (get_items reply) -> ev !! "summary" <> Some title
       | None, Raise _ => True
       end.
Proof.
  unfold find_event, try_except, bindM, execute, ret, search_for.
  destruct (service log _) as [reply|e]; [|exists None; split; [reflexivity|exact I]].
  destruct (List.find (summary_is title) (get_items reply)) as [ev|] eqn:F.
  - exists (Some ev). split; [reflexivity|].
    apply find_some in F as [Hin Hs]. split; [exact Hin|].
    apply summary_is_spec, Hs.
  - exists None. split; [reflexivity|]. intros ev Hin Hs.
    pose proof (find_none _ _ F ev Hin) as N. unfold summary_is in N.
    rewrite Hs, String.eqb_refl in N. discriminate.
Qed.

(** X18. [target_calendar] never raises, makes one request, and never
    returns an empty id: it is the non-empty id of a listed calendar of the
    wanted name, or "primary". *)
Theorem target_calendar_is_never_empty (name : string) (log : list request) :
  exists id,
    target_calendar service name log = (Ok id, log ++ [calendarList_list])
    /\ nonempty id = true
    /\ (id = "primary"%string
        \/ exists reply calendar,
             service log calendarList_list = Ok reply
             /\ In calendar (get_items reply)
             /\ calendar !! "summary" = Some name
             /\ calendar !! "id" = Some id).
Proof.
  unfold target_calendar, get_calendar_id, try_except, bindM, execute, ret.
  destruct (service log calendarList_list) as [reply|e] eqn:S;
    [|exists "primary"%string; auto].
  destruct (List.find (summary_is name) (get_items reply)) as [c|] eqn:F;
    [|exists "primary"%string; auto].
  apply find_some in F as [Hin Hs]. apply summary_is_spec in Hs.
  destruct (c !! "id") as [[|x id]|] eqn:I;
    try (exists "primary"%string; simpl; auto; fail).
  exists (String x id). simpl. split; [reflexivity|]. split; [reflexivity|].
  right. exists reply, c. auto.
Qed.

(** ** One event *)

(** X19. A due date that cannot be read sends nothing: when [_parse_date]
    returns [None], [create_or_update_event] returns [None], and when it
    raises, the exception goes through; no request is made in either
    case. *)
Theorem unreadable_dates_send_nothing (title description location cid : string)
    (due_date : option string) (Y : Z) (log : list request) :
  match _parse_date due_date Y with
  | Ok (Some _) => True
  | Ok None =>
      create_or_update_event service title due_date description location cid Y log
      = (Ok None, log)
  | Raise e =>
      create_or_update_event service title due_date description location cid Y log
      = (Raise e, log)
  end.
Proof.
  unfold create_or_update_event, bindM, lift.
  destruct (_parse_date due_date Y) as [[dt|]|e]; [exact I|reflexivity|reflexivity].
Qed.

Lemma found_is_truthy title (ev : resource) :
  ev !! "summary" = Some title -> nonempty_dict ev = true.
Proof.
  intros H. unfold nonempty_dict. apply negb_true_iff, bool_decide_eq_false.
  intros ->. rewrite lookup_empty in H. discriminate.
Qed.

(** The event [find_event] returns has the title for summary. *)
Lemma find_event_found title cid log :
  exists found,
    find_event service title cid log
    = (Ok found, log ++ [search_for title cid])
    /\ forall ev, found = Some ev -> ev !! "summary" = Some title.
Proof.
  unfold find_event, try_except, bindM, execute, ret, search_for.
  destruct (service log _) as [reply|e];
    [|exists None; split; [reflexivity|discriminate]].
  destruct (List.find (summary_is title) (get_items reply)) as [ev|] eqn:F.
  - exists (Some ev). split; [reflexivity|]. intros ev' [= <-].
    apply find_some in F as [_ Hs]. apply summary_is_spec, Hs.
  - exists None. split; [reflexivity|discriminate].
Qed.

(** What [create_or_update_event] does once the date is read. *)
Lemma create_or_update_event_eq title description location cid due_date Y
    dt log :
  _parse_date due_date Y = Ok (Some dt) ->
  let body := body_for title description location dt in
  create_or_update_event service title due_date description location cid Y log
  = match find_event service title cid log with
    | (Ok (Some ev), log1) =>
        if nonempty_dict ev then
          match ev !! "id" with
          | None => (Raise KeyError, log1)
          | Some id =>
              (match service log1 (events_update cid id body) with
               | Ok reply => Ok (Some (mk_result "updated" reply))
               | Raise e => Raise e
               end, log1 ++ [events_update cid id body])
          end
        else
          (match service log1 (events_insert cid body) with
           | Ok reply => Ok (Some (mk_result "created" reply))
           | Raise e => Raise e
           end, log1 ++ [events_insert cid body])
    | (Ok None, log1) =>
        (match service log1 (events_insert cid body) with
         | Ok reply => Ok (Some (mk_result "created" reply))
         | Raise e => Raise e
         end, log1 ++ [events_insert cid body])
    | (Raise e, log1) => (Raise e, log1)
    end.
Proof.
  intros P body.
  unfold create_or_update_event. rewrite bindM_eq. unfold lift at 1.
  rewrite P. cbv beta iota. rewrite bindM_eq.
  fold (body_for title description location dt). fold body.
  destruct (find_event service title cid log) as [[[ev|]|e] log1]; [| |reflexivity].
  - destruct (nonempty_dict ev).
    + rewrite bindM_eq. unfold lift at 1.
      destruct (ev !! "id") as [id|]; [|reflexivity].
      cbv beta iota. rewrite bindM_eq. unfold execute at 1.
      destruct (service log1 _); reflexivity.
    + rewrite bindM_eq. unfold execute at 1.
      destruct (service log1 _); reflexivity.
  - rewrite bindM_eq. unfold execute at 1.
    destruct (service log1 _); reflexivity.
Qed.

Lemma create_or_update_event_cases title description location cid due_date Y
    dt log :
  _parse_date due_date Y = Ok (Some dt) ->
  let body := body_for title description location dt in
  let log1 := log ++ [search_for title cid] in
  exists found,
    find_event service title cid log = (Ok found, log1)
    /\ match found with
       | Some ev =>
           ev !! "summary" = Some title
           /\ match ev !! "id" with
              | None =>
                  create_or_update_event service title due_date description
                    location cid Y log = (Raise KeyError, log1)
              | Some id =>
                  create_or_update_event service title due_date description
                    location cid Y log
                  = (match service log1 (events_update cid id body) with
                     | Ok reply => Ok (Some (mk_result "updated" reply))
                     | Raise e => Raise e
                     end, log1 ++ [events_update cid id body])
              end
       | None =>
           create_or_update_event service title due_date description
             location cid Y log
           = (match service log1 (events_insert cid body) with
              | Ok reply => Ok (Some (mk_result "created" reply))
              | Raise e => Raise e
              end, log1 ++ [events_insert cid body])
       end.
Proof.
  intros P body log1.
  destruct (find_event_found title cid log) as (found & F & Hf).
  exists found. split; [exact F|].
  pose proof (create_or_update_event_eq title description location cid
                due_date Y dt log P) as E.
  cbv zeta in E. fold body in E. rewrite F in E. fold log1 in E.
  destruct found as [ev|]; [|exact E].
  assert (ev !! "summary" = Some title) as Hs by (apply Hf; reflexivity).
  split; [exact Hs|]. rewrite (found_is_truthy title ev Hs) in E.
  destruct (ev !! "id"); exact E.
Qed.

(** X20. Once the date is read, [create_or_update_event] makes the search
    and then at most one more request. When it returns, that request is an
    update of the event found by the search, under the id of that event and
    with the action "updated", or, when no event of that title was found,
    an insertion with the action "created"; both carry the same body, whose
    start and end are the date in ISO form. *)
Theorem create_or_update_event_writes_once
    (title description location cid : string) (due_date : option string)
    (Y : Z) (dt : datetime) (log log' : list request) (r : result) :
  _parse_date due_date Y = Ok (Some dt) ->
  create_or_update_event service title due_date description location cid Y log
  = (Ok (Some r), log') ->
  let body := body_for title description location dt in
  body_start body = body_end body
  /\ fst (body_start body) = isoformat dt
  /\ ((action r = "updated"%string
       /\ exists ev id,
            find_event service title cid log
            = (Ok (Some ev), log ++ [search_for title cid])
            /\ ev !! "id" = Some id
            /\ log' = log ++ [search_for title cid; events_update cid id body])
      \/ (action r = "created"%string
          /\ find_event service title cid log
             = (Ok None, log ++ [search_for title cid])
          /\ log' = log ++ [search_for title cid; events_insert cid body])).
Proof.
  intros P H body. split; [reflexivity|]. split; [reflexivity|].
  destruct (create_or_update_event_cases title description location cid
              due_date Y dt log P) as (found & F & Hc).
  fold body in Hc. destruct found as [ev|].
  - destruct Hc as [Hs Hc]. destruct (ev !! "id") as [id|] eqn:I.
    + rewrite Hc in H. left.
      destruct (service _ (events_update cid id body)) as [reply|];
        inversion H; subst. split; [reflexivity|].
      exists ev, id. rewrite <- app_assoc. auto.
    + rewrite Hc in H. discriminate.
  - rewrite Hc in H. right.
    destruct (service _ (events_insert cid body)) as [reply|];
      inversion H; subst. split; [reflexivity|]. rewrite <- app_assoc. auto.
Qed.

End Calendar.
(** ** The totals of a run *)

Lemma count_app p l l' : count p (l ++ l') = count p l + count p l'.
Proof. unfold count. rewrite List.filter_app, length_app. lia. Qed.

Section Totals.
Variable service : list request -> request -> res response.

Lemma sync_assignment_accounts c cid Y a t log t' log' :
  sync_assignment service c cid Y a t log = (Ok t', log') ->
  processed t' = processed t + 1
  /\ total_created t' - total_created t
     = count is_insert log' - count is_insert log
  /\ total_updated t' - total_updated t
     = count is_update log' - count is_update log.
Proof.
  unfold sync_assignment, processed.
  destruct (negb (truthy (a_due_date a))).
  { intros H. inversion H; subst. simpl. lia. }
  set (title := (a_name a ++ " - " ++ c_short_name c)%string).
  set (description := if truthy (a_url a) then _ else _).
  rewrite bindM_eq.
  assert (U : match _parse_date (a_due_date a) Y with
              | Ok (Some _) => True
              | Ok None =>
                  create_or_update_event service title (a_due_date a)
                    description "" cid Y log = (Ok None, log)
              | Raise e =>
                  create_or_update_event service title (a_due_date a)
                    description "" cid Y log = (Raise e, log)
              end).
  { unfold create_or_update_event, bindM, lift.
    destruct (_parse_date (a_due_date a) Y) as [[dt|]|e];
      [exact I|reflexivity|reflexivity]. }
  destruct (_parse_date (a_due_date a) Y) as [[dt|]|e] eqn:P.
  - clear U.
    destruct (create_or_update_event_cases service title description "" cid
                (a_due_date a) Y dt log P) as (found & _ & Hc).
    destruct found as [ev|].
    + destruct Hc as [_ Hc]. destruct (ev !! "id") as [id|]; rewrite Hc;
        [|discriminate].
      destruct (service _ (events_update _ _ _)); [|discriminate].
      intros H. inversion H; subst. simpl. rewrite !count_app.
      unfold count. simpl. lia.
    + rewrite Hc. destruct (service _ (events_insert _ _)); [|discriminate].
      intros H. inversion H; subst. simpl. rewrite !count_app.
      unfold count. simpl. lia.
  - rewrite U. intros H. inversion H; subst. simpl. lia.
  - rewrite U. discriminate.
Qed.

Lemma sync_assignments_account c cid Y l : forall t log t' log',
  sync_assignments service c cid Y l t log = (Ok t', log') ->
  processed t' = processed t + Z.of_nat (length l)
  /\ total_created t' - total_created t
     = count is_insert log' - count is_insert log
  /\ total_updated t' - total_updated t
     = count is_update log' - count is_update log.
Proof.
  induction l as [|a l IH]; intros t log t' log'.
  - intros H. inversion H; subst. simpl. lia.
  - cbn [sync_assignments]. rewrite bindM_eq.
    destruct (sync_assignment service c cid Y a t log) as [[t1|e] log1] eqn:E;
      [|discriminate].
    intros H. apply sync_assignment_accounts in E. apply IH in H.
    cbn [length]. rewrite Nat2Z.inj_succ. lia.
Qed.

(** X21. The totals of a run that ends account for every assignment of
    every course: created, updated and skipped add up to their number;
    and what is reported is what was sent: the events counted as created
    are as many as the insertions requested, those counted as updated as
    many as the updates requested. *)
Theorem totals_account_for_every_assignment (fetch : string -> node)
    (courses : list course) (cid : string) (Y : Z) (t t' : totals)
    (log log' : list request) :
  sync_courses service fetch courses cid Y t log = (Ok t', log') ->
  processed t'
  = processed t + Z.of_nat (length (flat_map (records_of fetch) courses))
  /\ total_created t' - total_created t
     = count is_insert log' - count is_insert log
  /\ total_updated t' - total_updated t
     = count is_update log' - count is_update log.
Proof.
  revert t log. induction courses as [|c courses IH]; intros t log.
  - intros H. inversion H; subst. simpl. lia.
  - cbn [sync_courses flat_map]. rewrite bindM_eq. unfold lift at 1.
    unfold records_of at 1.
    destruct (get_assignments _ (c_id c)) as [l|e]; [|discriminate].
    cbv beta iota. rewrite bindM_eq.
    destruct (sync_assignments service c cid Y l t log) as [[t1|e] log1] eqn:E;
      [|discriminate].
    intros H. apply sync_assignments_account in E. apply IH in H.
    rewrite length_app, Nat2Z.inj_add. lia.
Qed.

End Totals.

Lemma totals_account_for_every_assignment_witness :
  sample_sync = (Ok (mk_totals 1 1 1), sample_log)
  /\ count is_insert sample_log = 1 /\ count is_update sample_log = 1.
Proof.
  assert (E : sample_sync = (Ok (mk_totals 1 1 1), sample_log))
    by (vm_compute; reflexivity).
  split; [exact E|].
  pose proof (totals_account_for_every_assignment sample_service sample_fetch
                [cs101] "primary" 2026 (mk_totals 0 0 0) (mk_totals 1 1 1)
                [] sample_log E) as (_ & H1 & H2).
  change (count is_insert []) with 0 in H1.
  change (count is_update []) with 0 in H2.
  cbn [total_created total_updated] in H1, H2. lia.
Defined.

Lemma create_or_update_event_writes_once_witness :
  let dt := mkdt 2026 1 15 23 59 0 0 None in
  let body := body_for "Quiz 3 - CS 101" "Course: Computing" "" dt in
  create_or_update_event sample_service "Quiz 3 - CS 101"
    (Some "2026-01-15T23:59:00"%string) "Course: Computing" "" "primary" 2026 []
  = (Ok (Some (mk_result "created" (mk_response None None))),
     [search_for "Quiz 3 - CS 101" "primary"; events_insert "primary" body])
  /\ fst (body_start body) = "2026-01-15T23:59:00"%string.
Proof.
  intros dt body.
  assert (P : _parse_date (Some "2026-01-15T23:59:00"%string) 2026 = Ok (Some dt))
    by (vm_compute; reflexivity).
  assert (E : create_or_update_event sample_service "Quiz 3 - CS 101"
                (Some "2026-01-15T23:59:00"%string) "Course: Computing" ""
                "primary" 2026 []
              = (Ok (Some (mk_result "created" (mk_response None None))),
                 [search_for "Quiz 3 - CS 101" "primary";
                  events_insert "primary" body]))
    by (vm_compute; reflexivity).
  split; [exact E|].
  destruct (create_or_update_event_writes_once sample_service _ _ _ _ _ _ _ _ _ _
              P E) as (_ & H & _).
  transitivity (isoformat dt); [exact H|vm_compute; reflexivity].
Defined.
(** ** The cleanup *)

Section Cleanup.
Variable service : list request -> request -> res response.

Lemma patterns_loop_eq patterns title event d log :
  patterns_loop service patterns title event d log
  = if existsb (fun p => contains p title && contains " - " title) patterns
    then match event !! "id" with
         | None => (Raise KeyError, d, log)
         | Some id =>
             match service log (events_delete "primary" id) with
             | Ok _ => (Ok tt, d + 1, log ++ [events_delete "primary" id])
             | Raise e => (Raise e, d, log ++ [events_delete "primary" id])
             end
         end
    else (Ok tt, d, log).
Proof.
  induction patterns as [|p ps IH]; [reflexivity|].
  cbn [patterns_loop existsb].
  destruct (contains p title && contains " - " title); [|exact IH].
  cbn [orb]. unfold execute. destruct (event !! "id"); [|reflexivity].
  destruct (service log _); reflexivity.
Qed.

Lemma events_loop_requests events : forall d log r d' log',
  events_loop service events d log = (r, d', log') ->
  exists added,
    log' = log ++ added
    /\ Forall (fun q => exists e, In e (doomed events) /\ q = deletion_of e) added
    /\ d <= d' <= d + Z.of_nat (length added).
Proof.
  induction events as [|e events IH]; intros d log r d' log'.
  - intros H. inversion H; subst. exists []. rewrite app_nil_r.
    repeat split; [constructor|lia|simpl; lia].
  - cbn [events_loop]. fold (title_in e). fold course_patterns.
    rewrite patterns_loop_eq. fold (looks_like_gradescope (title_in e)).
    unfold doomed. cbn [List.filter].
    destruct (looks_like_gradescope (title_in e)) eqn:L.
    + destruct (e !! "id") as [id|] eqn:I.
      * assert (events_delete "primary" id = deletion_of e) as D
          by (unfold deletion_of, id_in; rewrite I; reflexivity).
        rewrite D.
        destruct (service log (deletion_of e)).
        -- intros H. apply IH in H as (added & -> & F & Hd).
           exists (deletion_of e :: added). rewrite <- app_assoc.
           repeat split; try (cbn [length]; lia).
           constructor; [exists e; split; [left; reflexivity|reflexivity]|].
           eapply List.Forall_impl; [|exact F].
           intros q (e' & He' & ->). exists e'. split; [right; exact He'|reflexivity].
        -- intros H. inversion H; subst. exists [deletion_of e].
           repeat split; try (cbn [length]; lia).
           constructor; [|constructor].
           exists e. split; [left; reflexivity|reflexivity].
      * intros H. inversion H; subst. exists []. rewrite app_nil_r.
        repeat split; [constructor|lia|simpl; lia].
    + intros H. apply IH in H as (added & -> & F & Hd). exists added.
      repeat split; assumption || lia.
Qed.

Lemma pages_loop_requests fuel : forall tok d log r d' log',
  pages_loop service fuel tok d log = (r, d', log') ->
  exists added,
    log' = log ++ added
    /\ forallb cleanup_request added = true
    /\ d <= d' <= d + count is_delete added.
Proof.
  induction fuel as [|fuel IH]; intros tok d log r d' log'.
  - intros H. inversion H; subst. exists []. rewrite app_nil_r.
    repeat split; [lia|unfold count; simpl; lia].
  - cbn [pages_loop]. unfold execute at 1.
    set (page := events_list "primary" None 100 true tok).
    assert (cleanup_request page = true) as Hp by reflexivity.
    assert (is_delete page = false) as Hq by reflexivity.
    destruct (service log page) as [reply|e].
    + destruct (events_loop service (get_items reply) d (log ++ [page]))
        as [[r1 d1] log1] eqn:E.
      apply events_loop_requests in E as (added & -> & F & Hd).
      assert (forallb cleanup_request added = true) as Fc.
      { apply forallb_forall. intros q Hq'.
        rewrite List.Forall_forall in F. destruct (F q Hq') as (e & _ & ->).
        reflexivity. }
      assert (count is_delete added = Z.of_nat (length added)) as Fd.
      { unfold count. f_equal. f_equal.
        clear -F. induction F as [|q added (e & _ & ->) _ IH']; [reflexivity|].
        simpl. rewrite IH'. reflexivity. }
      destruct r1 as [[]|e1].
      * destruct (negb (truthy (nextPageToken reply))).
        -- intros H. inversion H; subst. exists (page :: added).
           rewrite <- app_assoc. cbn [forallb app]. rewrite Hp, Fc.
           repeat split; try lia.
           change (page :: added) with ([page] ++ added). rewrite count_app.
           unfold count at 1. simpl. lia.
        -- intros H. apply IH in H as (added' & -> & F' & Hd').
           exists (page :: added ++ added').
           rewrite <- !app_assoc. cbn [forallb app].
           rewrite forallb_app, Hp, Fc, F'.
           repeat split; try lia.
           change (page :: added ++ added') with ([page] ++ added ++ added').
           rewrite !count_app. unfold count at 1. simpl. lia.
      * intros H. inversion H; subst. exists (page :: added).
        rewrite <- app_assoc. cbn [forallb app]. rewrite Hp, Fc.
        repeat split; try lia.
        change (page :: added) with ([page] ++ added). rewrite count_app.
        unfold count at 1. simpl. lia.
    + intros H. inversion H; subst. exists [page].
      repeat split; try lia. unfold count. simpl. lia.
Qed.

(** X22. What the cleanup never does. Whatever the service answers and
    however many pages are read, the cleanup only asks for pages of the
    primary calendar and only deletes in the primary calendar: it never
    inserts, never updates, never touches another calendar; and the number
    it reports is at most the number of deletions it requested. *)
Theorem cleanup_only_deletes_in_primary (fuel : nat) (log : list request) :
  exists added,
    snd (cleanup_old_events service fuel log) = log ++ added
    /\ forallb cleanup_request added = true
    /\ match fst (cleanup_old_events service fuel log) with
       | Some deleted_count => 0 <= deleted_count <= count is_delete added
       | None => True
       end.
Proof.
  unfold cleanup_old_events.
  destruct (pages_loop service fuel None 0 log) as [[r d'] log'] eqn:E.
  apply pages_loop_requests in E as (added & -> & F & Hd).
  exists added. destruct r as [[[]|]|e]; simpl; repeat split; auto; lia.
Qed.

Lemma events_loop_all events : forall d log,
  (forall l id, exists reply, service l (events_delete "primary" id) = Ok reply) ->
  (forall e, In e (doomed events) -> e !! "id" <> None) ->
  events_loop service events d log
  = (Ok tt, d + Z.of_nat (length (doomed events)),
     log ++ map deletion_of (doomed events)).
Proof.
  intros d log Hs. revert d log.
  induction events as [|e events IH]; intros d log Hid.
  - simpl. rewrite app_nil_r, Z.add_0_r. reflexivity.
  - cbn [events_loop]. fold (title_in e). fold course_patterns.
    rewrite patterns_loop_eq. fold (looks_like_gradescope (title_in e)).
    unfold doomed in *. cbn [List.filter] in *.
    destruct (looks_like_gradescope (title_in e)) eqn:L.
    + destruct (e !! "id") as [id|] eqn:I;
        [|exfalso; exact (Hid e (or_introl eq_refl) I)].
      assert (events_delete "primary" id = deletion_of e) as D
        by (unfold deletion_of, id_in; rewrite I; reflexivity).
      destruct (Hs log id) as [reply ->]. rewrite D.
      rewrite IH by (intros e' He'; apply Hid; right; exact He').
      cbn [length map]. rewrite Nat2Z.inj_succ, <- app_assoc.
      f_equal. f_equal. lia.
    + apply IH. exact Hid.
Qed.

(** X23. A calendar of one page. When the first page comes without a
    token for a next one, every event to delete has an id and the service
    accepts the deletions, the cleanup ends after that page, for any
    positive bound on the pages: it deletes, in order and once each, the
    events of the page whose title contains one of the course codes and
    " - ", and reports their number. *)
Theorem cleanup_of_one_page (fuel : nat) (log : list request) (page : response) :
  service log first_page = Ok page ->
  truthy (nextPageToken page) = false ->
  (forall e, In e (doomed (get_items page)) -> e !! "id" <> None) ->
  (forall l id, exists reply, service l (events_delete "primary" id) = Ok reply) ->
  cleanup_old_events service (S fuel) log
  = (Some (Z.of_nat (length (doomed (get_items page)))),
     log ++ first_page :: map deletion_of (doomed (get_items page))).
Proof.
  intros Hp Ht Hid Hs. unfold cleanup_old_events. cbn [pages_loop].
  unfold execute at 1. fold first_page. rewrite Hp.
  rewrite (events_loop_all _ 0 _ Hs Hid), Ht. cbn [negb].
  rewrite <- app_assoc. reflexivity.
Qed.

End Cleanup.

Lemma cleanup_of_one_page_witness :
  cleanup_old_events paging_service 1 []
  = (Some 2, [first_page; events_delete "primary" "a1";
              events_delete "primary" "a3"]).
Proof.
  rewrite (cleanup_of_one_page paging_service 0 []
             (mk_response (Some sample_page) None)).
  - vm_compute. reflexivity.
  - reflexivity.
  - reflexivity.
  - vm_compute. intros e [<-|[<-|[]]]; discriminate.
  - intros l id. eexists. reflexivity.
Defined.

(** ** Titles *)

(** X24. The titles the synchronisation gives its events are titles the
    cleanup deletes, whenever the short name of the course contains one of
    the course codes; and an event whose title lacks " - " is never taken
    for one of them. *)
Theorem cleanup_recognises_synced_titles :
  (forall (c : course) (a : assignment),
      existsb (fun pattern => contains pattern (c_short_name c)) course_patterns
      = true ->
      looks_like_gradescope (title_of c a) = true)
  /\ (forall title, contains " - " title = false ->
                    looks_like_gradescope title = false).
Proof.
  split.
  - intros c a H. unfold looks_like_gradescope, title_of.
    apply existsb_exists in H as (p & Hin & Hp).
    apply existsb_exists. exists p. split; [exact Hin|].
    apply andb_true_iff. split.
    + apply contains_append_r. apply (contains_append_r p " - "). exact Hp.
    + apply contains_middle.
  - intros title H. unfold looks_like_gradescope.
    induction course_patterns as [|p ps IH]; [reflexivity|].
    cbn [existsb]. rewrite IH, H, andb_false_r. reflexivity.
Qed.

Lemma cleanup_recognises_synced_titles_witness :
  looks_like_gradescope (title_of cs70 homework1) = true
  /\ looks_like_gradescope "CS 70 office hours" = false.
Proof.
  split.
  - apply (proj1 cleanup_recognises_synced_titles). vm_compute. reflexivity.
  - apply (proj2 cleanup_recognises_synced_titles). vm_compute. reflexivity.
Defined.
(* ===================================================================== *)
(** * The ISO form sent to the calendar *)
(* ===================================================================== *)

#[local] Arguments format_offset : simpl never.
#[local] Arguments zero_padded : simpl never.
#[local] Arguments isoformat : simpl never.

Lemma zero_padded_2 v : 0 <= v <= 99 -> zero_padded 2 v = pad2 v.
Proof.
  intros H. apply String.eqb_eq.
  exact (forall_range (fun v => String.eqb (zero_padded 2 v) (pad2 v)) 0 100
           ltac:(vm_compute; reflexivity) v ltac:(lia)).
Qed.

Lemma zero_padded_4 y : 0 <= y <= 9999 -> zero_padded 4 y = pad4 y.
Proof.
  intros H. apply String.eqb_eq.
  exact (forall_range (fun v => String.eqb (zero_padded 4 v) (pad4 v)) 0 10000
           ltac:(vm_compute; reflexivity) y ltac:(lia)).
Qed.

Lemma re_z_last_iso us caps :
  whole_minutes us ->
  rmatch true (re_z >> Eps) (format_offset (Some us) ++ "") caps k0
  = Some (("z", format_offset (Some us)) :: caps, "").
Proof.
  intros H. apply whole_minutes_inv in H as (m & -> & Hm).
  apply sole_group_spec.
  exact (forall_range
    (fun m => sole_group true (re_z >> Eps)
                (format_offset (Some (m * 60000000)) ++ "")
                "z" (format_offset (Some (m * 60000000))))
    (-1439) 2879 ltac:(vm_compute; reflexivity) m ltac:(lia)).
Qed.

Lemma parse_z_iso us :
  whole_minutes us -> parse_z (format_offset (Some us)) = Ok (us / 1000000, 0).
Proof.
  intros H. apply whole_minutes_inv in H as (m & -> & Hm).
  pose proof (forall_range
    (fun m => match parse_z (format_offset (Some (m * 60000000))) with
              | Ok (g, f) => (g =? m * 60000000 / 1000000) && (f =? 0)
              | _ => false
              end) (-1439) 2879 ltac:(vm_compute; reflexivity) m ltac:(lia)) as C.
  cbv beta in C.
  destruct (parse_z (format_offset (Some (m * 60000000)))) as [[g f]|]; try discriminate.
  apply andb_true_iff in C as [C1 C2].
  apply Z.eqb_eq in C1, C2. subst. reflexivity.
Qed.

Lemma step_z_iso fd y0 mo0 d0 h0 mi0 s0 off0 fr0 us :
  group fd "z" = Some (format_offset (Some us)) -> whole_minutes us ->
  step fd (mkfields y0 mo0 d0 h0 mi0 s0 off0 fr0) "z"
  = Ok (mkfields y0 mo0 d0 h0 mi0 s0 (Some (us / 1000000)) 0).
Proof.
  intros G H. unfold step, getitem. simpl. rewrite G. simpl.
  rewrite parse_z_iso by assumption. reflexivity.
Qed.

Lemma head_format_offset us rest : head_nonspace (format_offset (Some us) ++ rest).
Proof. unfold format_offset. destruct (us <? 0); reflexivity. Qed.

Lemma ends_format_offset us :
  whole_minutes us -> ends_nonspace (format_offset (Some us) ++ "") = true.
Proof.
  intros H. apply whole_minutes_inv in H as (m & -> & Hm).
  exact (forall_range
    (fun m => ends_nonspace (format_offset (Some (m * 60000000)) ++ ""))
    (-1439) 2879 ltac:(vm_compute; reflexivity) m ltac:(lia)).
Qed.

Section Iso.
Variable dt : datetime.
Hypothesis V : valid dt.

Lemma isoformat_fields :
  isoformat dt = iso_fields dt (format_offset (tzinfo dt) ++ "").
Proof.
  ranges V. unfold isoformat, iso_fields.
  assert (microsecond dt = 0) as ->.
  { unfold valid in V. apply new_inv in V as [E _].
    rewrite E at 1. reflexivity. }
  rewrite zero_padded_4, !zero_padded_2 by lia.
  cbn [Z.eqb negb String.append]. rewrite append_nil_r. reflexivity.
Qed.

Lemma match_iso us :
  tzinfo dt = Some us -> whole_minutes us ->
  Strptime.strptime (iso_fields dt (format_offset (Some us) ++ "")) F2 = Ok dt.
Proof.
  intros Htz W. ranges V.
  rewrite (strptime_of_match _ R2 _
             [("z", format_offset (Some us)); ("S", pad2 (second dt));
              ("M", pad2 (minute dt)); ("H", pad2 (hour dt));
              ("d", pad2 (day dt)); ("m", pad2 (month dt)); ("Y", pad4 (year dt))]
             (year dt) (month dt) (day dt) (hour dt) (minute dt) (second dt)
             (Some (us / 1000000)) 0 pattern_2); try assumption.
  - rewrite timezone_whole by assumption. simpl. rewrite <- Htz. exact V.
  - unfold re_match, R2, iso_fields. walk. apply re_z_last_iso. assumption.
  - convert. erewrite step_z_iso; [|reflexivity|assumption]. reflexivity.
Qed.

Lemma miss_1_iso tail :
  Strptime.strptime (iso_fields dt tail) F1 = Raise ValueError.
Proof.
  ranges V. apply (strptime_no_match _ R1 _ pattern_1).
  unfold re_match, R1, iso_fields. walk. finish_miss.
Qed.

Lemma parse_iso Y :
  match tzinfo dt with Some us => whole_minutes us | None => True end ->
  parse_date (Some (isoformat dt)) Y = Ok (Some dt).
Proof.
  intros W. rewrite isoformat_fields. ranges V.
  destruct (tzinfo dt) as [us|] eqn:Htz.
  - pose proof (miss_1_iso (format_offset (Some us) ++ "")).
    apply (parse_date_hit _ Y [F1] F2 [F3; F4; F5; F6; F7; F8]);
      [reflexivity| | |misses|exact (match_iso us Htz W)].
    + unfold iso_fields. apply head_pad4. lia.
    + unfold iso_fields.
      do 5 (apply ends_app; apply ends_cons). apply ends_app.
      apply ends_format_offset, W.
  - exact (parse_written_3 dt V Y Htz).
Qed.

End Iso.

(** X25. A round trip. The text [create_or_update_event] sends as the
    start and the end of an event, the ISO form of the due date it read, is
    a text [parse_date] reads back to the same timestamp, in every
    reference year: for a timestamp without offset and for one with an
    offset of whole minutes. *)
Theorem sent_dates_read_back (dt : datetime) (Y : Z) :
  valid dt ->
  match tzinfo dt with Some us => whole_minutes us | None => True end ->
  parse_date (Some (isoformat dt)) Y = Ok (Some dt).
Proof. intros V W. exact (parse_iso dt V Y W). Qed.

Lemma sent_dates_read_back_witness :
  isoformat nine_am_pst = "2026-02-01T09:00:00-08:00"%string
  /\ parse_date (Some "2026-02-01T09:00:00-08:00"%string) 1999
     = Ok (Some nine_am_pst).
Proof.
  assert (E : isoformat nine_am_pst = "2026-02-01T09:00:00-08:00"%string)
    by (vm_compute; reflexivity).
  split; [exact E|]. rewrite <- E.
  apply sent_dates_read_back; [vm_compute; reflexivity|].
  vm_compute. split; [reflexivity|split; reflexivity].
Defined.
(* ===================================================================== *)
(** * The exceptions of the date normaliser *)
(* ===================================================================== *)

(** ** What a match captures *)

Lemma star_shrinks {A} ic c s (k : string -> option A) x :
  star ic c s k = Some x ->
  exists s', k s' = Some x /\ (String.length s' <= String.length s)%nat.
Proof.
  induction s as [|a s IH]; simpl.
  - intros H. exists ""%string. auto.
  - destruct (cls_match ic c a).
    + destruct (star ic c s k) as [y|] eqn:E.
      * intros H. inversion H; subst. destruct (IH eq_refl) as (s' & Hk & Hl).
        exists s'. split; [exact Hk|lia].
      * intros H. exists (String a s). auto.
    + intros H. exists (String a s). auto.
Qed.

Lemma plain_sound {A} ic r : no_groups r = true ->
  forall s caps (k : string -> captures -> option A) x,
    rmatch ic r s caps k = Some x ->
    exists s', k s' caps = Some x
               /\ (String.length s' + minlen r <= String.length s)%nat.
Proof.
  induction r as [|l|l|cl|r1 IH1 r2 IH2|r1 IH1 r2 IH2|cl|n r1 IH1];
    intros N s caps k x; cbn [rmatch minlen]; try discriminate N.
  - intros H. exists s. split; [exact H|lia].
  - destruct s as [|a s]; [discriminate|]. destruct (chr_match ic l a); [|discriminate].
    intros H. exists s. split; [exact H|simpl; lia].
  - destruct s as [|a s]; [discriminate|]. destruct (Ascii.eqb a l); [|discriminate].
    intros H. exists s. split; [exact H|simpl; lia].
  - destruct s as [|a s]; [discriminate|]. destruct (cls_match ic cl a); [|discriminate].
    intros H. exists s. split; [exact H|simpl; lia].
  - simpl in N. apply andb_true_iff in N as [N1 N2]. intros H.
    destruct (IH1 N1 _ _ _ _ H) as (s1 & H1 & L1).
    destruct (IH2 N2 _ _ _ _ H1) as (s2 & H2 & L2).
    exists s2. split; [exact H2|lia].
  - simpl in N. apply andb_true_iff in N as [N1 N2].
    destruct (rmatch ic r1 s caps k) as [y|] eqn:E.
    + intros H. inversion H; subst.
      destruct (IH1 N1 _ _ _ _ E) as (s1 & H1 & L1). exists s1. split; [exact H1|lia].
    + intros H. destruct (IH2 N2 _ _ _ _ H) as (s2 & H2 & L2).
      exists s2. split; [exact H2|lia].
  - intros H. apply star_shrinks in H as (s' & Hk & Hl).
    exists s'. split; [exact Hk|lia].
Qed.

Lemma length_substring_0 n s :
  (n <= String.length s)%nat -> String.length (substring 0 n s) = n.
Proof.
  revert s. induction n as [|n IH]; intros s H.
  - destruct s; reflexivity.
  - destruct s as [|a s]; [simpl in H; lia|].
    simpl. rewrite IH; [reflexivity|simpl in H; lia].
Qed.

Lemma length_consumed s s' :
  (String.length s' <= String.length s)%nat ->
  String.length (consumed s s') = (String.length s - String.length s')%nat.
Proof. intros H. unfold consumed. apply length_substring_0. lia. Qed.

Lemma group_cons_present n v caps n0 :
  (n0 = n \/ group caps n0 <> None) -> group ((n, v) :: caps) n0 <> None.
Proof.
  intros H. cbn [group]. destruct (String.eqb_spec n n0) as [E|E]; [discriminate|].
  destruct H as [H|H]; [congruence|exact H].
Qed.

(** The groups of a successful match: those named [z] hold what [%z]
    admits, and those of [must] are all there. *)
Lemma rmatch_sound {A} r : zsafe r ->
  forall s caps (k : string -> captures -> option A) x,
    caps_ok caps ->
    rmatch true r s caps k = Some x ->
    exists s' caps',
      k s' caps' = Some x /\ caps_ok caps'
      /\ (String.length s' + minlen r <= String.length s)%nat
      /\ forall n, (In n (must r) \/ group caps n <> None) ->
                   group caps' n <> None.
Proof.
  induction r as [|l|l|cl|r1 IH1 r2 IH2|r1 IH1 r2 IH2|cl|n r1 IH1];
    intros Z s caps k x C; cbn [rmatch minlen must].
  - intros H. exists s, caps. repeat split; auto; [lia|]. intros n [[]|Hn]; exact Hn.
  - destruct s as [|a s]; [discriminate|]. destruct (chr_match true l a); [|discriminate].
    intros H. exists s, caps. repeat split; auto; [simpl; lia|].
    intros n [[]|Hn]; exact Hn.
  - destruct s as [|a s]; [discriminate|]. destruct (Ascii.eqb a l); [|discriminate].
    intros H. exists s, caps. repeat split; auto; [simpl; lia|].
    intros n [[]|Hn]; exact Hn.
  - destruct s as [|a s]; [discriminate|]. destruct (cls_match true cl a); [|discriminate].
    intros H. exists s, caps. repeat split; auto; [simpl; lia|].
    intros n [[]|Hn]; exact Hn.
  - destruct Z as [Z1 Z2]. intros H.
    destruct (IH1 Z1 _ _ _ _ C H) as (s1 & c1 & H1 & C1 & L1 & G1).
    destruct (IH2 Z2 _ _ _ _ C1 H1) as (s2 & c2 & H2 & C2 & L2 & G2).
    exists s2, c2. repeat split; auto; [lia|].
    intros n [Hn|Hn].
    + apply in_app_or in Hn as [Hn|Hn]; [apply G2; right; apply G1; auto|apply G2; auto].
    + apply G2. right. apply G1. auto.
  - destruct Z as [Z1 Z2].
    destruct (rmatch true r1 s caps k) as [y|] eqn:E.
    + intros H. inversion H; subst.
      destruct (IH1 Z1 _ _ _ _ C E) as (s1 & c1 & H1 & C1 & L1 & G1).
      exists s1, c1. repeat split; auto; [lia|].
      intros n [[]|Hn]. apply G1. auto.
    + intros H. destruct (IH2 Z2 _ _ _ _ C H) as (s2 & c2 & H2 & C2 & L2 & G2).
      exists s2, c2. repeat split; auto; [lia|].
      intros n [[]|Hn]. apply G2. auto.
  - intros H. apply star_shrinks in H as (s' & Hk & Hl).
    exists s', caps. repeat split; auto; [lia|]. intros n [[]|Hn]; exact Hn.
  - cbn [zsafe] in Z. destruct (String.eqb_spec n "z") as [->|Nz].
    + (* the group of [%z] *)
      assert (r1 = (z_long <|> ChrCS "Z")) as ->
        by (unfold re_z in Z; inversion Z; reflexivity).
      set (k' := fun s' caps' => k s' (("z"%string, consumed s s') :: caps')).
      intros H.
      change (match rmatch true z_long s caps k' with
              | Some y => Some y
              | None => rmatch true (ChrCS "Z") s caps k'
              end = Some x) in H.
      destruct (rmatch true z_long s caps k') as [y|] eqn:E;
        [injection H as ->;
         destruct (plain_sound true z_long eq_refl _ _ _ _ E) as (s' & Hk & Hl)
        |cbn [rmatch] in H].
      * exists s', (("z"%string, consumed s s') :: caps).
        simpl in Hl. split; [exact Hk|]. split; [|split; [simpl; lia|]].
        -- intros v [Hv|Hv]; [|apply C, Hv]. inversion Hv. right.
           rewrite length_consumed by lia. lia.
        -- intros n Hn. apply group_cons_present.
           destruct Hn as [[Hn|[]]|Hn]; auto.
      * destruct s as [|a s]; [discriminate|].
        destruct (Ascii.eqb_spec a "Z") as [->|]; [|discriminate].
        exists s, (("z"%string, consumed (String "Z" s) s) :: caps).
        split; [exact H|]. split; [|split; [simpl; lia|]].
        -- intros v [Hv|Hv]; [|apply C, Hv]. inversion Hv. left.
           exact (consumed_append "Z" s).
        -- intros n Hn. apply group_cons_present.
           destruct Hn as [[Hn|[]]|Hn]; auto.
    + intros H.
      destruct (IH1 Z _ _ _ _ C H) as (s' & c' & Hk & C' & L' & G').
      exists s', ((n, consumed s s') :: c'). split; [exact Hk|].
      split; [|split; [exact L'|]].
      * intros v [Hv|Hv]; [inversion Hv; congruence|apply C', Hv].
      * intros n0 Hn. apply group_cons_present.
        destruct Hn as [[Hn|Hn]|Hn]; auto.
Qed.

(** ** The exceptions of the parts *)

Lemma int_raises s e : int s = Raise e -> e = ValueError.
Proof.
  unfold int.
  destruct (match strip s with
            | String "-" b => (-1, b)
            | String "+" b => (1, b)
            | _ => (1, strip s)
            end) as [sign body].
  destruct (int_digits body 0 0 false) as [[v n]|];
    [destruct (max_str_digits <? n)%nat|]; intros H; inversion H; reflexivity.
Qed.

Lemma index_of_raises x l e : index_of x l = Raise e -> e = ValueError.
Proof.
  unfold index_of. induction l as [|y l IH]; [intros H; inversion H; reflexivity|].
  destruct (String.eqb y x); [discriminate|].
  fold (index_of x l) in *. destruct (index_of x l); [discriminate|].
  simpl. intros H. inversion H; subst. apply IH. reflexivity.
Qed.

Lemma check_date_args_raises y m d e :
  check_date_args y m d = Raise e -> e = ValueError.
Proof.
  unfold check_date_args.
  repeat (destruct (negb _); [intros H; inversion H; reflexivity|]). discriminate.
Qed.

Lemma check_time_args_raises h mi s us e :
  check_time_args h mi s us = Raise e -> e = ValueError.
Proof.
  unfold check_time_args.
  repeat (destruct (negb _); [intros H; inversion H; reflexivity|]). discriminate.
Qed.

Lemma date_raises y m d e : Datetime.date y m d = Raise e -> value_or_overflow e.
Proof.
  unfold Datetime.date. destruct (negb _).
  - intros H. inversion H. right. reflexivity.
  - intros H. left. eapply check_date_args_raises, H.
Qed.

Lemma new_raises y m d h mi s us tz e :
  Datetime.new y m d h mi s us tz = Raise e -> value_or_overflow e.
Proof.
  unfold Datetime.new. destruct (negb _).
  - intros H. inversion H. right. reflexivity.
  - destruct (check_date_args y m d) as [[]|e1] eqn:D; simpl.
    + destruct (check_time_args h mi s us) as [[]|e2] eqn:T; simpl; [discriminate|].
      intros H. inversion H; subst. left. eapply check_time_args_raises, T.
    + intros H. inversion H; subst. left. eapply check_date_args_raises, D.
Qed.

Lemma timezone_raises s us e : timezone s us = Raise e -> e = ValueError.
Proof. unfold timezone. destruct (_ && _); intros H; inversion H; reflexivity. Qed.

Lemma char_at_in_range i s :
  (i < String.length s)%nat -> exists c, char_at i s = Ok c.
Proof.
  unfold char_at. revert i. induction s as [|a s IH]; intros i H; [simpl in H; lia|].
  destruct i as [|i]; simpl; [eauto|]. apply IH. simpl in H. lia.
Qed.

Lemma parse_z_raises v e : zgood v -> parse_z v = Raise e -> e = ValueError.
Proof.
  unfold parse_z. intros G.
  destruct (String.eqb_spec v "Z") as [|N]; [discriminate|].
  destruct G as [G|G]; [contradiction|].
  destruct (char_at_in_range 3 v ltac:(lia)) as [c3 ->]. cbn [Py.bind].
  set (z1 := (slice 0 3 v ++ slice_from 4 v)%string).
  assert (exists z, (if Ascii.eqb c3 ":" then
                       if (5 <? String.length z1)%nat then
                         let! c5 := char_at 5 z1 in
                         if negb (Ascii.eqb c5 ":") then Raise ValueError
                         else Ok (slice 0 5 z1 ++ slice_from 6 z1)%string
                       else Ok z1
                     else Ok v) = Ok z
                    \/ (if Ascii.eqb c3 ":" then
                          if (5 <? String.length z1)%nat then
                            let! c5 := char_at 5 z1 in
                            if negb (Ascii.eqb c5 ":") then Raise ValueError
                            else Ok (slice 0 5 z1 ++ slice_from 6 z1)%string
                          else Ok z1
                        else Ok v) = Raise ValueError) as [z [-> | ->]].
  { destruct (Ascii.eqb c3 ":"); [|exists v; left; reflexivity].
    destruct (Nat.ltb_spec 5 (String.length z1)); [|exists z1; left; reflexivity].
    destruct (char_at_in_range 5 z1 ltac:(lia)) as [c5 ->]. cbn [Py.bind].
    destruct (negb _); [exists v; right; reflexivity|eexists; left; reflexivity]. }
  2: { intros H. inversion H. reflexivity. }
  cbn [Py.bind].
  destruct (int (slice 1 3 z)) as [hours|e1] eqn:E1; cbn [Py.bind];
    [|intros H; injection H as <-; eapply int_raises, E1].
  destruct (int (slice 3 5 z)) as [minutes|e2] eqn:E2; cbn [Py.bind];
    [|intros H; injection H as <-; eapply int_raises, E2].
  destruct (if nonempty (slice 5 7 z) then int (slice 5 7 z) else Ok 0)
    as [seconds|e3] eqn:E3; cbn [Py.bind].
  2: { intros H. injection H as <-.
       destruct (nonempty (slice 5 7 z)); [eapply int_raises, E3|discriminate]. }
  cbv zeta.
  match goal with
  | |- Py.bind (int ?a) _ = _ -> _ =>
      destruct (int a) as [fraction|e4] eqn:E4; cbn [Py.bind];
      [|intros H; injection H as <-; eapply int_raises, E4]
  end.
  destruct (String.prefix "-" z); discriminate.
Qed.

Lemma group_in caps n v : group caps n = Some v -> In (n, v) caps.
Proof.
  induction caps as [|[n' v'] caps IH]; [discriminate|]. cbn [group].
  destruct (String.eqb_spec n' n) as [->|].
  - intros H. inversion H. left. reflexivity.
  - intros H. right. apply IH, H.
Qed.

Lemma group_of_key caps key : In key (keys caps) -> group caps key <> None.
Proof.
  unfold keys. rewrite List.map_rev, <- List.in_rev.
  induction caps as [|[n v] caps IH]; [intros []|].
  cbn [map fst group]. intros [->|H].
  - rewrite String.eqb_refl. discriminate.
  - destruct (String.eqb n key); [discriminate|apply IH, H].
Qed.

Ltac int_field G :=
  unfold getitem;
  match goal with
  | |- context [group ?fd ?key] =>
      destruct (group fd key) as [v|] eqn:Gv; [|exfalso; apply G; reflexivity]
  end;
  cbn [Py.bind];
  match goal with
  | |- context [int ?v] =>
      let E := fresh "E" in
      destruct (int v) as [n|e'] eqn:E; cbn [Py.bind];
      [discriminate|intros H; inversion H; subst; eapply int_raises, E]
  end.

Lemma step_raises fd st key e :
  caps_ok fd -> group fd key <> None ->
  step fd st key = Raise e -> e = ValueError.
Proof.
  intros C G. unfold step. destruct st as [y mo d h mi s off frac].
  destruct (String.eqb_spec key "Y") as [->|_]; [int_field G|].
  destruct (String.eqb_spec key "m") as [->|_]; [int_field G|].
  destruct (String.eqb_spec key "B") as [->|_].
  { unfold getitem. destruct (group fd "B") as [v|]; [|exfalso; apply G; reflexivity].
    cbn [Py.bind]. destruct (index_of _ f_month) as [n|e'] eqn:E; cbn [Py.bind];
      [discriminate|intros H; inversion H; subst; eapply index_of_raises, E]. }
  destruct (String.eqb_spec key "b") as [->|_].
  { unfold getitem. destruct (group fd "b") as [v|]; [|exfalso; apply G; reflexivity].
    cbn [Py.bind]. destruct (index_of _ a_month) as [n|e'] eqn:E; cbn [Py.bind];
      [discriminate|intros H; inversion H; subst; eapply index_of_raises, E]. }
  destruct (String.eqb_spec key "d") as [->|_]; [int_field G|].
  destruct (String.eqb_spec key "H") as [->|_]; [int_field G|].
  destruct (String.eqb_spec key "I") as [->|_]; [int_field G|].
  destruct (String.eqb_spec key "M") as [->|_]; [int_field G|].
  destruct (String.eqb_spec key "S") as [->|_]; [int_field G|].
  destruct (String.eqb_spec key "z") as [->|_]; [|discriminate].
  unfold getitem. destruct (group fd "z") as [v|] eqn:Gv; [|exfalso; apply G; reflexivity].
  cbn [Py.bind]. destruct (parse_z v) as [[g gf]|e'] eqn:E; cbn [Py.bind];
    [discriminate|].
  intros H. inversion H; subst. eapply parse_z_raises; [|exact E].
  apply C, group_in, Gv.
Qed.

Lemma steps_raises fd ks : forall st e,
  caps_ok fd -> (forall key, In key ks -> group fd key <> None) ->
  steps fd st ks = Raise e -> e = ValueError.
Proof.
  induction ks as [|key ks IH]; intros st e C G; [discriminate|].
  cbn [steps]. destruct (step fd st key) as [st'|e'] eqn:E; cbn [Py.bind].
  - apply IH; [exact C|]. intros k Hk. apply G. right. exact Hk.
  - intros H. inversion H; subst. eapply step_raises; [exact C| |exact E].
    apply G. left. reflexivity.
Qed.

Lemma caps_ok_nil : caps_ok [].
Proof. intros v []. Qed.

Lemma strptime_raises s fmt e :
  match pattern fmt with Some R => zsafe R | None => True end ->
  Strptime.strptime s fmt = Raise e -> value_or_overflow e.
Proof.
  intros Z. unfold Strptime.strptime, _strptime.
  destruct (pattern fmt) as [R|]; [|intros H; inversion H; left; reflexivity].
  destruct (re_match true R s) as [[fd rest]|] eqn:M;
    [|intros H; inversion H; left; reflexivity].
  destruct (nonempty rest); [intros H; inversion H; left; reflexivity|].
  unfold re_match in M.
  destruct (rmatch_sound R Z _ _ _ _ caps_ok_nil M) as (s' & c' & Hk & C & _).
  inversion Hk; subst c' s'. clear Hk.
  destruct (steps fd fields0 (keys fd)) as [st|e1] eqn:S; cbn [Py.bind].
  2: { intros H. inversion H; subst. left.
       eapply steps_raises; [exact C| |exact S]. apply group_of_key. }
  destruct st as [y mo d h mi sec off frac].
  destruct (Datetime.date _ mo d) as [[]|e1] eqn:D1; cbn [Py.bind];
    [|intros H; inversion H; subst; eapply date_raises, D1].
  destruct (Datetime.date _ 1 1) as [[]|e1] eqn:D2; cbn [Py.bind];
    [|intros H; inversion H; subst; eapply date_raises, D2].
  destruct off as [g|].
  - destruct (timezone g frac) as [tz|e1] eqn:T; cbn [Py.bind].
    + apply new_raises.
    + intros H. inversion H; subst. left. eapply timezone_raises, T.
  - apply new_raises.
Qed.

Lemma formats_zsafe :
  Forall (fun fmt => match pattern fmt with Some R => zsafe R | None => True end)
         formats_used.
Proof. repeat constructor; cbv; repeat split; reflexivity. Qed.

Lemma for_formats_raises body fmts otherwise e :
  for_formats body fmts otherwise = Raise e ->
  (exists fmt, In fmt fmts /\ body fmt = Raise e) \/ otherwise = Raise e.
Proof.
  induction fmts as [|fmt fmts IH]; simpl; [auto|].
  destruct (body fmt) as [d|e1] eqn:E; simpl; [discriminate|].
  destruct e1; simpl;
    try (intros H; inversion H; subst; left; eauto; fail).
  intros H. destruct (IH H) as [(f & Hin & Hf)|Ho]; [left; eauto|auto].
Qed.

Lemma month_of_raises s e : month_of s = Raise e -> value_or_overflow e.
Proof.
  pose proof formats_zsafe as Z. rewrite List.Forall_forall in Z.
  unfold month_of.
  destruct (Strptime.strptime s "%B") as [dt|e1] eqn:E1; [discriminate|].
  apply strptime_raises in E1; [|apply Z; unfold formats_used; simpl; tauto].
  destruct E1 as [-> | ->]; cbn [Py.bind except_ValueError].
  2: { intros H. inversion H. right. reflexivity. }
  destruct (Strptime.strptime s "%b") as [dt|e2] eqn:E2; [discriminate|].
  apply strptime_raises in E2; [|apply Z; unfold formats_used; simpl; tauto].
  destruct E2 as [-> | ->]; cbn [Py.bind except_ValueError]; [discriminate|].
  intros H. inversion H. right. reflexivity.
Qed.

Lemma re_search_groups s : forall m,
  re_search true month_day_at_time s = Some m ->
  forall n, In n ["1"; "2"; "3"; "4"; "5"]%string -> group m n <> None.
Proof.
  induction s as [|a s IH]; intros m; cbn [re_search].
  - destruct (re_match true month_day_at_time "") as [[caps rest]|] eqn:M;
      [|discriminate].
    vm_compute in M. discriminate.
  - destruct (re_match true month_day_at_time (String a s)) as [[caps rest]|] eqn:M;
      [|apply IH].
    intros H. inversion H; subst caps. unfold re_match in M.
    assert (Z : zsafe month_day_at_time) by (cbv; tauto).
    destruct (rmatch_sound _ Z _ _ _ _ caps_ok_nil M) as (s' & c' & Hk & _ & _ & G).
    inversion Hk; subst. intros n Hn. apply G. left. exact Hn.
Qed.

Lemma from_match_raises m Y e :
  (forall n, In n ["1"; "2"; "3"; "4"; "5"]%string -> group m n <> None) ->
  from_match m Y = Raise e -> value_or_overflow e.
Proof.
  intros G. unfold from_match.
  destruct (group m "1") as [a|] eqn:G1; [|exfalso; apply (G "1"%string); simpl; tauto].
  destruct (group m "2") as [b|] eqn:G2; [|exfalso; apply (G "2"%string); simpl; tauto].
  destruct (group m "3") as [c|] eqn:G3; [|exfalso; apply (G "3"%string); simpl; tauto].
  destruct (group m "4") as [d|] eqn:G4; [|exfalso; apply (G "4"%string); simpl; tauto].
  destruct (group m "5") as [p|] eqn:G5; [|exfalso; apply (G "5"%string); simpl; tauto].
  destruct (month_of a) as [[mo|]|e1] eqn:Mo; cbn [Py.bind]; [|discriminate|].
  2: { intros H. inversion H; subst. eapply month_of_raises, Mo. }
  destruct (int c) as [hh|e1] eqn:E1; cbn [Py.bind];
    [|intros H; inversion H; subst; left; eapply int_raises, E1].
  destruct (int d) as [mm|e1] eqn:E2; cbn [Py.bind];
    [|intros H; inversion H; subst; left; eapply int_raises, E2].
  destruct (int b) as [dd|e1] eqn:E3; cbn [Py.bind];
    [|intros H; inversion H; subst; left; eapply int_raises, E3].
  destruct (Datetime.new _ _ _ _ _ _ _ _) as [dt|e1] eqn:N; cbn [Py.bind];
    [discriminate|].
  intros H. inversion H; subst. eapply new_raises, N.
Qed.

(** X26. Whatever the text and the reference year, the only exceptions
    [parse_date] lets through are [ValueError] and [OverflowError]: never
    a [KeyError], an [IndexError] or an [AttributeError] from the groups of
    a match. *)
Theorem parse_date_raises_value_or_overflow (date_str : option string) (Y : Z)
    (e : exn) :
  parse_date date_str Y = Raise e -> e = ValueError \/ e = OverflowError.
Proof.
  pose proof formats_zsafe as Z. rewrite List.Forall_forall in Z.
  destruct date_str as [[|c s]|]; try discriminate.
  unfold parse_date. intros H.
  apply for_formats_raises in H as [(fmt & Hin & Hf)|H].
  { eapply strptime_raises; [|exact Hf]. apply Z. unfold formats_used.
    apply in_or_app. left. exact Hin. }
  apply for_formats_raises in H as [(fmt & Hin & Hf)|H].
  { destruct (Strptime.strptime _ fmt) as [parsed|e1] eqn:P; cbn [Py.bind] in Hf.
    - unfold replace_year in Hf. eapply new_raises, Hf.
    - inversion Hf; subst. eapply strptime_raises; [|exact P]. apply Z.
      unfold formats_used. apply in_or_app. right. apply in_or_app. left. exact Hin. }
  destruct (re_search true month_day_at_time _) as [m|] eqn:S; [|discriminate].
  eapply from_match_raises; [|exact H]. eapply re_search_groups, S.
Qed.

Lemma parse_date_raises_value_or_overflow_witness :
  parse_date (Some "January 99999999999 at 4:00 PM") 2026 = Raise OverflowError
  /\ (OverflowError = ValueError \/ OverflowError = OverflowError).
Proof.
  assert (E : parse_date (Some "January 99999999999 at 4:00 PM") 2026
              = Raise OverflowError) by (vm_compute; reflexivity).
  split; [exact E|].
  exact (parse_date_raises_value_or_overflow _ _ _ E).
Defined.
(* ===================================================================== *)
(** * The two programs *)
(* ===================================================================== *)

(** ** [generate_ical.main] *)

Lemma courses_loop_eq fetch courses : forall acc,
  courses_loop fetch courses acc
  = Ok (acc ++ flat_map (fun c => map (format_assignment c)
                                    (List.filter has_due_date (records_of fetch c)))
                        courses).
Proof.
  induction courses as [|c courses IH]; intros acc.
  - simpl. rewrite app_nil_r. reflexivity.
  - cbn [courses_loop flat_map]. unfold records_of at 1.
    rewrite get_assignments_omap. cbn [Py.bind].
    rewrite IH, collect_filter, <- app_assoc. reflexivity.
Qed.

(** X27. The dicts [generate_ical.main] hands to [save_ics_file]. Collecting
    them never fails; they come course by course and, within a course, row
    by row; each has a truthy due date; and [create_event] finds in each
    the keys it reads: the only exceptions it can raise on them are those
    [parse_date] raises on the due date. *)
Theorem collected_dicts_are_complete (fetch : string -> node)
    (courses : list course) :
  exists all_assignments,
    courses_loop fetch courses [] = Ok all_assignments
    /\ all_assignments
       = flat_map (fun c => map (format_assignment c)
                              (List.filter has_due_date (records_of fetch c)))
                  courses
    /\ Forall (fun d =>
                 truthy (dget d "due_date") = true
                 /\ forall t Y e,
                      create_event d t Y = Raise e ->
                      parse_date (dget d "due_date") Y = Raise e)
              all_assignments.
Proof.
  eexists. split; [apply courses_loop_eq|]. split; [reflexivity|].
  apply List.Forall_forall. intros d Hd.
  apply in_flat_map in Hd as (c & _ & Hd).
  apply in_map_iff in Hd as (a & <- & Ha).
  apply filter_In in Ha as [_ Ha]. split; [exact Ha|].
  intros t Y e H. change (project c a t Y = Raise e) in H.
  rewrite project_eq in H.
  change (dget (format_assignment c a) "due_date") with (a_due_date a).
  destruct (parse_date (a_due_date a) Y) as [[dt|]|e'] eqn:P; try discriminate.
  injection H as ->. reflexivity.
Qed.

(** ** The same assignment in the file and in the calendar *)

Section Alike.
Variable service : list request -> request -> res response.

(** X28. The two programs describe an assignment alike. When the due date
    is read, the event [generate_ical] writes and the requests
    [sync_gradescope] sends agree: the search is for the summary of the
    event, at most one request follows it, an insertion or an update, and
    its body has that summary, the ISO form of the event's start, and the
    event's description, followed by a line feed when the assignment has no
    url. *)
Theorem file_and_calendar_agree (c : course) (a : assignment) (cid : string)
    (t : datetime) (Y : Z) (dt : datetime) (tot : totals) (log : list request) :
  has_due_date a = true ->
  parse_date (a_due_date a) Y = Ok (Some dt) ->
  let ev := event_of c a t dt in
  project c a t Y = Ok (Some ev)
  /\ exists sent,
       snd (sync_assignment service c cid Y a tot log)
       = log ++ search_for (summary ev) cid :: sent
       /\ (length sent <= 1)%nat
       /\ Forall (fun w =>
                    exists body,
                      (w = events_insert cid body
                       \/ exists id, w = events_update cid id body)
                      /\ body_summary body = summary ev
                      /\ fst (body_start body) = isoformat (dtstart ev)
                      /\ body_description body
                         = (description ev
                            ++ if truthy (a_url a) then ""
                               else String "010" "")%string)
                 sent.
Proof.
  intros Hd P ev. split; [rewrite project_eq, P; reflexivity|].
  unfold sync_assignment. unfold has_due_date in Hd. rewrite Hd. cbn [negb].
  set (title := (a_name a ++ " - " ++ c_short_name c)%string).
  set (description := if truthy (a_url a) then _ else _).
  assert (Hdesc : description
                  = (ical_generator.description ev
                     ++ if truthy (a_url a) then "" else String "010" "")%string).
  { subst description ev. unfold event_of, ical_generator.description. cbn.
    destruct (truthy (a_url a)).
    - rewrite append_nil_r, !append_assoc. reflexivity.
    - reflexivity. }
  rewrite bindM_eq.
  destruct (create_or_update_event_cases service title description "" cid
              (a_due_date a) Y dt log P) as (found & _ & Hc).
  assert (Hbody : forall w, w = body_for title description "" dt ->
            body_summary w = summary ev
            /\ fst (body_start w) = isoformat (dtstart ev)
            /\ body_description w
               = (ical_generator.description ev
                  ++ if truthy (a_url a) then "" else String "010" "")%string).
  { intros w ->. repeat split. exact Hdesc. }
  destruct found as [e0|].
  - destruct Hc as [_ Hc]. destruct (e0 !! "id") as [id|]; rewrite Hc.
    + exists [events_update cid id (body_for title description "" dt)].
      split; [|split; [simpl; lia|]].
      * destruct (service _ (events_update _ _ _)); [|rewrite <- app_assoc; reflexivity].
        cbv beta iota. cbn [action]. cbn [String.eqb Ascii.eqb Bool.eqb].
        rewrite <- app_assoc. reflexivity.
      * constructor; [|constructor].
        eexists. split; [right; eexists; reflexivity|]. apply Hbody. reflexivity.
    + exists []. split; [reflexivity|]. split; [simpl; lia|constructor].
  - rewrite Hc.
    exists [events_insert cid (body_for title description "" dt)].
    split; [|split; [simpl; lia|]].
    + destruct (service _ (events_insert _ _)); [|rewrite <- app_assoc; reflexivity].
      cbv beta iota. cbn [action]. cbn [String.eqb Ascii.eqb Bool.eqb].
      rewrite <- app_assoc. reflexivity.
    + constructor; [|constructor].
      eexists. split; [left; reflexivity|]. apply Hbody. reflexivity.
Qed.

End Alike.

Lemma file_and_calendar_agree_witness :
  project cs101 homework1 stamp 2026
  = Ok (Some (event_of cs101 homework1 stamp nine_am_pst))
  /\ exists sent,
       snd (sync_assignment sample_service cs101 "primary" 2026 homework1
              (mk_totals 0 0 0) [])
       = search_for "Homework 1 - CS 101" "primary" :: sent
       /\ (length sent <= 1)%nat.
Proof.
  destruct (file_and_calendar_agree sample_service cs101 homework1 "primary"
              stamp 2026 nine_am_pst (mk_totals 0 0 0) [])
    as (P & sent & S & L & _).
  - vm_compute. reflexivity.
  - vm_compute. reflexivity.
  - split; [exact P|]. exists sent. split; [exact S|exact L].
Defined.
